(** * Learning Pulse: the persona classification pipeline

    A shallow embedding of the deterministic part of
    [be/file-processor/learning_pulse]: the feature extractor, the class
    resolution of the persona classifier, the logic guardrails, the
    recommendation table and the prediction endpoint that chains them.

    Numbers.  Python [int] is [Z].  Python [float] is idealised as a
    rational ([Q]): every comparison, division and weighted sum of the
    source is carried out exactly, and equality of values is [Qeq].
    Rounding, infinities and NaN are outside the model, and so is the
    [OverflowError] of a true division whose [int] operand or quotient
    is no double.  The source and the model decide alike whether a
    feature vector is built as long as the integer counts are below
    [2^53] ([counts_exact]); the properties that state when [extract]
    returns or raises are stated on such inputs.

    Errors.  A raised exception is the [Raise] branch of [Result]; the
    pydantic field constraints of [models.py] are checked where the source
    constructs the model. *)

From Stdlib Require Import ZArith QArith Bool List String Lia Lqa.
Import ListNotations.
Open Scope Q_scope.

(** ** Exceptions *)

Inductive PyError : Type :=
| ValidationError
| ValueError
| AttributeError
| RuntimeError
| IndexError
| HTTPException (status_code : Z).

Inductive Result (A : Type) : Type :=
| Ok (a : A)
| Raise (e : PyError).

Arguments Ok {A} a.
Arguments Raise {A} e.

Definition bind {A B : Type} (m : Result A) (k : A -> Result B) : Result B :=
  match m with
  | Ok a => k a
  | Raise e => Raise e
  end.

Notation "x <- m ;; k" := (bind m (fun x => k))
  (at level 61, m at next level, right associativity).

(** ** Python arithmetic on the rational idealisation *)

Definition Qlt_bool (x y : Q) : bool := negb (Qle_bool y x).

(** [min(a, b)] returns [a] unless [b < a]; [max(a, b)] returns [a]
    unless [b > a]. *)
Definition pymin (a b : Q) : Q := if Qlt_bool b a then b else a.
Definition pymax (a b : Q) : Q := if Qlt_bool a b then b else a.

(** A field declared [Field(ge=lo, le=hi)]. *)
Definition in_range (lo hi x : Q) : bool := Qle_bool lo x && Qle_bool x hi.
Definition unit_range (x : Q) : bool := in_range 0 1 x.

(** ** models.py *)

Inductive EngagementTrend : Type := INCREASING | STABLE | DECLINING.

(** The members in declaration order. *)
Inductive LearningPersona : Type :=
| SKIMMER | STRUGGLER | ANXIOUS | BURNOUT | MASTER
| PROCRASTINATOR | DEEP_DIVER | SOCIAL_LEARNER | PERFECTIONIST | LOST.

Definition LearningPersona_eqb (a b : LearningPersona) : bool :=
  match a, b with
  | SKIMMER, SKIMMER | STRUGGLER, STRUGGLER | ANXIOUS, ANXIOUS
  | BURNOUT, BURNOUT | MASTER, MASTER | PROCRASTINATOR, PROCRASTINATOR
  | DEEP_DIVER, DEEP_DIVER | SOCIAL_LEARNER, SOCIAL_LEARNER
  | PERFECTIONIST, PERFECTIONIST | LOST, LOST => true
  | _, _ => false
  end.

Definition LearningPersona_members : list LearningPersona :=
  [SKIMMER; STRUGGLER; ANXIOUS; BURNOUT; MASTER;
   PROCRASTINATOR; DEEP_DIVER; SOCIAL_LEARNER; PERFECTIONIST; LOST].

(** [member.value] *)
Definition value (p : LearningPersona) : string :=
  match p with
  | SKIMMER => "skimmer"
  | STRUGGLER => "struggler"
  | ANXIOUS => "anxious"
  | BURNOUT => "burnout"
  | MASTER => "master"
  | PROCRASTINATOR => "procrastinator"
  | DEEP_DIVER => "deep_diver"
  | SOCIAL_LEARNER => "social_learner"
  | PERFECTIONIST => "perfectionist"
  | LOST => "lost"
  end%string.

(** [LearningPersona(s)]: lookup by value, [ValueError] when no member
    has that value. *)
Definition LearningPersona_of_value (s : string) : Result LearningPersona :=
  match find (fun p => String.eqb (value p) s) LearningPersona_members with
  | Some p => Ok p
  | None => Raise ValueError
  end.

Record ChatBehavior : Type := {
  total_messages : Z;
  user_messages : Z;
  assistant_messages : Z;
  question_count : Z;
  avg_message_length : Q;
  thumbs_up_count : Z;
  thumbs_down_count : Z;
  unique_sessions : Z;
  total_session_duration_minutes : Q
}.

Record MaterialInteraction : Type := {
  total_time_spent_seconds : Z;
  total_views : Z;
  unique_materials_viewed : Z;
  bookmark_count : Z;
  avg_scroll_depth : Q
}.

Record ActivityPattern : Type := {
  active_days : Z;
  total_sessions : Z;
  peak_hour : Z;
  late_night_sessions : Z;
  weekend_sessions : Z;
  total_weekday_sessions : Z;
  daily_activity_variance : Q
}.

Record QuizPerformance : Type := {
  quiz_attempts : Z;
  avg_score : Q;
  completion_rate : Q
}.

Record BehaviorData : Type := {
  user_id : string;
  analysis_period_days : Z;
  chat : ChatBehavior;
  material : MaterialInteraction;
  activity : ActivityPattern;
  quiz : option QuizPerformance
}.

(** Field defaults of the behaviour models. *)
Definition ChatBehavior_default : ChatBehavior :=
  {| total_messages := 0; user_messages := 0; assistant_messages := 0;
     question_count := 0; avg_message_length := 0; thumbs_up_count := 0;
     thumbs_down_count := 0; unique_sessions := 0;
     total_session_duration_minutes := 0 |}.

Definition MaterialInteraction_default : MaterialInteraction :=
  {| total_time_spent_seconds := 0; total_views := 0;
     unique_materials_viewed := 0; bookmark_count := 0;
     avg_scroll_depth := 0.5 |}.

Definition ActivityPattern_default : ActivityPattern :=
  {| active_days := 0; total_sessions := 0; peak_hour := 12;
     late_night_sessions := 0; weekend_sessions := 0;
     total_weekday_sessions := 0; daily_activity_variance := 0 |}.

Definition BehaviorData_default (uid : string) : BehaviorData :=
  {| user_id := uid; analysis_period_days := 30;
     chat := ChatBehavior_default; material := MaterialInteraction_default;
     activity := ActivityPattern_default; quiz := None |}.

(** The [Field(ge=..., le=...)] constraints of each input model: what
    pydantic has accepted when a value of the model exists. *)
Definition ChatBehavior_valid (c : ChatBehavior) : bool :=
  (0 <=? total_messages c)%Z && (0 <=? user_messages c)%Z &&
  (0 <=? assistant_messages c)%Z && (0 <=? question_count c)%Z &&
  Qle_bool 0 (avg_message_length c) &&
  (0 <=? thumbs_up_count c)%Z && (0 <=? thumbs_down_count c)%Z &&
  (0 <=? unique_sessions c)%Z &&
  Qle_bool 0 (total_session_duration_minutes c).

Definition MaterialInteraction_valid (m : MaterialInteraction) : bool :=
  (0 <=? total_time_spent_seconds m)%Z && (0 <=? total_views m)%Z &&
  (0 <=? unique_materials_viewed m)%Z && (0 <=? bookmark_count m)%Z &&
  in_range 0 1 (avg_scroll_depth m).

Definition ActivityPattern_valid (a : ActivityPattern) : bool :=
  (0 <=? active_days a)%Z && (0 <=? total_sessions a)%Z &&
  ((0 <=? peak_hour a)%Z && (peak_hour a <=? 23)%Z) &&
  (0 <=? late_night_sessions a)%Z && (0 <=? weekend_sessions a)%Z &&
  (0 <=? total_weekday_sessions a)%Z &&
  Qle_bool 0 (daily_activity_variance a).

Definition QuizPerformance_valid (q : QuizPerformance) : bool :=
  (0 <=? quiz_attempts q)%Z && in_range 0 100 (avg_score q) &&
  in_range 0 1 (completion_rate q).

Definition BehaviorData_valid (d : BehaviorData) : bool :=
  (1 <=? analysis_period_days d)%Z &&
  ChatBehavior_valid (chat d) &&
  MaterialInteraction_valid (material d) &&
  ActivityPattern_valid (activity d) &&
  match quiz d with
  | Some q => QuizPerformance_valid q
  | None => true
  end.

(** Where the idealisation of [float] is exact enough.  An [int] below
    [2^53] is a double; the true division of two such counts is rounded
    to the nearest double, never overflows, and is above [1.0] exactly
    when the numerator is above the denominator.  From [2^53] on that
    fails ([(2^53 + 1) / 2^53] is [1.0]), and a count no double can hold
    makes the division raise [OverflowError] ([10^400 / 36000]). *)
Definition exact_int (n : Z) : bool := (n <? 2 ^ 53)%Z.

(** The integer counts [FeatureExtractor.extract] divides; [peak_hour] is
    at most 23 by its own constraint, and [assistant_messages] and
    [total_weekday_sessions] are not read. *)
Definition counts_exact (d : BehaviorData) : bool :=
  forallb exact_int
    [analysis_period_days d;
     total_messages (chat d); user_messages (chat d);
     question_count (chat d); thumbs_up_count (chat d);
     thumbs_down_count (chat d); unique_sessions (chat d);
     total_time_spent_seconds (material d); total_views (material d);
     unique_materials_viewed (material d); bookmark_count (material d);
     active_days (activity d); total_sessions (activity d);
     late_night_sessions (activity d); weekend_sessions (activity d)] &&
  match quiz d with
  | Some q => exact_int (quiz_attempts q)
  | None => true
  end.

Record FeatureVector : Type := {
  chat_message_ratio : Q;
  question_frequency : Q;
  avg_message_length_norm : Q;
  feedback_ratio : Q;
  feedback_engagement : Q;
  session_count_norm : Q;
  messages_per_session : Q;
  session_duration_norm : Q;
  time_spent_norm : Q;
  view_count_norm : Q;
  material_diversity : Q;
  avg_time_per_view_norm : Q;
  bookmark_ratio : Q;
  scroll_depth : Q;
  material_engagement_score : Q;
  active_days_ratio : Q;
  session_frequency : Q;
  consistency_score : Q;
  late_night_ratio : Q;
  weekend_ratio : Q;
  peak_hour_norm : Q;
  engagement_trend_encoded : Q;
  quiz_score_norm : Q;
  quiz_completion_norm : Q;
  quiz_attempt_frequency : Q
}.

(** The 25 fields in declaration order. *)
Definition FeatureVector_fields (f : FeatureVector) : list Q :=
  [chat_message_ratio f; question_frequency f; avg_message_length_norm f;
   feedback_ratio f; feedback_engagement f; session_count_norm f;
   messages_per_session f; session_duration_norm f;
   time_spent_norm f; view_count_norm f; material_diversity f;
   avg_time_per_view_norm f; bookmark_ratio f; scroll_depth f;
   material_engagement_score f;
   active_days_ratio f; session_frequency f; consistency_score f;
   late_night_ratio f; weekend_ratio f; peak_hour_norm f;
   engagement_trend_encoded f;
   quiz_score_norm f; quiz_completion_norm f; quiz_attempt_frequency f].

(** Constructing a [FeatureVector]: every field is [Field(ge=0.0, le=1.0)],
    and pydantic raises [ValidationError] when one is out of range. *)
Definition FeatureVector_new (f : FeatureVector) : Result FeatureVector :=
  if forallb unit_range (FeatureVector_fields f) then Ok f
  else Raise ValidationError.

(** ** feature_extractor.py *)

Module FeatureExtractor.

(** Normalization constants (max expected values for min-max scaling). *)
Definition MAX_MESSAGES : Z := 1000.
Definition MAX_MESSAGE_LENGTH : Z := 500.
Definition MAX_SESSIONS : Z := 100.
Definition MAX_SESSION_DURATION : Z := 600.
Definition MAX_TIME_SPENT : Z := 36000.
Definition MAX_VIEWS : Z := 200.
Definition MAX_SESSIONS_PER_DAY : Z := 10.
Definition MAX_QUIZ_ATTEMPTS : Z := 50.

(** Safely divide two numbers, returning default if denominator is zero.
    The quotient is the exact one: the double the source computes is its
    rounding, and the [OverflowError] of a quotient of counts that no
    double holds has no counterpart here. *)
Definition _safe_divide (numerator denominator default : Q) : Q :=
  if Qeq_bool denominator 0 then default
  else numerator / denominator.

(** Normalize a value to [0, 1] range using min-max scaling.  As for
    [_safe_divide], [value / max_value] is the exact quotient. *)
Definition _normalize (value max_value : Q) : Q :=
  if Qle_bool max_value 0 then 0
  else pymin 1 (pymax 0 (value / max_value)).

(** The dictionaries the four category extractors return, one record
    field per key. *)
Record ChatFeatures : Type := {
  cf_chat_message_ratio : Q;
  cf_question_frequency : Q;
  cf_avg_message_length_norm : Q;
  cf_feedback_ratio : Q;
  cf_feedback_engagement : Q;
  cf_session_count_norm : Q;
  cf_messages_per_session : Q;
  cf_session_duration_norm : Q
}.

Record MaterialFeatures : Type := {
  mf_time_spent_norm : Q;
  mf_view_count_norm : Q;
  mf_material_diversity : Q;
  mf_avg_time_per_view_norm : Q;
  mf_bookmark_ratio : Q;
  mf_scroll_depth : Q;
  mf_material_engagement_score : Q
}.

Record ActivityFeatures : Type := {
  af_active_days_ratio : Q;
  af_session_frequency : Q;
  af_consistency_score : Q;
  af_late_night_ratio : Q;
  af_weekend_ratio : Q;
  af_peak_hour_norm : Q;
  af_engagement_trend_encoded : Q
}.

Record QuizFeatures : Type := {
  qf_quiz_score_norm : Q;
  qf_quiz_completion_norm : Q;
  qf_quiz_attempt_frequency : Q
}.

Definition _extract_chat_features (data : BehaviorData) : ChatFeatures :=
  let chat := chat data in
  let chat_message_ratio :=
    _safe_divide (inject_Z (user_messages chat))
                 (inject_Z (total_messages chat)) 0.5 in
  let question_frequency :=
    _safe_divide (inject_Z (question_count chat))
                 (inject_Z (user_messages chat)) 0 in
  let question_frequency := pymin 1 question_frequency in
  let avg_message_length_norm :=
    _normalize (avg_message_length chat) (inject_Z MAX_MESSAGE_LENGTH) in
  let total_feedback := (thumbs_up_count chat + thumbs_down_count chat)%Z in
  let feedback_ratio :=
    _safe_divide (inject_Z (thumbs_up_count chat))
                 (inject_Z total_feedback) 0.5 in
  let feedback_engagement :=
    _safe_divide (inject_Z total_feedback)
                 (inject_Z (total_messages chat)) 0 in
  let feedback_engagement := pymin 1 feedback_engagement in
  let session_count_norm :=
    _normalize (inject_Z (unique_sessions chat)) (inject_Z MAX_SESSIONS) in
  let raw_messages_per_session :=
    _safe_divide (inject_Z (total_messages chat))
                 (inject_Z (unique_sessions chat)) 0 in
  let messages_per_session := _normalize raw_messages_per_session 20 in
  let session_duration_norm :=
    _normalize (total_session_duration_minutes chat)
               (inject_Z MAX_SESSION_DURATION) in
  {| cf_chat_message_ratio := chat_message_ratio;
     cf_question_frequency := question_frequency;
     cf_avg_message_length_norm := avg_message_length_norm;
     cf_feedback_ratio := feedback_ratio;
     cf_feedback_engagement := feedback_engagement;
     cf_session_count_norm := session_count_norm;
     cf_messages_per_session := messages_per_session;
     cf_session_duration_norm := session_duration_norm |}.

Definition _extract_material_features (data : BehaviorData)
  : MaterialFeatures :=
  let material := material data in
  let time_spent_norm :=
    _normalize (inject_Z (total_time_spent_seconds material))
               (inject_Z MAX_TIME_SPENT) in
  let view_count_norm :=
    _normalize (inject_Z (total_views material)) (inject_Z MAX_VIEWS) in
  let material_diversity :=
    _safe_divide (inject_Z (unique_materials_viewed material))
                 (inject_Z (total_views material)) 0 in
  let material_diversity := pymin 1 material_diversity in
  let avg_time_per_view :=
    _safe_divide (inject_Z (total_time_spent_seconds material))
                 (inject_Z (total_views material)) 0 in
  let avg_time_per_view_norm := _normalize avg_time_per_view 600 in
  let bookmark_ratio :=
    _safe_divide (inject_Z (bookmark_count material))
                 (inject_Z (total_views material)) 0 in
  let bookmark_ratio := pymin 1 bookmark_ratio in
  let scroll_depth := avg_scroll_depth material in
  let scroll_depth := pymax 0 (pymin 1 scroll_depth) in
  let material_engagement_score :=
    0.4 * time_spent_norm + 0.4 * scroll_depth + 0.2 * bookmark_ratio in
  let material_engagement_score :=
    pymax 0 (pymin 1 material_engagement_score) in
  {| mf_time_spent_norm := time_spent_norm;
     mf_view_count_norm := view_count_norm;
     mf_material_diversity := material_diversity;
     mf_avg_time_per_view_norm := avg_time_per_view_norm;
     mf_bookmark_ratio := bookmark_ratio;
     mf_scroll_depth := scroll_depth;
     mf_material_engagement_score := material_engagement_score |}.

(** Determine if engagement is increasing, stable, or declining.  The two
    scores are the local counters of the source, threaded through its four
    scoring statements. *)
Definition _calculate_engagement_trend (data : BehaviorData)
  : EngagementTrend :=
  let activity := activity data in
  if (total_sessions activity =? 0)%Z then STABLE
  else
    let session_frequency :=
      _safe_divide (inject_Z (total_sessions activity))
                   (inject_Z (active_days activity)) 0 in
    let active_days_ratio :=
      _safe_divide (inject_Z (active_days activity))
                   (inject_Z (analysis_period_days data)) 0 in
    let late_night_ratio :=
      _safe_divide (inject_Z (late_night_sessions activity))
                   (inject_Z (total_sessions activity)) 0 in
    let declining_score := 0%Z in
    let increasing_score := 0%Z in
    let '(declining_score, increasing_score) :=
      if Qlt_bool 5 (daily_activity_variance activity)
      then ((declining_score + 1)%Z, increasing_score)
      else if Qlt_bool (daily_activity_variance activity) 2
      then (declining_score, (increasing_score + 1)%Z)
      else (declining_score, increasing_score) in
    let '(declining_score, increasing_score) :=
      if Qlt_bool active_days_ratio 0.3 && (0 <? total_sessions activity)%Z
      then ((declining_score + 1)%Z, increasing_score)
      else if Qlt_bool 0.6 active_days_ratio
      then (declining_score, (increasing_score + 1)%Z)
      else (declining_score, increasing_score) in
    let '(declining_score, increasing_score) :=
      if Qlt_bool 2 session_frequency
      then (declining_score, (increasing_score + 1)%Z)
      else if Qlt_bool session_frequency 0.5 && (0 <? active_days activity)%Z
      then ((declining_score + 1)%Z, increasing_score)
      else (declining_score, increasing_score) in
    let declining_score :=
      if Qlt_bool 0.4 late_night_ratio
      then (declining_score + 1)%Z
      else declining_score in
    if (2 <=? declining_score)%Z then DECLINING
    else if (2 <=? increasing_score)%Z then INCREASING
    else STABLE.

Definition _extract_activity_features (data : BehaviorData)
  : ActivityFeatures :=
  let activity := activity data in
  let active_days_ratio :=
    _safe_divide (inject_Z (active_days activity))
                 (inject_Z (analysis_period_days data)) 0 in
  let active_days_ratio := pymin 1 active_days_ratio in
  let raw_session_frequency :=
    _safe_divide (inject_Z (total_sessions activity))
                 (inject_Z (active_days activity)) 0 in
  let session_frequency :=
    _normalize raw_session_frequency (inject_Z MAX_SESSIONS_PER_DAY) in
  let MAX_VARIANCE := 10 in
  let normalized_variance :=
    _normalize (daily_activity_variance activity) MAX_VARIANCE in
  let consistency_score := 1 - normalized_variance in
  let consistency_score := pymax 0 (pymin 1 consistency_score) in
  let late_night_ratio :=
    _safe_divide (inject_Z (late_night_sessions activity))
                 (inject_Z (total_sessions activity)) 0 in
  let late_night_ratio := pymin 1 late_night_ratio in
  let weekend_ratio :=
    _safe_divide (inject_Z (weekend_sessions activity))
                 (inject_Z (total_sessions activity)) 0 in
  let weekend_ratio := pymin 1 weekend_ratio in
  let peak_hour_norm :=
    if (peak_hour activity <=? 23)%Z
    then inject_Z (peak_hour activity) / 23
    else 1 in
  let peak_hour_norm := pymax 0 (pymin 1 peak_hour_norm) in
  let engagement_trend := _calculate_engagement_trend data in
  let engagement_trend_encoded :=
    match engagement_trend with
    | DECLINING => 0
    | STABLE => 0.5
    | INCREASING => 1
    end in
  {| af_active_days_ratio := active_days_ratio;
     af_session_frequency := session_frequency;
     af_consistency_score := consistency_score;
     af_late_night_ratio := late_night_ratio;
     af_weekend_ratio := weekend_ratio;
     af_peak_hour_norm := peak_hour_norm;
     af_engagement_trend_encoded := engagement_trend_encoded |}.

Definition _extract_quiz_features (data : BehaviorData) : QuizFeatures :=
  match quiz data with
  | None =>
      {| qf_quiz_score_norm := 0.5;
         qf_quiz_completion_norm := 0.5;
         qf_quiz_attempt_frequency := 0 |}
  | Some quiz =>
      let quiz_score_norm :=
        if (quiz_attempts quiz =? 0)%Z then 0.5
        else pymax 0 (pymin 1 (avg_score quiz / 100)) in
      let quiz_completion_norm :=
        if (quiz_attempts quiz =? 0)%Z then 0.5
        else pymax 0 (pymin 1 (completion_rate quiz)) in
      let quiz_attempt_frequency :=
        _normalize (inject_Z (quiz_attempts quiz))
                   (inject_Z MAX_QUIZ_ATTEMPTS) in
      {| qf_quiz_score_norm := quiz_score_norm;
         qf_quiz_completion_norm := quiz_completion_norm;
         qf_quiz_attempt_frequency := quiz_attempt_frequency |}
  end.

(** Extract normalized features from behavior data: the four category
    dictionaries, then the [FeatureVector] constructor with its range
    checks.  The range checks are decided on the exact ratios, which is
    what the source decides on inputs within [counts_exact]. *)
Definition extract (data : BehaviorData) : Result FeatureVector :=
  let chat_features := _extract_chat_features data in
  let material_features := _extract_material_features data in
  let activity_features := _extract_activity_features data in
  let quiz_features := _extract_quiz_features data in
  FeatureVector_new
    {| chat_message_ratio := cf_chat_message_ratio chat_features;
       question_frequency := cf_question_frequency chat_features;
       avg_message_length_norm := cf_avg_message_length_norm chat_features;
       feedback_ratio := cf_feedback_ratio chat_features;
       feedback_engagement := cf_feedback_engagement chat_features;
       session_count_norm := cf_session_count_norm chat_features;
       messages_per_session := cf_messages_per_session chat_features;
       session_duration_norm := cf_session_duration_norm chat_features;
       time_spent_norm := mf_time_spent_norm material_features;
       view_count_norm := mf_view_count_norm material_features;
       material_diversity := mf_material_diversity material_features;
       avg_time_per_view_norm := mf_avg_time_per_view_norm material_features;
       bookmark_ratio := mf_bookmark_ratio material_features;
       scroll_depth := mf_scroll_depth material_features;
       material_engagement_score :=
         mf_material_engagement_score material_features;
       active_days_ratio := af_active_days_ratio activity_features;
       session_frequency := af_session_frequency activity_features;
       consistency_score := af_consistency_score activity_features;
       late_night_ratio := af_late_night_ratio activity_features;
       weekend_ratio := af_weekend_ratio activity_features;
       peak_hour_norm := af_peak_hour_norm activity_features;
       engagement_trend_encoded :=
         af_engagement_trend_encoded activity_features;
       quiz_score_norm := qf_quiz_score_norm quiz_features;
       quiz_completion_norm := qf_quiz_completion_norm quiz_features;
       quiz_attempt_frequency := qf_quiz_attempt_frequency quiz_features |}.

End FeatureExtractor.

(** ** Python containers used below *)

(** [l[i]] on a list: a negative index counts from the end, an index out
    of range raises. *)
Definition getitem {A : Type} (l : list A) (i : Z) : Result A :=
  let n := Z.of_nat (List.length l) in
  let j := if (i <? 0)%Z then (i + n)%Z else i in
  if (0 <=? j)%Z && (j <? n)%Z then
    match nth_error l (Z.to_nat j) with
    | Some a => Ok a
    | None => Raise IndexError
    end
  else Raise IndexError.

(** A [dict] with string keys, in insertion order. *)
Definition dict (V : Type) : Type := list (string * V).

Fixpoint dict_set {V : Type} (d : dict V) (k : string) (v : V) : dict V :=
  match d with
  | [] => [(k, v)]
  | (k', v') :: d' =>
      if String.eqb k' k then (k', v) :: d'
      else (k', v') :: dict_set d' k v
  end.

(** [{k: v for k, v in zip(keys, values)}] *)
Definition dict_of_zip {V : Type} (keys : list string) (values : list V)
  : dict V :=
  fold_left (fun d kv => dict_set d (fst kv) (snd kv)) (combine keys values) [].

(** [d.get(k)] *)
Fixpoint dict_get {V : Type} (d : dict V) (k : string) : option V :=
  match d with
  | [] => None
  | (k', v) :: d' => if String.eqb k' k then Some v else dict_get d' k
  end.

(** [max(xs)] of a sequence; the empty sequence raises [ValueError]. *)
Definition max_of (xs : list Q) : Result Q :=
  match xs with
  | [] => Raise ValueError
  | x :: xs' => Ok (fold_left pymax xs' x)
  end.

Module ClassificationResult.
Record t : Type := {
  persona : LearningPersona;
  confidence : Q;
  probabilities : dict Q;
  is_low_confidence : bool
}.
(** [confidence: float = Field(ge=0.0, le=1.0)] *)
Definition new (r : t) : Result t :=
  if unit_range (confidence r) then Ok r else Raise ValidationError.
End ClassificationResult.

(** ** persona_classifier.py *)

Module PersonaClassifier.

Definition LOW_CONFIDENCE_THRESHOLD : Q := 0.5.
Definition EXPECTED_NUM_CLASSES : Z := 10.

(** What [model.predict(...)[0]] can be: a class label or a class index. *)
Inductive PredictedClass : Type :=
| ClassLabel (s : string)
| ClassIndex (idx : Z).

(** The externally trained estimator, on the single row the wrapper feeds
    it: [predict(X)[0]] and [predict_proba(X)[0]]. *)
Record Model : Type := {
  model_predict : list Q -> PredictedClass;
  model_predict_proba : list Q -> list Q
}.

(** The attributes of a classifier instance; [scaler] holds the scaler's
    [transform] on one row. *)
Record t : Type := {
  model : option Model;
  scaler : option (list Q -> list Q);
  _model_version : string;
  _last_training_date : string;
  _persona_names : list string
}.

Definition is_loaded (self : t) : bool :=
  match model self with Some _ => true | None => false end.

Definition _feature_vector_to_array (features : FeatureVector) : list Q :=
  FeatureVector_fields features.

Definition _build_probability_dict (self : t) (probabilities : list Q)
  : dict Q :=
  match _persona_names self with
  | _ :: _ => dict_of_zip (_persona_names self) probabilities
  | [] => dict_of_zip (map value LearningPersona_members) probabilities
  end.

(** Convert a predicted class to a LearningPersona enum.  The entries of
    [_persona_names] are strings, on which the [str(...)] of the source is
    the identity. *)
Definition _convert_to_persona (self : t) (predicted_class : PredictedClass)
  : Result LearningPersona :=
  match predicted_class with
  | ClassLabel s => LearningPersona_of_value s
  | ClassIndex idx =>
      let names := _persona_names self in
      if negb (Nat.eqb (List.length names) 0) &&
         ((0 <=? idx)%Z && (idx <? Z.of_nat (List.length names))%Z)
      then
        persona_name <- getitem names idx ;;
        LearningPersona_of_value persona_name
      else
        let persona_values := LearningPersona_members in
        if (0 <=? idx)%Z && (idx <? Z.of_nat (List.length persona_values))%Z
        then getitem persona_values idx
        else Raise ValueError
  end.

Definition predict (self : t) (features : FeatureVector)
  : Result ClassificationResult.t :=
  match model self with
  | None => Raise RuntimeError
  | Some m =>
      let feature_array := _feature_vector_to_array features in
      let feature_array :=
        match scaler self with
        | Some transform => transform feature_array
        | None => feature_array
        end in
      let predicted_class := model_predict m feature_array in
      let probabilities := model_predict_proba m feature_array in
      let prob_dict := _build_probability_dict self probabilities in
      confidence <- max_of probabilities ;;
      persona <- _convert_to_persona self predicted_class ;;
      let is_low_confidence := Qlt_bool confidence LOW_CONFIDENCE_THRESHOLD in
      ClassificationResult.new
        {| ClassificationResult.persona := persona;
           ClassificationResult.confidence := confidence;
           ClassificationResult.probabilities := prob_dict;
           ClassificationResult.is_low_confidence := is_low_confidence |}
  end.

(** Get probability distribution over all personas. *)
Definition predict_proba (self : t) (features : FeatureVector)
  : Result (dict Q) :=
  match model self with
  | None => Raise RuntimeError
  | Some m =>
      let feature_array := _feature_vector_to_array features in
      let feature_array :=
        match scaler self with
        | Some transform => transform feature_array
        | None => feature_array
        end in
      let probabilities := model_predict_proba m feature_array in
      Ok (_build_probability_dict self probabilities)
  end.

(** The attributes [__init__] sets before it loads anything. *)
Definition initial : t :=
  {| model := None; scaler := None; _model_version := "0.0.0";
     _last_training_date := "unknown"; _persona_names := [] |}.

(** The JSON object of the metadata file, by the three keys the loader
    reads; [None] is an absent key. *)
Record Metadata : Type := {
  md_model_version : option string;
  md_training_date : option string;
  md_persona_names : option (list string)
}.

(** What the loader finds at the metadata path: no file, a file that
    cannot be opened or parsed, or a parsed object. *)
Inductive MetadataFile : Type :=
| NotFound
| Unreadable
| Parsed (metadata : Metadata).

(** Load model metadata from JSON file.  A missing file and a failure to
    read it are logged and leave the instance as it is. *)
Definition _load_metadata (self : t) (file : MetadataFile) : t :=
  match file with
  | NotFound => self
  | Unreadable => self
  | Parsed metadata =>
      {| model := model self;
         scaler := scaler self;
         _model_version :=
           match md_model_version metadata with
           | Some v => v
           | None => "0.0.0"%string
           end;
         _last_training_date :=
           match md_training_date metadata with
           | Some d => d
           | None => "unknown"%string
           end;
         _persona_names :=
           match _persona_names self, md_persona_names metadata with
           | [], Some names => names
           | _, _ => _persona_names self
           end |}
  end.

End PersonaClassifier.

(** ** guardrails.py *)

(** The text of a formatted message is represented by its template and
    the values interpolated into it. *)
Inductive OverrideReason : Type :=
| QuizScoreBelowThreshold (quiz_score threshold : Q)
| TimePerMaterialExceeds (avg_time_per_material : Q) (threshold : Z)
| MaterialsBelowMinimum (total_materials_viewed minimum : Z).

Inductive FlagReason : Type :=
| HighLateNightActivity (late_night_ratio : Q)
| DecliningFromMaster.

Module GuardrailOverride.
Record t : Type := {
  original_persona : LearningPersona;
  final_persona : LearningPersona;
  rule_triggered : string;
  reason : OverrideReason
}.
End GuardrailOverride.

Module GuardrailFlags.
Record t : Type := {
  potential_anxious : bool;
  potential_burnout : bool;
  needs_attention : bool;
  flag_reasons : list FlagReason
}.
End GuardrailFlags.

Module GuardrailResult.
Record t : Type := {
  persona : LearningPersona;
  confidence : Q;
  was_overridden : bool;
  override : option GuardrailOverride.t;
  flags : GuardrailFlags.t
}.
(** [confidence: float = Field(ge=0.0, le=1.0)] *)
Definition new (r : t) : Result t :=
  if unit_range (confidence r) then Ok r else Raise ValidationError.
End GuardrailResult.

Module LogicGuardrails.

(** Override thresholds *)
Definition MASTER_MIN_QUIZ_SCORE : Q := 50.
Definition SKIMMER_MIN_TIME_PER_MATERIAL : Z := 300.
Definition DEEP_DIVER_MIN_MATERIALS : Z := 3.

(** Flag thresholds *)
Definition ANXIOUS_LATE_NIGHT_THRESHOLD : Q := 0.5.
Definition HIGH_SESSION_FREQUENCY_THRESHOLD : Q := 3.

Definition _check_master_override
    (prediction : ClassificationResult.t) (quiz_score : option Q)
  : option GuardrailOverride.t :=
  if negb (LearningPersona_eqb (ClassificationResult.persona prediction) MASTER)
  then None
  else
    match quiz_score with
    | Some score =>
        if Qlt_bool score MASTER_MIN_QUIZ_SCORE then
          Some {| GuardrailOverride.original_persona := MASTER;
                  GuardrailOverride.final_persona := STRUGGLER;
                  GuardrailOverride.rule_triggered := "master_low_quiz_score";
                  GuardrailOverride.reason :=
                    QuizScoreBelowThreshold score MASTER_MIN_QUIZ_SCORE |}
        else None
    | None => None
    end.

Definition _check_skimmer_reconsideration
    (prediction : ClassificationResult.t) (avg_time_per_material : Q)
  : option GuardrailOverride.t :=
  if negb (LearningPersona_eqb (ClassificationResult.persona prediction) SKIMMER)
  then None
  else
    if Qlt_bool (inject_Z SKIMMER_MIN_TIME_PER_MATERIAL) avg_time_per_material
    then
      Some {| GuardrailOverride.original_persona := SKIMMER;
              GuardrailOverride.final_persona := DEEP_DIVER;
              GuardrailOverride.rule_triggered :=
                "skimmer_high_time_per_material";
              GuardrailOverride.reason :=
                TimePerMaterialExceeds avg_time_per_material
                                       SKIMMER_MIN_TIME_PER_MATERIAL |}
    else None.

Definition _check_deep_diver_override
    (prediction : ClassificationResult.t) (total_materials_viewed : Z)
  : option GuardrailOverride.t :=
  if negb (LearningPersona_eqb (ClassificationResult.persona prediction)
                               DEEP_DIVER)
  then None
  else
    if (total_materials_viewed <? DEEP_DIVER_MIN_MATERIALS)%Z then
      Some {| GuardrailOverride.original_persona := DEEP_DIVER;
              GuardrailOverride.final_persona := LOST;
              GuardrailOverride.rule_triggered :=
                "deep_diver_low_material_count";
              GuardrailOverride.reason :=
                MaterialsBelowMinimum total_materials_viewed
                                      DEEP_DIVER_MIN_MATERIALS |}
    else None.

Definition _check_anxious_flags (features : FeatureVector)
  : list FlagReason :=
  let flags := [] in
  if Qlt_bool ANXIOUS_LATE_NIGHT_THRESHOLD (late_night_ratio features) then
    if Qlt_bool 0.3 (session_frequency features) then
      flags ++ [HighLateNightActivity (late_night_ratio features)]
    else flags
  else flags.

Definition _check_burnout_flags
    (features : FeatureVector) (previous_persona : option LearningPersona)
  : list FlagReason :=
  let flags := [] in
  let is_declining := Qlt_bool (engagement_trend_encoded features) 0.25 in
  if is_declining &&
     match previous_persona with
     | Some p => LearningPersona_eqb p MASTER
     | None => false
     end
  then flags ++ [DecliningFromMaster]
  else flags.

(** Apply pedagogical rules to classification. *)
Definition apply
    (prediction : ClassificationResult.t)
    (features : FeatureVector)
    (quiz_score : option Q)
    (previous_persona : option LearningPersona)
    (total_materials_viewed : Z)
    (avg_time_per_material : Q)
  : Result GuardrailResult.t :=
  let override : option GuardrailOverride.t := None in
  let final_persona := ClassificationResult.persona prediction in
  let was_overridden := false in
  let override :=
    match override with
    | None => _check_master_override prediction quiz_score
    | Some _ => override
    end in
  let override :=
    match override with
    | None => _check_deep_diver_override prediction total_materials_viewed
    | Some _ => override
    end in
  let override :=
    match override with
    | None => _check_skimmer_reconsideration prediction avg_time_per_material
    | Some _ => override
    end in
  let '(final_persona, was_overridden) :=
    match override with
    | Some o => (GuardrailOverride.final_persona o, true)
    | None => (final_persona, was_overridden)
    end in
  let flag_reasons : list FlagReason := [] in
  let anxious_flags := _check_anxious_flags features in
  let flag_reasons := flag_reasons ++ anxious_flags in
  let burnout_flags := _check_burnout_flags features previous_persona in
  let flag_reasons := flag_reasons ++ burnout_flags in
  let flags :=
    {| GuardrailFlags.potential_anxious :=
         (0 <? List.length anxious_flags)%nat;
       GuardrailFlags.potential_burnout :=
         (0 <? List.length burnout_flags)%nat;
       GuardrailFlags.needs_attention :=
         (0 <? List.length flag_reasons)%nat || was_overridden;
       GuardrailFlags.flag_reasons := flag_reasons |} in
  GuardrailResult.new
    {| GuardrailResult.persona := final_persona;
       GuardrailResult.confidence := ClassificationResult.confidence prediction;
       GuardrailResult.was_overridden := was_overridden;
       GuardrailResult.override := override;
       GuardrailResult.flags := flags |}.

End LogicGuardrails.

(** ** recommendations.py *)

Module Recommendation.
Record t : Type := {
  id : string;
  title : string;
  description : string;
  action_type : string;
  priority : Z
}.
End Recommendation.

Module PersonaRecommendations.
Record t : Type := {
  persona : LearningPersona;
  summary : string;
  recommendations : list Recommendation.t;
  ui_hints : dict string
}.
End PersonaRecommendations.

(** What a caller can pass where a persona is expected. *)
Inductive PersonaArg : Type :=
| Member (p : LearningPersona)
| PyStr (s : string)
| PyNone.

Module RecommendationEngine.

Open Scope string_scope.
Open Scope Z_scope.

Definition _get_struggler_recommendations : PersonaRecommendations.t :=
  {| PersonaRecommendations.persona := STRUGGLER;
     PersonaRecommendations.summary :=
       "You seem to be working hard but facing challenges. Let's simplify things and provide more support.";
     PersonaRecommendations.recommendations :=
       [ {| Recommendation.id := "struggler_simplified_materials";
            Recommendation.title := "Access Simplified Materials";
            Recommendation.description :=
              "We've prepared easier-to-understand versions of the content. Start with these simplified materials to build a stronger foundation before tackling advanced topics.";
            Recommendation.action_type := "content";
            Recommendation.priority := 1 |};
         {| Recommendation.id := "struggler_more_examples";
            Recommendation.title := "Explore More Examples";
            Recommendation.description :=
              "Practice makes perfect! Check out additional worked examples that break down complex concepts step-by-step.";
            Recommendation.action_type := "content";
            Recommendation.priority := 2 |};
         {| Recommendation.id := "struggler_llm_explanations";
            Recommendation.title := "Ask AI for Explanations";
            Recommendation.description :=
              "Use the AI assistant to get personalized explanations. Try asking 'Can you explain this concept in simpler terms?' or 'Give me an analogy for this.'";
            Recommendation.action_type := "feature";
            Recommendation.priority := 3 |};
         {| Recommendation.id := "struggler_review_basics";
            Recommendation.title := "Review Foundational Concepts";
            Recommendation.description :=
              "Sometimes going back to basics helps. We've identified prerequisite topics that might help strengthen your understanding.";
            Recommendation.action_type := "content";
            Recommendation.priority := 4 |} ];
     PersonaRecommendations.ui_hints :=
       [ ("highlight_ai_chat", "true");
         ("show_difficulty_filter", "true");
         ("suggest_prerequisites", "true") ] |}.

Definition _get_skimmer_recommendations : PersonaRecommendations.t :=
  {| PersonaRecommendations.persona := SKIMMER;
     PersonaRecommendations.summary :=
       "You're covering a lot of ground quickly! Let's help you engage more deeply with the material.";
     PersonaRecommendations.recommendations :=
       [ {| Recommendation.id := "skimmer_engagement_prompts";
            Recommendation.title := "Try Interactive Checkpoints";
            Recommendation.description :=
              "We've added quick comprehension checks throughout the material. These short prompts help ensure you're absorbing key concepts as you go.";
            Recommendation.action_type := "ui";
            Recommendation.priority := 1 |};
         {| Recommendation.id := "skimmer_quizzes";
            Recommendation.title := "Take Quick Quizzes";
            Recommendation.description :=
              "Test your understanding with short quizzes after each section. They only take a few minutes and help reinforce what you've learned.";
            Recommendation.action_type := "feature";
            Recommendation.priority := 2 |};
         {| Recommendation.id := "skimmer_summary_highlights";
            Recommendation.title := "Review Key Highlights";
            Recommendation.description :=
              "Check out the highlighted summaries and key takeaways for each material. These capture the most important points you shouldn't miss.";
            Recommendation.action_type := "content";
            Recommendation.priority := 3 |};
         {| Recommendation.id := "skimmer_slow_down_reminder";
            Recommendation.title := "Pace Yourself";
            Recommendation.description :=
              "Quality over quantity! Try spending at least 5 minutes on each material to fully understand the concepts before moving on.";
            Recommendation.action_type := "notification";
            Recommendation.priority := 4 |} ];
     PersonaRecommendations.ui_hints :=
       [ ("show_reading_progress", "true");
         ("enable_comprehension_checks", "true");
         ("highlight_key_points", "true") ] |}.

Definition _get_anxious_recommendations : PersonaRecommendations.t :=
  {| PersonaRecommendations.persona := ANXIOUS;
     PersonaRecommendations.summary :=
       "Learning can feel overwhelming sometimes. Let's create a calmer, more supportive environment for you.";
     PersonaRecommendations.recommendations :=
       [ {| Recommendation.id := "anxious_calming_ui";
            Recommendation.title := "Enable Calm Mode";
            Recommendation.description :=
              "Switch to our calming interface with softer colors and reduced visual clutter. This helps create a more relaxed learning environment.";
            Recommendation.action_type := "ui";
            Recommendation.priority := 1 |};
         {| Recommendation.id := "anxious_progress_indicators";
            Recommendation.title := "Track Your Progress";
            Recommendation.description :=
              "See how far you've come! Our progress tracker shows your achievements and helps you visualize your learning journey.";
            Recommendation.action_type := "ui";
            Recommendation.priority := 2 |};
         {| Recommendation.id := "anxious_encouragement";
            Recommendation.title := "You're Doing Great!";
            Recommendation.description :=
              "Remember: learning is a journey, not a race. Every question you ask and every material you review brings you closer to mastery.";
            Recommendation.action_type := "notification";
            Recommendation.priority := 3 |};
         {| Recommendation.id := "anxious_breathing_break";
            Recommendation.title := "Take a Mindful Break";
            Recommendation.description :=
              "Feeling stressed? Try our 2-minute breathing exercise to reset and refocus before continuing your studies.";
            Recommendation.action_type := "feature";
            Recommendation.priority := 4 |} ];
     PersonaRecommendations.ui_hints :=
       [ ("enable_calm_mode", "true");
         ("show_encouragement_messages", "true");
         ("reduce_notifications", "true");
         ("soft_color_scheme", "true") ] |}.

Definition _get_burnout_recommendations : PersonaRecommendations.t :=
  {| PersonaRecommendations.persona := BURNOUT;
     PersonaRecommendations.summary :=
       "You've been working hard! It's important to rest and recharge. Let's help you maintain a sustainable learning pace.";
     PersonaRecommendations.recommendations :=
       [ {| Recommendation.id := "burnout_break_reminder";
            Recommendation.title := "Take Regular Breaks";
            Recommendation.description :=
              "Schedule 5-minute breaks every 25 minutes using the Pomodoro technique. Your brain needs rest to consolidate learning.";
            Recommendation.action_type := "notification";
            Recommendation.priority := 1 |};
         {| Recommendation.id := "burnout_lighter_content";
            Recommendation.title := "Try Lighter Content";
            Recommendation.description :=
              "Start with summary materials or video overviews before diving into detailed content. Ease back into learning gradually.";
            Recommendation.action_type := "content";
            Recommendation.priority := 2 |};
         {| Recommendation.id := "burnout_celebrate_achievements";
            Recommendation.title := "Celebrate Your Progress";
            Recommendation.description :=
              "Look at how much you've accomplished! Review your achievements from the past week and give yourself credit for your hard work.";
            Recommendation.action_type := "ui";
            Recommendation.priority := 3 |};
         {| Recommendation.id := "burnout_reduce_workload";
            Recommendation.title := "Set Realistic Goals";
            Recommendation.description :=
              "Consider reducing your daily learning goals temporarily. It's better to learn consistently at a sustainable pace than to burn out.";
            Recommendation.action_type := "feature";
            Recommendation.priority := 4 |} ];
     PersonaRecommendations.ui_hints :=
       [ ("enable_break_reminders", "true");
         ("show_achievements", "true");
         ("suggest_lighter_content", "true");
         ("reduce_daily_goals", "true") ] |}.

Definition _get_master_recommendations : PersonaRecommendations.t :=
  {| PersonaRecommendations.persona := MASTER;
     PersonaRecommendations.summary :=
       "Excellent work! You're mastering the material. Let's challenge you further and help you share your knowledge.";
     PersonaRecommendations.recommendations :=
       [ {| Recommendation.id := "master_advanced_materials";
            Recommendation.title := "Explore Advanced Content";
            Recommendation.description :=
              "Ready for more? Access advanced materials and deep-dive resources that go beyond the basics.";
            Recommendation.action_type := "content";
            Recommendation.priority := 1 |};
         {| Recommendation.id := "master_peer_tutoring";
            Recommendation.title := "Help Fellow Learners";
            Recommendation.description :=
              "Your understanding is strong! Consider joining our peer tutoring program to help others while reinforcing your own knowledge.";
            Recommendation.action_type := "feature";
            Recommendation.priority := 2 |};
         {| Recommendation.id := "master_challenge_content";
            Recommendation.title := "Take on Challenges";
            Recommendation.description :=
              "Test your limits with challenging problems and advanced exercises. Push yourself to the next level!";
            Recommendation.action_type := "content";
            Recommendation.priority := 3 |};
         {| Recommendation.id := "master_explore_related";
            Recommendation.title := "Explore Related Topics";
            Recommendation.description :=
              "Broaden your expertise by exploring related subjects and interdisciplinary connections.";
            Recommendation.action_type := "content";
            Recommendation.priority := 4 |} ];
     PersonaRecommendations.ui_hints :=
       [ ("show_advanced_filter", "true");
         ("highlight_challenges", "true");
         ("enable_tutoring_badge", "true") ] |}.

Definition _get_procrastinator_recommendations : PersonaRecommendations.t :=
  {| PersonaRecommendations.persona := PROCRASTINATOR;
     PersonaRecommendations.summary :=
       "We notice you tend to study in bursts. Let's help you build more consistent habits with small, manageable steps.";
     PersonaRecommendations.recommendations :=
       [ {| Recommendation.id := "procrastinator_deadline_reminders";
            Recommendation.title := "Set Up Deadline Alerts";
            Recommendation.description :=
              "Enable smart reminders that notify you well before deadlines. Get gentle nudges to start early and avoid last-minute stress.";
            Recommendation.action_type := "notification";
            Recommendation.priority := 1 |};
         {| Recommendation.id := "procrastinator_micro_tasks";
            Recommendation.title := "Break It Into Micro-Tasks";
            Recommendation.description :=
              "Large tasks feel overwhelming. We've broken down your learning into small, 10-minute chunks that are easy to start.";
            Recommendation.action_type := "feature";
            Recommendation.priority := 2 |};
         {| Recommendation.id := "procrastinator_progress_tracking";
            Recommendation.title := "Track Daily Progress";
            Recommendation.description :=
              "Build momentum with our daily streak tracker. Even 15 minutes a day adds up to significant progress over time.";
            Recommendation.action_type := "ui";
            Recommendation.priority := 3 |};
         {| Recommendation.id := "procrastinator_schedule_sessions";
            Recommendation.title := "Schedule Study Sessions";
            Recommendation.description :=
              "Block out specific times for studying in your calendar. Treating learning like an appointment makes it harder to skip.";
            Recommendation.action_type := "feature";
            Recommendation.priority := 4 |} ];
     PersonaRecommendations.ui_hints :=
       [ ("show_deadline_countdown", "true");
         ("enable_streak_tracker", "true");
         ("show_micro_tasks", "true");
         ("calendar_integration", "true") ] |}.

Definition _get_deep_diver_recommendations : PersonaRecommendations.t :=
  {| PersonaRecommendations.persona := DEEP_DIVER;
     PersonaRecommendations.summary :=
       "You love going deep into topics! Let's fuel your curiosity with more resources and research opportunities.";
     PersonaRecommendations.recommendations :=
       [ {| Recommendation.id := "deep_diver_supplementary_resources";
            Recommendation.title := "Access Supplementary Resources";
            Recommendation.description :=
              "Explore additional readings, research papers, and external resources that expand on the topics you're studying.";
            Recommendation.action_type := "content";
            Recommendation.priority := 1 |};
         {| Recommendation.id := "deep_diver_deep_content";
            Recommendation.title := "Unlock Deep-Dive Content";
            Recommendation.description :=
              "Access our extended materials with detailed explanations, case studies, and comprehensive analyses.";
            Recommendation.action_type := "content";
            Recommendation.priority := 2 |};
         {| Recommendation.id := "deep_diver_research_opportunities";
            Recommendation.title := "Join Research Projects";
            Recommendation.description :=
              "Your thorough approach is perfect for research! Explore opportunities to contribute to ongoing projects or start your own investigation.";
            Recommendation.action_type := "feature";
            Recommendation.priority := 3 |};
         {| Recommendation.id := "deep_diver_expert_connections";
            Recommendation.title := "Connect with Experts";
            Recommendation.description :=
              "Get access to expert Q&A sessions and office hours where you can discuss advanced topics in depth.";
            Recommendation.action_type := "feature";
            Recommendation.priority := 4 |} ];
     PersonaRecommendations.ui_hints :=
       [ ("show_related_resources", "true");
         ("enable_research_mode", "true");
         ("show_citation_links", "true") ] |}.

Definition _get_social_learner_recommendations : PersonaRecommendations.t :=
  {| PersonaRecommendations.persona := SOCIAL_LEARNER;
     PersonaRecommendations.summary :=
       "You thrive when learning with others! Let's connect you with study groups and collaborative opportunities.";
     PersonaRecommendations.recommendations :=
       [ {| Recommendation.id := "social_learner_study_groups";
            Recommendation.title := "Join Study Groups";
            Recommendation.description :=
              "Connect with peers studying the same material. Join or create study groups to learn together and share insights.";
            Recommendation.action_type := "feature";
            Recommendation.priority := 1 |};
         {| Recommendation.id := "social_learner_discussion_forums";
            Recommendation.title := "Participate in Discussions";
            Recommendation.description :=
              "Join our discussion forums to ask questions, share perspectives, and learn from diverse viewpoints.";
            Recommendation.action_type := "feature";
            Recommendation.priority := 2 |};
         {| Recommendation.id := "social_learner_collaborative_activities";
            Recommendation.title := "Try Collaborative Projects";
            Recommendation.description :=
              "Work on group projects and collaborative exercises. Learning together often leads to deeper understanding.";
            Recommendation.action_type := "feature";
            Recommendation.priority := 3 |};
         {| Recommendation.id := "social_learner_peer_review";
            Recommendation.title := "Exchange Peer Feedback";
            Recommendation.description :=
              "Share your work and get feedback from peers. Reviewing others' work also helps reinforce your own learning.";
            Recommendation.action_type := "feature";
            Recommendation.priority := 4 |} ];
     PersonaRecommendations.ui_hints :=
       [ ("show_active_groups", "true");
         ("enable_chat_features", "true");
         ("highlight_collaborative_pods", "true") ] |}.

Definition _get_perfectionist_recommendations : PersonaRecommendations.t :=
  {| PersonaRecommendations.persona := PERFECTIONIST;
     PersonaRecommendations.summary :=
       "Your attention to detail is admirable! Let's help you balance thoroughness with progress.";
     PersonaRecommendations.recommendations :=
       [ {| Recommendation.id := "perfectionist_time_boxing";
            Recommendation.title := "Try Time-Boxing";
            Recommendation.description :=
              "Set time limits for each topic or task. When the timer ends, move on. You can always revisit later if needed.";
            Recommendation.action_type := "feature";
            Recommendation.priority := 1 |};
         {| Recommendation.id := "perfectionist_good_enough";
            Recommendation.title := "Embrace 'Good Enough'";
            Recommendation.description :=
              "Aim for 80% understanding before moving on. Perfection isn't required for progressâ€”you'll reinforce concepts through practice.";
            Recommendation.action_type := "notification";
            Recommendation.priority := 2 |};
         {| Recommendation.id := "perfectionist_celebrate_progress";
            Recommendation.title := "Celebrate Your Progress";
            Recommendation.description :=
              "Focus on how far you've come, not just what's left. Every completed section is an achievement worth recognizing.";
            Recommendation.action_type := "ui";
            Recommendation.priority := 3 |};
         {| Recommendation.id := "perfectionist_limit_reviews";
            Recommendation.title := "Limit Review Cycles";
            Recommendation.description :=
              "Set a maximum of 2 review passes per material. Trust your understanding and move forward with confidence.";
            Recommendation.action_type := "feature";
            Recommendation.priority := 4 |} ];
     PersonaRecommendations.ui_hints :=
       [ ("show_time_tracker", "true");
         ("enable_progress_milestones", "true");
         ("limit_review_prompts", "true") ] |}.

Definition _get_lost_recommendations : PersonaRecommendations.t :=
  {| PersonaRecommendations.persona := LOST;
     PersonaRecommendations.summary :=
       "Finding your way can be challenging. Let's create a clear path and connect you with support.";
     PersonaRecommendations.recommendations :=
       [ {| Recommendation.id := "lost_guided_paths";
            Recommendation.title := "Follow a Guided Learning Path";
            Recommendation.description :=
              "We've created a structured learning path just for you. Follow the recommended sequence to build knowledge step-by-step.";
            Recommendation.action_type := "content";
            Recommendation.priority := 1 |};
         {| Recommendation.id := "lost_mentor_matching";
            Recommendation.title := "Get Matched with a Mentor";
            Recommendation.description :=
              "Connect with an experienced mentor who can guide you, answer questions, and help you stay on track.";
            Recommendation.action_type := "feature";
            Recommendation.priority := 2 |};
         {| Recommendation.id := "lost_foundational_materials";
            Recommendation.title := "Start with Foundations";
            Recommendation.description :=
              "Begin with our foundational materials that cover the basics. Building a strong foundation makes everything else easier.";
            Recommendation.action_type := "content";
            Recommendation.priority := 3 |};
         {| Recommendation.id := "lost_goal_setting";
            Recommendation.title := "Set Clear Learning Goals";
            Recommendation.description :=
              "Define what you want to achieve. Having clear goals helps you focus and measure your progress.";
            Recommendation.action_type := "feature";
            Recommendation.priority := 4 |} ];
     PersonaRecommendations.ui_hints :=
       [ ("show_learning_path", "true");
         ("enable_mentor_chat", "true");
         ("highlight_prerequisites", "true");
         ("show_goal_tracker", "true") ] |}.

Close Scope Z_scope.
Close Scope string_scope.

(** The mapping built by [__init__], in insertion order. *)
Definition _persona_recommendations
  : list (LearningPersona * PersonaRecommendations.t) :=
  [ (STRUGGLER, _get_struggler_recommendations);
    (SKIMMER, _get_skimmer_recommendations);
    (ANXIOUS, _get_anxious_recommendations);
    (BURNOUT, _get_burnout_recommendations);
    (MASTER, _get_master_recommendations);
    (PROCRASTINATOR, _get_procrastinator_recommendations);
    (DEEP_DIVER, _get_deep_diver_recommendations);
    (SOCIAL_LEARNER, _get_social_learner_recommendations);
    (PERFECTIONIST, _get_perfectionist_recommendations);
    (LOST, _get_lost_recommendations) ].

(** Key comparison of the mapping.  [LearningPersona] mixes in [str], so a
    member hashes and compares as its value: a plain string equal to a
    member's value finds that member's entry. *)
Definition key_matches (k : LearningPersona) (persona : PersonaArg) : bool :=
  match persona with
  | Member p => LearningPersona_eqb k p
  | PyStr s => String.eqb (value k) s
  | PyNone => false
  end.

(** Get recommendations for a persona.  After the lookup the source logs
    [persona.value], an attribute only a member has. *)
Definition get_recommendations (persona : PersonaArg)
  : Result PersonaRecommendations.t :=
  match find (fun kv => key_matches (fst kv) persona) _persona_recommendations
  with
  | None => Raise ValueError
  | Some (_, recommendations) =>
      match persona with
      | Member _ => Ok recommendations
      | PyStr _ | PyNone => Raise AttributeError
      end
  end.

End RecommendationEngine.

(** ** router.py *)

Module FeatureSummary.
Record t : Type := {
  chat_engagement : string;
  material_consumption : string;
  activity_consistency : string;
  key_indicators : list string
}.
End FeatureSummary.

Module PredictRequest.
Record t : Type := {
  user_id : string;
  behavior_data : BehaviorData;
  quiz_score : option Q;
  previous_persona : option string
}.
End PredictRequest.

(** [processing_time_ms], a reading of the wall clock, is left out. *)
Module PredictResponse.
Record t : Type := {
  user_id : string;
  persona : string;
  confidence : Q;
  is_low_confidence : bool;
  recommendations : list Recommendation.t;
  feature_summary : FeatureSummary.t;
  override_info : option GuardrailOverride.t;
  flags : list FlagReason
}.
(** [confidence: float = Field(ge=0.0, le=1.0)] *)
Definition new (r : t) : Result t :=
  if unit_range (confidence r) then Ok r else Raise ValidationError.
End PredictResponse.

Module HealthResponse.
Record t : Type := {
  status : string;
  model_loaded : bool;
  model_version : string;
  last_training_date : string;
  error_details : option string
}.
End HealthResponse.

Module Router.

(** The module-level components set by [initialize_components].  The
    feature extractor, the guardrails and the recommendation engine carry
    no state the endpoint reads. *)
Record Components : Type := {
  _initialized : bool;
  _persona_classifier : option PersonaClassifier.t
}.

(** The three-way label of a weighted sum.  The cuts are taken on the
    exact sum; the double sum of the source may fall one rounding below
    a cut that the exact sum meets. *)
Definition level (score : Q) : string :=
  if Qlt_bool score 0.33 then "low"
  else if Qlt_bool score 0.66 then "medium"
  else "high".

Definition _generate_feature_summary (features : FeatureVector)
  : FeatureSummary.t :=
  let chat_score :=
    chat_message_ratio features * 0.3 +
    messages_per_session features * 0.3 +
    session_count_norm features * 0.2 +
    feedback_engagement features * 0.2 in
  let chat_engagement := level chat_score in
  let material_score :=
    time_spent_norm features * 0.3 +
    view_count_norm features * 0.2 +
    scroll_depth features * 0.3 +
    material_engagement_score features * 0.2 in
  let material_consumption := level material_score in
  let activity_consistency := level (consistency_score features) in
  let key_indicators : list string := [] in
  let key_indicators :=
    if Qlt_bool 0.7 (question_frequency features)
    then key_indicators ++ ["High question frequency in chat"%string]
    else key_indicators in
  let key_indicators :=
    if Qlt_bool 0.5 (late_night_ratio features)
    then key_indicators ++ ["Significant late-night activity"%string]
    else key_indicators in
  let key_indicators :=
    if Qlt_bool 0.8 (scroll_depth features)
    then key_indicators ++ ["Thorough material reading"%string]
    else key_indicators in
  let key_indicators :=
    if Qlt_bool (scroll_depth features) 0.3
    then key_indicators ++ ["Quick material scanning"%string]
    else key_indicators in
  let key_indicators :=
    if Qlt_bool (engagement_trend_encoded features) 0.25
    then key_indicators ++ ["Declining engagement trend"%string]
    else if Qlt_bool 0.75 (engagement_trend_encoded features)
    then key_indicators ++ ["Increasing engagement trend"%string]
    else key_indicators in
  let key_indicators :=
    if Qlt_bool 0.5 (bookmark_ratio features)
    then key_indicators ++ ["Active bookmarking behavior"%string]
    else key_indicators in
  let key_indicators :=
    if Qlt_bool 0.8 (quiz_score_norm features)
    then key_indicators ++ ["Strong quiz performance"%string]
    else if Qlt_bool (quiz_score_norm features) 0.4 &&
            Qlt_bool 0.1 (quiz_attempt_frequency features)
    then key_indicators ++ ["Struggling with quizzes"%string]
    else key_indicators in
  let key_indicators :=
    if Qlt_bool 0.7 (active_days_ratio features)
    then key_indicators ++ ["Consistent daily activity"%string]
    else if Qlt_bool (active_days_ratio features) 0.2
    then key_indicators ++ ["Sporadic activity pattern"%string]
    else key_indicators in
  {| FeatureSummary.chat_engagement := chat_engagement;
     FeatureSummary.material_consumption := material_consumption;
     FeatureSummary.activity_consistency := activity_consistency;
     FeatureSummary.key_indicators := key_indicators |}.

(** The average time handed to the guardrails (step 3 of the endpoint). *)
Definition avg_time_per_material_of (material : MaterialInteraction) : Q :=
  if (0 <? total_views material)%Z
  then inject_Z (total_time_spent_seconds material) /
       inject_Z (total_views material)
  else 0.

(** Parse previous persona if provided: an empty or unrecognised string is
    no previous persona. *)
Definition parse_previous_persona (previous_persona : option string)
  : option LearningPersona :=
  match previous_persona with
  | None => None
  | Some s =>
      if String.eqb s "" then None
      else match LearningPersona_of_value s with
           | Ok p => Some p
           | Raise _ => None
           end
  end.

(** The body of the [try] block of [predict_persona]. *)
Definition predict_pipeline
    (classifier : PersonaClassifier.t) (request : PredictRequest.t)
  : Result PredictResponse.t :=
  features <- FeatureExtractor.extract (PredictRequest.behavior_data request) ;;
  classification <- PersonaClassifier.predict classifier features ;;
  let material := material (PredictRequest.behavior_data request) in
  let avg_time_per_material := avg_time_per_material_of material in
  let previous_persona :=
    parse_previous_persona (PredictRequest.previous_persona request) in
  guardrail_result <-
    LogicGuardrails.apply classification features
      (PredictRequest.quiz_score request)
      previous_persona
      (unique_materials_viewed material)
      avg_time_per_material ;;
  persona_recommendations <-
    RecommendationEngine.get_recommendations
      (Member (GuardrailResult.persona guardrail_result)) ;;
  let feature_summary := _generate_feature_summary features in
  PredictResponse.new
    {| PredictResponse.user_id := PredictRequest.user_id request;
       PredictResponse.persona :=
         value (GuardrailResult.persona guardrail_result);
       PredictResponse.confidence :=
         GuardrailResult.confidence guardrail_result;
       PredictResponse.is_low_confidence :=
         ClassificationResult.is_low_confidence classification;
       PredictResponse.recommendations :=
         PersonaRecommendations.recommendations persona_recommendations;
       PredictResponse.feature_summary := feature_summary;
       PredictResponse.override_info :=
         GuardrailResult.override guardrail_result;
       PredictResponse.flags :=
         GuardrailFlags.flag_reasons (GuardrailResult.flags guardrail_result) |}.

(** Predict learning persona for a user: 503 when the components are not
    ready, 500 when anything in the pipeline raises. *)
Definition predict_persona (components : Components) (request : PredictRequest.t)
  : Result PredictResponse.t :=
  match _persona_classifier components with
  | Some classifier =>
      if _initialized components && PersonaClassifier.is_loaded classifier
      then
        match predict_pipeline classifier request with
        | Ok response => Ok response
        | Raise _ => Raise (HTTPException 500)
        end
      else Raise (HTTPException 503)
  | None => Raise (HTTPException 503)
  end.

(** Health check for Learning Pulse module. *)
Definition health_check (components : Components) : HealthResponse.t :=
  let unhealthy :=
    {| HealthResponse.status := "unhealthy";
       HealthResponse.model_loaded := false;
       HealthResponse.model_version := "unknown";
       HealthResponse.last_training_date := "unknown";
       HealthResponse.error_details :=
         Some "Model not loaded or unavailable"%string |} in
  match _persona_classifier components with
  | Some classifier =>
      if _initialized components && PersonaClassifier.is_loaded classifier
      then
        {| HealthResponse.status := "healthy";
           HealthResponse.model_loaded := true;
           HealthResponse.model_version :=
             PersonaClassifier._model_version classifier;
           HealthResponse.last_training_date :=
             PersonaClassifier._last_training_date classifier;
           HealthResponse.error_details := None |}
      else unhealthy
  | None => unhealthy
  end.

End Router.

(** ** train.py: the feature order and the label mapping *)

(** [[f(x) for x in xs]] where [f] may raise. *)
Fixpoint traverse {A B : Type} (f : A -> Result B) (xs : list A)
  : Result (list B) :=
  match xs with
  | [] => Ok []
  | x :: xs' =>
      y <- f x ;;
      ys <- traverse f xs' ;;
      Ok (y :: ys)
  end.

(** [enumerate(xs)], counting from [start]. *)
Fixpoint enumerate_from {A : Type} (start : Z) (xs : list A)
  : list (Z * A) :=
  match xs with
  | [] => []
  | x :: xs' => (start, x) :: enumerate_from (start + 1)%Z xs'
  end.

Open Scope string_scope.

(** [getattr(fv, name)] *)
Definition FeatureVector_getattr (fv : FeatureVector) (name : string)
  : Result Q :=
  if String.eqb name "chat_message_ratio" then Ok (chat_message_ratio fv)
  else if String.eqb name "question_frequency" then Ok (question_frequency fv)
  else if String.eqb name "avg_message_length_norm"
  then Ok (avg_message_length_norm fv)
  else if String.eqb name "feedback_ratio" then Ok (feedback_ratio fv)
  else if String.eqb name "feedback_engagement"
  then Ok (feedback_engagement fv)
  else if String.eqb name "session_count_norm" then Ok (session_count_norm fv)
  else if String.eqb name "messages_per_session"
  then Ok (messages_per_session fv)
  else if String.eqb name "session_duration_norm"
  then Ok (session_duration_norm fv)
  else if String.eqb name "time_spent_norm" then Ok (time_spent_norm fv)
  else if String.eqb name "view_count_norm" then Ok (view_count_norm fv)
  else if String.eqb name "material_diversity" then Ok (material_diversity fv)
  else if String.eqb name "avg_time_per_view_norm"
  then Ok (avg_time_per_view_norm fv)
  else if String.eqb name "bookmark_ratio" then Ok (bookmark_ratio fv)
  else if String.eqb name "scroll_depth" then Ok (scroll_depth fv)
  else if String.eqb name "material_engagement_score"
  then Ok (material_engagement_score fv)
  else if String.eqb name "active_days_ratio" then Ok (active_days_ratio fv)
  else if String.eqb name "session_frequency" then Ok (session_frequency fv)
  else if String.eqb name "consistency_score" then Ok (consistency_score fv)
  else if String.eqb name "late_night_ratio" then Ok (late_night_ratio fv)
  else if String.eqb name "weekend_ratio" then Ok (weekend_ratio fv)
  else if String.eqb name "peak_hour_norm" then Ok (peak_hour_norm fv)
  else if String.eqb name "engagement_trend_encoded"
  then Ok (engagement_trend_encoded fv)
  else if String.eqb name "quiz_score_norm" then Ok (quiz_score_norm fv)
  else if String.eqb name "quiz_completion_norm"
  then Ok (quiz_completion_norm fv)
  else if String.eqb name "quiz_attempt_frequency"
  then Ok (quiz_attempt_frequency fv)
  else Raise AttributeError.

(** The [FeatureVector] constructor called with the entries of a dict as
    keyword arguments: a field without default that is missing is
    a [ValidationError], the three quiz fields fall back to their
    defaults, keys that name no field are ignored, and the range checks
    of the constructor apply. *)
Definition FeatureVector_of_kwargs (kwargs : dict Q) : Result FeatureVector :=
  let required (name : string) : Result Q :=
    match dict_get kwargs name with
    | Some v => Ok v
    | None => Raise ValidationError
    end in
  let optional (name : string) (default : Q) : Q :=
    match dict_get kwargs name with
    | Some v => v
    | None => default
    end in
  f1 <- required "chat_message_ratio" ;;
  f2 <- required "question_frequency" ;;
  f3 <- required "avg_message_length_norm" ;;
  f4 <- required "feedback_ratio" ;;
  f5 <- required "feedback_engagement" ;;
  f6 <- required "session_count_norm" ;;
  f7 <- required "messages_per_session" ;;
  f8 <- required "session_duration_norm" ;;
  f9 <- required "time_spent_norm" ;;
  f10 <- required "view_count_norm" ;;
  f11 <- required "material_diversity" ;;
  f12 <- required "avg_time_per_view_norm" ;;
  f13 <- required "bookmark_ratio" ;;
  f14 <- required "scroll_depth" ;;
  f15 <- required "material_engagement_score" ;;
  f16 <- required "active_days_ratio" ;;
  f17 <- required "session_frequency" ;;
  f18 <- required "consistency_score" ;;
  f19 <- required "late_night_ratio" ;;
  f20 <- required "weekend_ratio" ;;
  f21 <- required "peak_hour_norm" ;;
  f22 <- required "engagement_trend_encoded" ;;
  FeatureVector_new
    {| chat_message_ratio := f1; question_frequency := f2;
       avg_message_length_norm := f3; feedback_ratio := f4;
       feedback_engagement := f5; session_count_norm := f6;
       messages_per_session := f7; session_duration_norm := f8;
       time_spent_norm := f9; view_count_norm := f10;
       material_diversity := f11; avg_time_per_view_norm := f12;
       bookmark_ratio := f13; scroll_depth := f14;
       material_engagement_score := f15; active_days_ratio := f16;
       session_frequency := f17; consistency_score := f18;
       late_night_ratio := f19; weekend_ratio := f20;
       peak_hour_norm := f21; engagement_trend_encoded := f22;
       quiz_score_norm := optional "quiz_score_norm" 0.5;
       quiz_completion_norm := optional "quiz_completion_norm" 0.5;
       quiz_attempt_frequency := optional "quiz_attempt_frequency" 0 |}.

Close Scope string_scope.

Module Train.

Definition FEATURE_NAMES : list string :=
  [ "chat_message_ratio"; "question_frequency"; "avg_message_length_norm";
    "feedback_ratio"; "feedback_engagement"; "session_count_norm";
    "messages_per_session"; "session_duration_norm";
    "time_spent_norm"; "view_count_norm"; "material_diversity";
    "avg_time_per_view_norm"; "bookmark_ratio"; "scroll_depth";
    "material_engagement_score";
    "active_days_ratio"; "session_frequency"; "consistency_score";
    "late_night_ratio"; "weekend_ratio"; "peak_hour_norm";
    "engagement_trend_encoded";
    "quiz_score_norm"; "quiz_completion_norm";
    "quiz_attempt_frequency" ]%string.

Definition NUM_FEATURES : nat := List.length FEATURE_NAMES.

(** Convert a FeatureVector Pydantic model to a numpy array. *)
Definition feature_vector_to_array (fv : FeatureVector) : Result (list Q) :=
  traverse (FeatureVector_getattr fv) FEATURE_NAMES.

(** Convert a numpy array to a FeatureVector Pydantic model. *)
Definition array_to_feature_vector (arr : list Q) : Result FeatureVector :=
  if negb (Nat.eqb (List.length arr) NUM_FEATURES) then Raise ValueError
  else FeatureVector_of_kwargs (dict_of_zip FEATURE_NAMES arr).

(** [SyntheticDataGenerator.personas] *)
Definition personas : list LearningPersona := LearningPersona_members.

(** The labels and the persona names [generate_dataset] returns; the
    sampled feature rows, drawn from a random generator, are left out. *)
Definition generate_dataset_labels (samples_per_persona : nat)
  : list Z * list string :=
  let persona_names := map value personas in
  let all_labels :=
    map (fun ip => repeat (fst ip) samples_per_persona)
        (enumerate_from 0 personas) in
  (List.concat all_labels, persona_names).

(** The three keys of the metadata [train_model] writes that the
    classifier reads back; the training date is a clock reading. *)
Definition written_metadata (training_date : string)
    (samples_per_persona : nat) : PersonaClassifier.Metadata :=
  {| PersonaClassifier.md_model_version := Some "1.0.0"%string;
     PersonaClassifier.md_training_date := Some training_date;
     PersonaClassifier.md_persona_names :=
       Some (snd (generate_dataset_labels samples_per_persona)) |}.

End Train.

(** * Specification-side definitions and sample inputs *)

Section Reference.
Import FeatureExtractor LogicGuardrails PersonaClassifier RecommendationEngine Router.

(** A well-typed input reporting two user messages out of one message. *)
Definition more_user_messages_than_messages : BehaviorData :=
  {| user_id := "u"; analysis_period_days := 30;
     chat := {| total_messages := 1; user_messages := 2;
                assistant_messages := 0; question_count := 0;
                avg_message_length := 0; thumbs_up_count := 0;
                thumbs_down_count := 0; unique_sessions := 0;
                total_session_duration_minutes := 0 |};
     material := MaterialInteraction_default;
     activity := ActivityPattern_default;
     quiz := None |}.

(** Every count of the chat record is zero. *)
Definition all_zero_chat (c : ChatBehavior) : Prop :=
  total_messages c = 0%Z /\ user_messages c = 0%Z /\
  assistant_messages c = 0%Z /\ question_count c = 0%Z /\
  avg_message_length c == 0 /\
  thumbs_up_count c = 0%Z /\ thumbs_down_count c = 0%Z /\
  unique_sessions c = 0%Z /\ total_session_duration_minutes c == 0.

(** No chat activity, and a quiz record that reports a score and a
    completion rate but no attempt. *)
Definition unattempted_quiz_input : BehaviorData :=
  {| user_id := "u"; analysis_period_days := 30;
     chat := ChatBehavior_default;
     material := MaterialInteraction_default;
     activity := ActivityPattern_default;
     quiz := Some {| quiz_attempts := 0; avg_score := 80;
                     completion_rate := 0.9 |} |}.

(** The trend heuristic as the specification words it: two scores, each
    the number of its indicators that hold, over the tabulated ratios
    (capped at 1) and the raw sessions per active day. *)
Definition indicator (b : bool) : Z := if b then 1%Z else 0%Z.

Definition spec_ratio (n d : Z) : Q :=
  pymin 1 (if (d =? 0)%Z then 0 else inject_Z n / inject_Z d).

Definition spec_engagement_trend_encoded (data : BehaviorData) : Q :=
  let a := activity data in
  if (total_sessions a =? 0)%Z then 0.5
  else
    let variance := daily_activity_variance a in
    let active_days_ratio :=
      spec_ratio (active_days a) (analysis_period_days data) in
    let late_night_ratio :=
      spec_ratio (late_night_sessions a) (total_sessions a) in
    let sessions_per_active_day :=
      if (active_days a =? 0)%Z then 0
      else inject_Z (total_sessions a) / inject_Z (active_days a) in
    let declining_score :=
      (indicator (Qlt_bool 5 variance) +
       indicator (Qlt_bool active_days_ratio 0.3 && (0 <? total_sessions a)%Z) +
       indicator (Qlt_bool sessions_per_active_day 0.5 &&
                  (0 <? active_days a)%Z) +
       indicator (Qlt_bool 0.4 late_night_ratio))%Z in
    let increasing_score :=
      (indicator (Qlt_bool variance 2) +
       indicator (Qlt_bool 0.6 active_days_ratio) +
       indicator (Qlt_bool 2 sessions_per_active_day))%Z in
    if (2 <=? declining_score)%Z then 0
    else if (2 <=? increasing_score)%Z then 1
    else 0.5.

(** Ten hours of viewing, full scroll depth, every view bookmarked. *)
Definition saturated_material_input : BehaviorData :=
  {| user_id := "u"; analysis_period_days := 30;
     chat := ChatBehavior_default;
     material := {| total_time_spent_seconds := 36000; total_views := 4;
                    unique_materials_viewed := 4; bookmark_count := 4;
                    avg_scroll_depth := 1 |};
     activity := ActivityPattern_default;
     quiz := None |}.

(** The override rules as the specification lists them: an ordered
    cascade, the first rule whose persona and condition both hold giving
    the final persona and the rule id. *)
Definition spec_override
    (persona : LearningPersona) (quiz_score : option Q)
    (total_materials_viewed : Z) (avg_time_per_material : Q)
  : option (LearningPersona * string) :=
  if LearningPersona_eqb persona MASTER &&
     match quiz_score with Some q => Qlt_bool q 50 | None => false end
  then Some (STRUGGLER, "master_low_quiz_score"%string)
  else if LearningPersona_eqb persona DEEP_DIVER &&
          (total_materials_viewed <? 3)%Z
  then Some (LOST, "deep_diver_low_material_count"%string)
  else if LearningPersona_eqb persona SKIMMER &&
          Qlt_bool 300 avg_time_per_material
  then Some (DEEP_DIVER, "skimmer_high_time_per_material"%string)
  else None.

Definition fired (o : option GuardrailOverride.t) : nat :=
  match o with Some _ => 1 | None => 0 end.

Definition override_outcome (o : GuardrailOverride.t)
  : LearningPersona * string :=
  (GuardrailOverride.final_persona o, GuardrailOverride.rule_triggered o).

(** The override the three checks select, in the order [apply] runs
    them. *)
Definition selected_override
    (prediction : ClassificationResult.t) (quiz_score : option Q)
    (total_materials_viewed : Z) (avg_time_per_material : Q)
  : option GuardrailOverride.t :=
  match _check_master_override prediction quiz_score with
  | Some o => Some o
  | None =>
      match _check_deep_diver_override prediction total_materials_viewed with
      | Some o => Some o
      | None => _check_skimmer_reconsideration prediction avg_time_per_material
      end
  end.

Definition sample_prediction (p : LearningPersona) (c : Q)
  : ClassificationResult.t :=
  {| ClassificationResult.persona := p;
     ClassificationResult.confidence := c;
     ClassificationResult.probabilities := [(value p, c)];
     ClassificationResult.is_low_confidence := Qlt_bool c 0.5 |}.

(** A feature vector with the three fields the flag rules read set as
    given and every other field at 0.5. *)
Definition sample_features (late_night session_freq trend : Q)
  : FeatureVector :=
  {| chat_message_ratio := 0.5; question_frequency := 0.5;
     avg_message_length_norm := 0.5; feedback_ratio := 0.5;
     feedback_engagement := 0.5; session_count_norm := 0.5;
     messages_per_session := 0.5; session_duration_norm := 0.5;
     time_spent_norm := 0.5; view_count_norm := 0.5;
     material_diversity := 0.5; avg_time_per_view_norm := 0.5;
     bookmark_ratio := 0.5; scroll_depth := 0.5;
     material_engagement_score := 0.5; active_days_ratio := 0.5;
     session_frequency := session_freq; consistency_score := 0.5;
     late_night_ratio := late_night; weekend_ratio := 0.5;
     peak_hour_norm := 0.5; engagement_trend_encoded := trend;
     quiz_score_norm := 0.5; quiz_completion_norm := 0.5;
     quiz_attempt_frequency := 0 |}.

(** The guard of the metadata branch of [_convert_to_persona]: a name list
    was loaded and the index points into it. *)
Definition index_mapped (self : PersonaClassifier.t) (idx : Z) : bool :=
  negb (Nat.eqb (List.length (_persona_names self)) 0) &&
  ((0 <=? idx)%Z && (idx <? Z.of_nat (List.length (_persona_names self)))%Z).

(** A classifier whose metadata supplied no [persona_names]. *)
Definition classifier_without_names (m : Model) : PersonaClassifier.t :=
  {| model := Some m; scaler := None; _model_version := "0.0.0";
     _last_training_date := "unknown"; _persona_names := [] |}.

Definition constant_model (c : PredictedClass) (probabilities : list Q)
  : Model :=
  {| model_predict := fun _ => c;
     model_predict_proba := fun _ => probabilities |}.

Definition ids (r : PersonaRecommendations.t) : list string :=
  map Recommendation.id (PersonaRecommendations.recommendations r).

Definition priorities (r : PersonaRecommendations.t) : list Z :=
  map Recommendation.priority (PersonaRecommendations.recommendations r).

(** A loaded classifier whose model always answers class index 6 (the
    deep diver) with probability 0.8. *)
Definition deep_diver_classifier : PersonaClassifier.t :=
  classifier_without_names
    (constant_model (PersonaClassifier.ClassIndex 6)
                    [0.1; 0; 0; 0; 0; 0; 0.8; 0.1; 0; 0]).

Definition ready_components : Components :=
  {| _initialized := true;
     _persona_classifier := Some deep_diver_classifier |}.

(** Ten views of two distinct materials. *)
Definition ten_views_of_two_materials : PredictRequest.t :=
  {| PredictRequest.user_id := "u";
     PredictRequest.behavior_data :=
       {| user_id := "u"; analysis_period_days := 30;
          chat := ChatBehavior_default;
          material := {| total_time_spent_seconds := 1200; total_views := 10;
                         unique_materials_viewed := 2; bookmark_count := 1;
                         avg_scroll_depth := 0.5 |};
          activity := ActivityPattern_default;
          quiz := None |};
     PredictRequest.quiz_score := None;
     PredictRequest.previous_persona := None |}.

End Reference.

(** * Further specification-side definitions *)

Section ReferenceMore.
Import FeatureExtractor LogicGuardrails PersonaClassifier RecommendationEngine Router.

(** A ratio of two counts with the zero-denominator default 0 and the cap
    at 1, by cases on the counts. *)
Definition spec_capped_ratio (n d : Z) : Q :=
  if (d =? 0)%Z then 0
  else if (d <=? n)%Z then 1
  else inject_Z n / inject_Z d.

(** An average [n / d] scaled by [scale], with the zero-denominator
    default 0 and the cap at 1, by cases on the counts. *)
Definition spec_capped_rate (n d scale : Z) : Q :=
  if (d =? 0)%Z then 0
  else if (scale * d <=? n)%Z then 1
  else inject_Z n / inject_Z (scale * d).

(** The same record with the three fields no feature is computed from
    replaced. *)
Definition with_unread_fields
    (data : BehaviorData) (uid : string)
    (assistant weekday : Z) : BehaviorData :=
  {| user_id := uid;
     analysis_period_days := analysis_period_days data;
     chat :=
       {| total_messages := total_messages (chat data);
          user_messages := user_messages (chat data);
          assistant_messages := assistant;
          question_count := question_count (chat data);
          avg_message_length := avg_message_length (chat data);
          thumbs_up_count := thumbs_up_count (chat data);
          thumbs_down_count := thumbs_down_count (chat data);
          unique_sessions := unique_sessions (chat data);
          total_session_duration_minutes :=
            total_session_duration_minutes (chat data) |};
     material := material data;
     activity :=
       {| active_days := active_days (activity data);
          total_sessions := total_sessions (activity data);
          peak_hour := peak_hour (activity data);
          late_night_sessions := late_night_sessions (activity data);
          weekend_sessions := weekend_sessions (activity data);
          total_weekday_sessions := weekday;
          daily_activity_variance :=
            daily_activity_variance (activity data) |};
     quiz := quiz data |}.

(** A busy, well-typed sample: 150 messages, 40 views, 35 sessions over
    18 of 30 days, a quiz record with attempts. *)
Definition busy_input : BehaviorData :=
  {| user_id := "busy"; analysis_period_days := 30;
     chat := {| total_messages := 150; user_messages := 80;
                assistant_messages := 70; question_count := 45;
                avg_message_length := 85.5; thumbs_up_count := 12;
                thumbs_down_count := 3; unique_sessions := 25;
                total_session_duration_minutes := 180.5 |};
     material := {| total_time_spent_seconds := 7200; total_views := 40;
                    unique_materials_viewed := 50; bookmark_count := 8;
                    avg_scroll_depth := 0.75 |};
     activity := {| active_days := 18; total_sessions := 35; peak_hour := 14;
                    late_night_sessions := 5; weekend_sessions := 8;
                    total_weekday_sessions := 27;
                    daily_activity_variance := 2.5 |};
     quiz := Some {| quiz_attempts := 5; avg_score := 72;
                     completion_rate := 0.8 |} |}.

(** The row the wrapped model is called on: the 25 features, passed
    through the scaler when one is configured. *)
Definition model_input (self : PersonaClassifier.t) (features : FeatureVector)
  : list Q :=
  match scaler self with
  | Some transform => transform (_feature_vector_to_array features)
  | None => _feature_vector_to_array features
  end.

(** A classifier holding model [m], after it loaded the metadata the
    training run writes. *)
Definition classifier_with_training_metadata
    (m : Model) (training_date : string) (samples_per_persona : nat)
  : PersonaClassifier.t :=
  _load_metadata
    {| model := Some m; scaler := None;
       _model_version := _model_version initial;
       _last_training_date := _last_training_date initial;
       _persona_names := _persona_names initial |}
    (Parsed (Train.written_metadata training_date samples_per_persona)).

(** A model that answers class index 4 with a distribution peaking at
    0.45 there. *)
Definition hesitant_model : Model :=
  constant_model (ClassIndex 4)
                 [0.05; 0.05; 0.05; 0.05; 0.45; 0.05; 0.05; 0.05; 0.1; 0.1].

(** [d.keys()] *)
Definition keys {V : Type} (d : dict V) : list string := map fst d.

(** The same classification with another persona. *)
Definition with_persona (prediction : ClassificationResult.t)
    (p : LearningPersona) : ClassificationResult.t :=
  {| ClassificationResult.persona := p;
     ClassificationResult.confidence :=
       ClassificationResult.confidence prediction;
     ClassificationResult.probabilities :=
       ClassificationResult.probabilities prediction;
     ClassificationResult.is_low_confidence :=
       ClassificationResult.is_low_confidence prediction |}.

(** The personas an override rule starts from. *)
Definition overridable (p : LearningPersona) : bool :=
  match p with
  | MASTER | DEEP_DIVER | SKIMMER => true
  | _ => false
  end.

(** [all(x != y for distinct positions)] on strings, as a check. *)
Fixpoint distinctb (l : list string) : bool :=
  match l with
  | [] => true
  | x :: l' => negb (existsb (String.eqb x) l') && distinctb l'
  end.

(** The four action-type tags. *)
Definition action_types : list string :=
  ["content"; "ui"; "notification"; "feature"]%string.

(** Every recommendation of the table, bundle by bundle. *)
Definition all_recommendations : list (LearningPersona * Recommendation.t) :=
  flat_map
    (fun kv =>
       map (fun r => (fst kv, r))
           (PersonaRecommendations.recommendations (snd kv)))
    _persona_recommendations.

(** The same request with another [previous_persona]. *)
Definition with_previous_persona
    (request : PredictRequest.t) (previous : option string)
  : PredictRequest.t :=
  {| PredictRequest.user_id := PredictRequest.user_id request;
     PredictRequest.behavior_data := PredictRequest.behavior_data request;
     PredictRequest.quiz_score := PredictRequest.quiz_score request;
     PredictRequest.previous_persona := previous |}.

(** A request carrying [data] and nothing else. *)
Definition request_of (data : BehaviorData) : PredictRequest.t :=
  {| PredictRequest.user_id := user_id data;
     PredictRequest.behavior_data := data;
     PredictRequest.quiz_score := None;
     PredictRequest.previous_persona := None |}.

(** The key indicators as a table: each message with the condition under
    which it is listed, in listing order; the second message of an
    [if]/[elif] pair is conditioned on the first being off. *)
Definition indicator_table (f : FeatureVector) : list (bool * string) :=
  [ (Qlt_bool 0.7 (question_frequency f),
     "High question frequency in chat");
    (Qlt_bool 0.5 (late_night_ratio f),
     "Significant late-night activity");
    (Qlt_bool 0.8 (scroll_depth f),
     "Thorough material reading");
    (Qlt_bool (scroll_depth f) 0.3,
     "Quick material scanning");
    (Qlt_bool (engagement_trend_encoded f) 0.25,
     "Declining engagement trend");
    (negb (Qlt_bool (engagement_trend_encoded f) 0.25) &&
     Qlt_bool 0.75 (engagement_trend_encoded f),
     "Increasing engagement trend");
    (Qlt_bool 0.5 (bookmark_ratio f),
     "Active bookmarking behavior");
    (Qlt_bool 0.8 (quiz_score_norm f),
     "Strong quiz performance");
    (negb (Qlt_bool 0.8 (quiz_score_norm f)) &&
     (Qlt_bool (quiz_score_norm f) 0.4 &&
      Qlt_bool 0.1 (quiz_attempt_frequency f)),
     "Struggling with quizzes");
    (Qlt_bool 0.7 (active_days_ratio f),
     "Consistent daily activity");
    (negb (Qlt_bool 0.7 (active_days_ratio f)) &&
     Qlt_bool (active_days_ratio f) 0.2,
     "Sporadic activity pattern") ]%string.

Definition spec_key_indicators (f : FeatureVector) : list string :=
  map snd (filter fst (indicator_table f)).

(** One listing step of the summary: [if c: l.append(s)], and its
    [if]/[elif] form. *)
Definition append_when (c : bool) (s : string) (l : list string)
  : list string :=
  if c then l ++ [s] else l.

Definition append_elif (a : bool) (s : string) (b : bool) (t : string)
    (l : list string) : list string :=
  if a then l ++ [s] else if b then l ++ [t] else l.

(** A request from a user whose engagement declines (few active days,
    high variance, half the sessions late at night) and who was a master
    before. *)
Definition declining_master_request : PredictRequest.t :=
  {| PredictRequest.user_id := "u";
     PredictRequest.behavior_data :=
       {| user_id := "u"; analysis_period_days := 30;
          chat := ChatBehavior_default;
          material := MaterialInteraction_default;
          activity := {| active_days := 5; total_sessions := 10;
                         peak_hour := 23; late_night_sessions := 5;
                         weekend_sessions := 0; total_weekday_sessions := 10;
                         daily_activity_variance := 8 |};
          quiz := None |};
     PredictRequest.quiz_score := None;
     PredictRequest.previous_persona := Some "master"%string |}.

End ReferenceMore.

(** * Properties *)

(** ** Comparisons, [min] and [max] *)

Lemma Qlt_bool_iff (x y : Q) : Qlt_bool x y = true <-> x < y.
Proof.
  unfold Qlt_bool. rewrite negb_true_iff, <- not_true_iff_false, Qle_bool_iff.
  split; [apply Qnot_le_lt | apply Qlt_not_le].
Qed.

Lemma Qlt_bool_spec (x y : Q) : BoolSpec (x < y) (y <= x) (Qlt_bool x y).
Proof.
  destruct (Qlt_bool x y) eqn:E; constructor.
  - now apply Qlt_bool_iff.
  - apply Qnot_lt_le. intro H. apply Qlt_bool_iff in H. congruence.
Qed.

Lemma Qle_bool_spec (x y : Q) : BoolSpec (x <= y) (y < x) (Qle_bool x y).
Proof.
  destruct (Qle_bool x y) eqn:E; constructor.
  - now apply Qle_bool_iff.
  - apply Qnot_le_lt. intro H. apply Qle_bool_iff in H. congruence.
Qed.

Lemma unit_range_iff (x : Q) : unit_range x = true <-> 0 <= x <= 1.
Proof.
  unfold unit_range, in_range.
  now rewrite andb_true_iff, !Qle_bool_iff.
Qed.

Lemma in_range_iff (lo hi x : Q) : in_range lo hi x = true <-> lo <= x <= hi.
Proof.
  unfold in_range. now rewrite andb_true_iff, !Qle_bool_iff.
Qed.

(** Case analysis on every comparison of the goal, innermost first, so
    that the facts collected never mention a conditional. *)
Ltac no_cond t :=
  lazymatch t with
  | context [if _ then _ else _] => fail
  | _ => idtac
  end.

Ltac qcmp :=
  repeat match goal with
         | |- context [Qlt_bool ?a ?b] =>
             no_cond a; no_cond b; destruct (Qlt_bool_spec a b)
         | |- context [Qle_bool ?a ?b] =>
             no_cond a; no_cond b; destruct (Qle_bool_spec a b)
         end.

Lemma pymin_cap (x : Q) : pymin 1 x <= 1.
Proof. unfold pymin. qcmp; lra. Qed.

Lemma pymin_nonneg (x : Q) : 0 <= x -> 0 <= pymin 1 x.
Proof. unfold pymin. qcmp; lra. Qed.

Lemma clamp_unit (x : Q) : 0 <= pymax 0 (pymin 1 x) <= 1.
Proof. unfold pymax, pymin. qcmp; lra. Qed.

Lemma cap_floor_unit (x : Q) : 0 <= pymin 1 (pymax 0 x) <= 1.
Proof. unfold pymax, pymin. qcmp; lra. Qed.

Lemma clamp_id (x : Q) : 0 <= x <= 1 -> pymax 0 (pymin 1 x) == x.
Proof. unfold pymax, pymin. qcmp; lra. Qed.

(** ** [_safe_divide] and [_normalize] *)

Section Helpers.
Import FeatureExtractor.

Lemma inject_Z_eq0 (d : Z) : Qeq_bool (inject_Z d) 0 = (d =? 0)%Z.
Proof.
  destruct (Z.eqb_spec d 0) as [->|Hd]; [reflexivity|].
  apply not_true_iff_false. rewrite Qeq_bool_iff.
  intro H. apply Hd. now apply (inject_Z_injective d 0).
Qed.

Lemma inject_Z_pos (d : Z) : (0 < d)%Z -> 0 < inject_Z d.
Proof. intro H. change 0 with (inject_Z 0). now rewrite <- Zlt_Qlt. Qed.

Lemma inject_Z_nonneg (d : Z) : (0 <= d)%Z -> 0 <= inject_Z d.
Proof. intro H. change 0 with (inject_Z 0). now rewrite <- Zle_Qle. Qed.

Lemma Qdiv_nonneg (a b : Q) : 0 <= a -> 0 < b -> 0 <= a / b.
Proof. intros Ha Hb. apply Qle_shift_div_l; [assumption | lra]. Qed.

Lemma Qdiv_le_1 (a b : Q) : a <= b -> 0 < b -> a / b <= 1.
Proof. intros Ha Hb. apply Qle_shift_div_r; [assumption | lra]. Qed.

Lemma Qdiv_gt_1 (a b : Q) : b < a -> 0 < b -> 1 < a / b.
Proof. intros Ha Hb. apply Qlt_shift_div_l; [assumption | lra]. Qed.

Lemma _safe_divide_Z (n d : Z) (default : Q) :
  _safe_divide (inject_Z n) (inject_Z d) default =
  if (d =? 0)%Z then default else inject_Z n / inject_Z d.
Proof. unfold _safe_divide. now rewrite inject_Z_eq0. Qed.

Lemma _safe_divide_nonneg (n d : Z) (default : Q) :
  (0 <= n)%Z -> (0 <= d)%Z -> 0 <= default ->
  0 <= _safe_divide (inject_Z n) (inject_Z d) default.
Proof.
  intros Hn Hd Hdef. rewrite _safe_divide_Z.
  destruct (Z.eqb_spec d 0); [assumption|].
  apply Qdiv_nonneg; [now apply inject_Z_nonneg | apply inject_Z_pos; lia].
Qed.

Lemma _safe_divide_le_1 (n d : Z) (default : Q) :
  (n <= d)%Z -> (0 <= d)%Z -> default <= 1 ->
  _safe_divide (inject_Z n) (inject_Z d) default <= 1.
Proof.
  intros Hn Hd Hdef. rewrite _safe_divide_Z.
  destruct (Z.eqb_spec d 0); [assumption|].
  apply Qdiv_le_1; [now rewrite <- Zle_Qle | apply inject_Z_pos; lia].
Qed.

(** A ratio of counts capped with [min(1.0, _)] is in the unit range. *)
Lemma capped_ratio_unit (n d : Z) :
  (0 <= n)%Z -> (0 <= d)%Z ->
  unit_range (pymin 1 (_safe_divide (inject_Z n) (inject_Z d) 0)) = true.
Proof.
  intros Hn Hd. apply unit_range_iff. split.
  - apply pymin_nonneg, _safe_divide_nonneg; [assumption..|lra].
  - apply pymin_cap.
Qed.

Lemma _normalize_unit (v m : Q) : unit_range (_normalize v m) = true.
Proof.
  apply unit_range_iff. unfold _normalize.
  destruct (Qle_bool m 0); [lra | apply cap_floor_unit].
Qed.

Lemma clamp_unit_range (x : Q) : unit_range (pymax 0 (pymin 1 x)) = true.
Proof. apply unit_range_iff, clamp_unit. Qed.

End Helpers.

(** Split a conjunction of boolean checks into its facts. *)
Ltac split_checks H :=
  repeat match type of H with
         | (_ && _) = true =>
             let H1 := fresh "V" in
             let H2 := fresh "V" in
             apply andb_prop in H; destruct H as [H1 H2];
             split_checks H1; split_checks H2
         | (_ <=? _)%Z = true => apply Z.leb_le in H
         | Qle_bool _ _ = true => apply Qle_bool_iff in H
         | in_range _ _ _ = true => apply in_range_iff in H
         end.

(** ** The feature extractor stays in range *)

Section ExtractRange.
Import FeatureExtractor.

Lemma chat_features_unit (data : BehaviorData) :
  ChatBehavior_valid (chat data) = true ->
  let c := _extract_chat_features data in
  unit_range (cf_question_frequency c) = true /\
  unit_range (cf_avg_message_length_norm c) = true /\
  unit_range (cf_feedback_ratio c) = true /\
  unit_range (cf_feedback_engagement c) = true /\
  unit_range (cf_session_count_norm c) = true /\
  unit_range (cf_messages_per_session c) = true /\
  unit_range (cf_session_duration_norm c) = true.
Proof.
  intros V. unfold ChatBehavior_valid in V. split_checks V.
  cbn [_extract_chat_features cf_question_frequency
       cf_avg_message_length_norm cf_feedback_ratio cf_feedback_engagement
       cf_session_count_norm cf_messages_per_session cf_session_duration_norm].
  repeat split; try apply _normalize_unit; try (apply capped_ratio_unit; lia).
  apply unit_range_iff. split.
  - apply _safe_divide_nonneg; [lia | lia | lra].
  - apply _safe_divide_le_1; [lia | lia | lra].
Qed.

Lemma material_features_unit (data : BehaviorData) :
  MaterialInteraction_valid (material data) = true ->
  forallb unit_range
    (let m := _extract_material_features data in
     [mf_time_spent_norm m; mf_view_count_norm m; mf_material_diversity m;
      mf_avg_time_per_view_norm m; mf_bookmark_ratio m; mf_scroll_depth m;
      mf_material_engagement_score m]) = true.
Proof.
  intros V. unfold MaterialInteraction_valid in V. split_checks V.
  cbn [_extract_material_features mf_time_spent_norm mf_view_count_norm
       mf_material_diversity mf_avg_time_per_view_norm mf_bookmark_ratio
       mf_scroll_depth mf_material_engagement_score forallb].
  rewrite !_normalize_unit, !clamp_unit_range, !capped_ratio_unit by lia.
  reflexivity.
Qed.

Lemma trend_encoded_unit (t : EngagementTrend) :
  unit_range match t with DECLINING => 0 | STABLE => 0.5 | INCREASING => 1 end
  = true.
Proof. now destruct t. Qed.

Lemma activity_features_unit (data : BehaviorData) :
  (1 <=? analysis_period_days data)%Z = true ->
  ActivityPattern_valid (activity data) = true ->
  forallb unit_range
    (let a := _extract_activity_features data in
     [af_active_days_ratio a; af_session_frequency a; af_consistency_score a;
      af_late_night_ratio a; af_weekend_ratio a; af_peak_hour_norm a;
      af_engagement_trend_encoded a]) = true.
Proof.
  intros P V. unfold ActivityPattern_valid in V. split_checks V.
  apply Z.leb_le in P.
  cbn [_extract_activity_features af_active_days_ratio af_session_frequency
       af_consistency_score af_late_night_ratio af_weekend_ratio
       af_peak_hour_norm af_engagement_trend_encoded forallb].
  rewrite !_normalize_unit, !clamp_unit_range, !capped_ratio_unit by lia.
  now rewrite trend_encoded_unit.
Qed.

Lemma quiz_features_unit (data : BehaviorData) :
  forallb unit_range
    (let q := _extract_quiz_features data in
     [qf_quiz_score_norm q; qf_quiz_completion_norm q;
      qf_quiz_attempt_frequency q]) = true.
Proof.
  unfold _extract_quiz_features.
  destruct (quiz data) as [q|]; [|reflexivity].
  cbn [qf_quiz_score_norm qf_quiz_completion_norm qf_quiz_attempt_frequency
       forallb].
  rewrite _normalize_unit.
  destruct (quiz_attempts q =? 0)%Z; [reflexivity|].
  now rewrite !clamp_unit_range.
Qed.

End ExtractRange.

Section ExtractOutcome.
Import FeatureExtractor.

(** [chat_message_ratio] is the one ratio the extractor does not cap: a
    value outside the unit range makes the [FeatureVector] constructor
    raise. *)
Lemma extract_raises (data : BehaviorData) :
  unit_range (cf_chat_message_ratio (_extract_chat_features data)) = false ->
  extract data = Raise ValidationError.
Proof.
  intros E. unfold extract, FeatureVector_new.
  cbn [FeatureVector_fields forallb chat_message_ratio].
  now rewrite E.
Qed.

Lemma chat_message_ratio_unit (data : BehaviorData) :
  ChatBehavior_valid (chat data) = true ->
  unit_range (cf_chat_message_ratio (_extract_chat_features data)) = true <->
  (total_messages (chat data) = 0 \/
   user_messages (chat data) <= total_messages (chat data))%Z.
Proof.
  intros V. unfold ChatBehavior_valid in V. split_checks V.
  cbn [_extract_chat_features cf_chat_message_ratio].
  rewrite _safe_divide_Z, unit_range_iff.
  destruct (Z.eqb_spec (total_messages (chat data)) 0) as [E|E].
  - split; [now left | intros _; lra].
  - assert (P : 0 < inject_Z (total_messages (chat data)))
      by (apply inject_Z_pos; lia).
    split.
    + intros [_ H]. right.
      destruct (Z.le_gt_cases (user_messages (chat data))
                              (total_messages (chat data))) as [L|G];
        [assumption|].
      rewrite Zlt_Qlt in G. apply Qdiv_gt_1 in G; [lra | assumption].
    + intros [H|H]; [contradiction|]. split.
      * apply Qdiv_nonneg; [now apply inject_Z_nonneg | assumption].
      * apply Qdiv_le_1; [now rewrite <- Zle_Qle | assumption].
Qed.

(** With fewer than [2^53] messages, a chat ratio above 1 is above it by
    more than [2^-53], half the gap between 1 and the next double: no
    rounding to the nearest double brings it back to 1. *)
Lemma chat_message_ratio_margin (data : BehaviorData) :
  exact_int (total_messages (chat data)) = true ->
  (0 < total_messages (chat data) < user_messages (chat data))%Z ->
  1 + 1 / inject_Z (2 ^ 53)
  < cf_chat_message_ratio (_extract_chat_features data).
Proof.
  unfold exact_int. intros B [P G]. apply Z.ltb_lt in B.
  cbn [_extract_chat_features cf_chat_message_ratio].
  rewrite _safe_divide_Z.
  destruct (Z.eqb_spec (total_messages (chat data)) 0) as [E|_]; [lia|].
  assert (Pt : 0 < inject_Z (total_messages (chat data)))
    by (apply inject_Z_pos; lia).
  assert (Bt : inject_Z (total_messages (chat data)) < inject_Z (2 ^ 53))
    by now rewrite <- Zlt_Qlt.
  assert (Gt : inject_Z (total_messages (chat data)) + 1
               <= inject_Z (user_messages (chat data))).
  { change 1 with (inject_Z 1). rewrite <- inject_Z_plus, <- Zle_Qle. lia. }
  apply Qlt_shift_div_l; [assumption|].
  assert (K : 0 < inject_Z (2 ^ 53)) by reflexivity.
  assert (F : inject_Z (total_messages (chat data)) / inject_Z (2 ^ 53) < 1)
    by (apply Qlt_shift_div_r; [assumption | lra]).
  unfold Qdiv in *.
  set (t := inject_Z (total_messages (chat data))) in *.
  set (k := / inject_Z (2 ^ 53)) in *.
  lra.
Qed.

Lemma extract_ok_in_range (data : BehaviorData) (fv : FeatureVector) :
  extract data = Ok fv ->
  forallb unit_range (FeatureVector_fields fv) = true.
Proof.
  unfold extract, FeatureVector_new.
  match goal with
  | |- context [forallb unit_range ?l] => destruct (forallb unit_range l) eqn:E
  end; [|discriminate].
  intros H. injection H as <-. exact E.
Qed.

Lemma extract_succeeds (data : BehaviorData) :
  BehaviorData_valid data = true ->
  unit_range (cf_chat_message_ratio (_extract_chat_features data)) = true ->
  exists fv, extract data = Ok fv.
Proof.
  intros V E. unfold BehaviorData_valid in V.
  apply andb_prop in V; destruct V as [V Vq].
  apply andb_prop in V; destruct V as [V Va].
  apply andb_prop in V; destruct V as [V Vm].
  apply andb_prop in V; destruct V as [Vp Vc].
  pose proof (chat_features_unit data Vc) as Hc. cbv zeta in Hc.
  pose proof (material_features_unit data Vm) as Hm.
  pose proof (activity_features_unit data Vp Va) as Ha.
  pose proof (quiz_features_unit data) as Hq.
  cbv zeta in Hm, Ha, Hq. cbn [forallb] in Hm, Ha, Hq.
  destruct Hc as (C1 & C2 & C3 & C4 & C5 & C6 & C7).
  split_checks Hm. split_checks Ha. split_checks Hq.
  unfold extract, FeatureVector_new.
  match goal with
  | |- context [forallb unit_range ?l] =>
      assert (F : forallb unit_range l = true)
  end.
  { cbn [FeatureVector_fields forallb chat_message_ratio question_frequency
         avg_message_length_norm feedback_ratio feedback_engagement
         session_count_norm messages_per_session session_duration_norm
         time_spent_norm view_count_norm material_diversity
         avg_time_per_view_norm bookmark_ratio scroll_depth
         material_engagement_score active_days_ratio session_frequency
         consistency_score late_night_ratio weekend_ratio peak_hour_norm
         engagement_trend_encoded quiz_score_norm quiz_completion_norm
         quiz_attempt_frequency].
    repeat match goal with
           | H : unit_range _ = true |- _ => rewrite H; clear H
           end.
    reflexivity. }
  rewrite F. eexists. reflexivity.
Qed.

End ExtractOutcome.

(** From [extract data = Ok fv], the vector [fv] as the source builds it. *)
Ltac invert_extract H :=
  unfold FeatureExtractor.extract, FeatureVector_new in H;
  match type of H with
  | (if ?c then _ else _) = _ => destruct c; [|discriminate]
  end;
  injection H as <-.

(** ** Claims on the feature extractor *)

Section ExtractorClaims.
Import FeatureExtractor.

(** X1: On validated data whose counts are below [2^53], extraction
    returns as soon as the uncapped [chat_message_ratio] is a proper
    ratio, and then every one of the 25 fields lies in the unit range. *)
Lemma extract_total_on_proper_chat_ratio (data : BehaviorData) :
  BehaviorData_valid data = true ->
  counts_exact data = true ->
  (total_messages (chat data) = 0 \/
   user_messages (chat data) <= total_messages (chat data))%Z ->
  exists fv, extract data = Ok fv /\
             Forall (fun x => 0 <= x <= 1) (FeatureVector_fields fv).
Proof.
  intros V _ H.
  assert (Vc : ChatBehavior_valid (chat data) = true).
  { unfold BehaviorData_valid in V. rewrite !andb_true_iff in V. tauto. }
  destruct (extract_succeeds data V) as [fv E].
  { now apply chat_message_ratio_unit. }
  exists fv. split; [assumption|].
  apply Forall_forall. intros x Hx. apply unit_range_iff.
  pose proof (extract_ok_in_range data fv E) as F.
  rewrite forallb_forall in F. now apply F.
Qed.

(** X2: On validated data whose counts are below [2^53], extraction raises
    exactly when more user messages than messages are reported; what it
    raises is the [ValidationError] of the [FeatureVector] constructor;
    and the chat ratio that fails the check is above 1 by more than
    [2^-53], so that its rounding to a double is above 1 as well. *)
Lemma extract_raises_iff (data : BehaviorData) :
  BehaviorData_valid data = true ->
  counts_exact data = true ->
  ((exists e, extract data = Raise e) <->
   (0 < total_messages (chat data) < user_messages (chat data))%Z) /\
  (forall e, extract data = Raise e -> e = ValidationError) /\
  (forall e, extract data = Raise e ->
             1 + 1 / inject_Z (2 ^ 53)
             < cf_chat_message_ratio (_extract_chat_features data)).
Proof.
  intros V B.
  assert (Bt : exact_int (total_messages (chat data)) = true).
  { unfold counts_exact in B. cbn [forallb] in B.
    rewrite !andb_true_iff in B. tauto. }
  assert (Only : forall e, extract data = Raise e -> e = ValidationError).
  { intros e. unfold extract, FeatureVector_new.
    match goal with
    | |- context [forallb unit_range ?l] => destruct (forallb unit_range l)
    end; [discriminate | now intros [= <-]]. }
  assert (Iff : extract data = Raise ValidationError <->
                (0 < total_messages (chat data)
                   < user_messages (chat data))%Z);
    [|split; [split; [intros [e E]; apply Iff; now rewrite <- (Only e E)
                     |intros H; exists ValidationError; now apply Iff]
             |split; [exact Only
                     |intros e E; apply chat_message_ratio_margin;
                      [exact Bt | apply Iff; now rewrite <- (Only e E)]]]].
  assert (Vc : ChatBehavior_valid (chat data) = true).
  { unfold BehaviorData_valid in V. rewrite !andb_true_iff in V. tauto. }
  pose proof (chat_message_ratio_unit data Vc) as R.
  unfold ChatBehavior_valid in Vc. split_checks Vc.
  destruct (unit_range (cf_chat_message_ratio (_extract_chat_features data)))
    eqn:E.
  - split.
    + intros X. destruct (extract_succeeds data V E) as [fv Hfv]. congruence.
    + intros X. apply proj1 in R. specialize (R eq_refl). lia.
  - split.
    + intros _.
      assert (~ (total_messages (chat data) = 0 \/
                 user_messages (chat data) <= total_messages (chat data))%Z)
        by (intro X; apply R in X; discriminate).
      lia.
    + intros _. now apply extract_raises.
Qed.

(** C1, at the failing input: the data passes every constraint of
    [BehaviorData], its [chat_message_ratio] is computed as 2 (no cap is
    applied to it), and [extract] raises [ValidationError] instead of
    returning a vector with all fields in the unit range. *)
Theorem C1_extract_raises_on_uncapped_chat_ratio :
  BehaviorData_valid more_user_messages_than_messages = true /\
  cf_chat_message_ratio
    (_extract_chat_features more_user_messages_than_messages) == 2 /\
  extract more_user_messages_than_messages = Raise ValidationError.
Proof. repeat split. Qed.

(** C4: on validated data, (0) the chat extractor turns an all-zero chat
    record into chat_message_ratio 0.5, question_frequency 0,
    feedback_ratio 0.5 and messages_per_session 0; (1) when the other
    counts are below [2^53], extraction then returns a vector carrying
    these four values; (2) without a quiz record the vector carries
    quiz_score_norm 0.5, quiz_completion_norm 0.5 and
    quiz_attempt_frequency 0; (3) with a quiz record of zero attempts the
    two quiz ratios are 0.5 whatever score and completion rate it holds;
    (4) with counts below [2^53] extraction returns whenever the chat
    ratio is a proper ratio, an all-zero chat record included. *)
Theorem C4_missing_data_defaults (data : BehaviorData) :
  BehaviorData_valid data = true ->
  (all_zero_chat (chat data) ->
   cf_chat_message_ratio (_extract_chat_features data) == 0.5 /\
   cf_question_frequency (_extract_chat_features data) == 0 /\
   cf_feedback_ratio (_extract_chat_features data) == 0.5 /\
   cf_messages_per_session (_extract_chat_features data) == 0) /\
  (counts_exact data = true -> all_zero_chat (chat data) ->
   exists fv, extract data = Ok fv /\
              chat_message_ratio fv == 0.5 /\ question_frequency fv == 0 /\
              feedback_ratio fv == 0.5 /\ messages_per_session fv == 0) /\
  (forall fv, extract data = Ok fv -> quiz data = None ->
              quiz_score_norm fv == 0.5 /\ quiz_completion_norm fv == 0.5 /\
              quiz_attempt_frequency fv == 0) /\
  (forall fv q, extract data = Ok fv -> quiz data = Some q ->
                quiz_attempts q = 0%Z ->
                quiz_score_norm fv == 0.5 /\ quiz_completion_norm fv == 0.5) /\
  (counts_exact data = true ->
   (total_messages (chat data) = 0 \/
    user_messages (chat data) <= total_messages (chat data))%Z ->
   exists fv, extract data = Ok fv).
Proof.
  intros V.
  assert (Vc : ChatBehavior_valid (chat data) = true).
  { unfold BehaviorData_valid in V. rewrite !andb_true_iff in V. tauto. }
  assert (T : (total_messages (chat data) = 0 \/
               user_messages (chat data) <= total_messages (chat data))%Z ->
              exists fv, extract data = Ok fv).
  { intros H. apply extract_succeeds; [assumption|].
    now apply chat_message_ratio_unit. }
  split; [|split; [|split; [|split; [|intros _; exact T]]]].
  - intros (Z1 & Z2 & _ & _ & _ & Z6 & Z7 & Z8 & _).
    cbn [_extract_chat_features cf_chat_message_ratio
         cf_question_frequency cf_feedback_ratio cf_messages_per_session].
    rewrite Z1, Z2, Z6, Z7, Z8. repeat split; reflexivity.
  - intros _ (Z1 & Z2 & _ & _ & _ & Z6 & Z7 & Z8 & _).
    destruct T as [fv E]; [now left|]. exists fv. split; [assumption|].
    invert_extract E.
    cbn [chat_message_ratio question_frequency feedback_ratio
         messages_per_session _extract_chat_features cf_chat_message_ratio
         cf_question_frequency cf_feedback_ratio cf_messages_per_session].
    rewrite Z1, Z2, Z6, Z7, Z8. repeat split; reflexivity.
  - intros fv E Hq. invert_extract E.
    cbn [quiz_score_norm quiz_completion_norm quiz_attempt_frequency].
    unfold _extract_quiz_features. rewrite Hq. repeat split; reflexivity.
  - intros fv q E Hq Hz. invert_extract E.
    cbn [quiz_score_norm quiz_completion_norm].
    unfold _extract_quiz_features. rewrite Hq.
    cbn [qf_quiz_score_norm qf_quiz_completion_norm]. rewrite Hz.
    split; reflexivity.
Qed.

End ExtractorClaims.

Section ExtractorWitnesses.
Import FeatureExtractor.

Lemma C4_missing_data_defaults_witness :
  exists fv, extract unattempted_quiz_input = Ok fv /\
             chat_message_ratio fv == 0.5 /\ question_frequency fv == 0 /\
             feedback_ratio fv == 0.5 /\ messages_per_session fv == 0 /\
             quiz_score_norm fv == 0.5 /\ quiz_completion_norm fv == 0.5.
Proof.
  destruct (C4_missing_data_defaults unattempted_quiz_input eq_refl)
    as (_ & Hchat & _ & Hquiz & _).
  destruct (Hchat eq_refl) as (fv & E & C1 & C2 & C3 & C4).
  { unfold all_zero_chat. simpl. repeat split; reflexivity. }
  destruct (Hquiz fv _ E eq_refl eq_refl) as (Q1 & Q2).
  exists fv. repeat split; assumption.
Defined.

End ExtractorWitnesses.

(** ** The engagement trend *)

Section EngagementTrendClaim.
Import FeatureExtractor.

Lemma Qlt_bool_cap_l (x c : Q) :
  c < 1 -> Qlt_bool (pymin 1 x) c = Qlt_bool x c.
Proof. intros H. unfold pymin. qcmp; try reflexivity; lra. Qed.

Lemma Qlt_bool_cap_r (x c : Q) :
  c < 1 -> Qlt_bool c (pymin 1 x) = Qlt_bool c x.
Proof. intros H. unfold pymin. qcmp; try reflexivity; lra. Qed.

Lemma trend_encoding_matches_spec (data : BehaviorData) :
  match _calculate_engagement_trend data with
  | DECLINING => 0
  | STABLE => 0.5
  | INCREASING => 1
  end = spec_engagement_trend_encoded data.
Proof.
  unfold _calculate_engagement_trend, spec_engagement_trend_encoded, spec_ratio.
  cbv zeta.
  destruct (total_sessions (activity data) =? 0)%Z eqn:T; [reflexivity|].
  rewrite !_safe_divide_Z, T.
  rewrite !Qlt_bool_cap_l, !Qlt_bool_cap_r by lra.
  set (v := daily_activity_variance (activity data)).
  set (r := if (analysis_period_days data =? 0)%Z then 0 else _).
  set (f := if (active_days (activity data) =? 0)%Z then 0 else _).
  set (n := inject_Z (late_night_sessions (activity data)) / _).
  destruct (0 <? total_sessions (activity data))%Z;
    destruct (0 <? active_days (activity data))%Z;
    destruct (Qlt_bool_spec 5 v); destruct (Qlt_bool_spec v 2);
    destruct (Qlt_bool_spec r 0.3); destruct (Qlt_bool_spec 0.6 r);
    destruct (Qlt_bool_spec 2 f); destruct (Qlt_bool_spec f 0.5);
    destruct (Qlt_bool_spec 0.4 n);
    try reflexivity; exfalso; lra.
Qed.

(** C5: the encoded trend of the activity features is the value of the
    stated heuristic (stable, 0.5, without scoring when there is no
    session; otherwise declining, 0, at two or more declining indicators,
    else increasing, 1, at two or more increasing indicators, else 0.5),
    it is one of 0, 0.5 and 1, and it is the value a returned feature
    vector carries. *)
Theorem C5_engagement_trend_heuristic (data : BehaviorData) :
  af_engagement_trend_encoded (_extract_activity_features data)
  = spec_engagement_trend_encoded data /\
  (total_sessions (activity data) = 0%Z ->
   af_engagement_trend_encoded (_extract_activity_features data) = 0.5) /\
  (af_engagement_trend_encoded (_extract_activity_features data) = 0 \/
   af_engagement_trend_encoded (_extract_activity_features data) = 0.5 \/
   af_engagement_trend_encoded (_extract_activity_features data) = 1) /\
  (forall fv, extract data = Ok fv ->
              engagement_trend_encoded fv = spec_engagement_trend_encoded data).
Proof.
  assert (E : af_engagement_trend_encoded (_extract_activity_features data)
              = spec_engagement_trend_encoded data).
  { cbn [_extract_activity_features af_engagement_trend_encoded].
    apply trend_encoding_matches_spec. }
  split; [exact E|]. split; [|split].
  - intros Z0. rewrite E. unfold spec_engagement_trend_encoded.
    now rewrite Z0.
  - cbn [_extract_activity_features af_engagement_trend_encoded].
    destruct (_calculate_engagement_trend data); auto.
  - intros fv X. invert_extract X. cbn [engagement_trend_encoded]. exact E.
Qed.

Lemma C5_engagement_trend_witness :
  af_engagement_trend_encoded
    (_extract_activity_features (BehaviorData_default "u")) = 0.5.
Proof.
  apply (proj1 (proj2 (C5_engagement_trend_heuristic
                         (BehaviorData_default "u")))).
  reflexivity.
Defined.

(** The declining and increasing sample points of the heuristic. *)
Example engagement_trend_declining :
  spec_engagement_trend_encoded
    {| user_id := "u"; analysis_period_days := 30;
       chat := ChatBehavior_default; material := MaterialInteraction_default;
       activity := {| active_days := 5; total_sessions := 10; peak_hour := 12;
                      late_night_sessions := 5; weekend_sessions := 0;
                      total_weekday_sessions := 0;
                      daily_activity_variance := 8 |};
       quiz := None |} = 0.
Proof. reflexivity. Qed.

Example engagement_trend_increasing :
  spec_engagement_trend_encoded
    {| user_id := "u"; analysis_period_days := 30;
       chat := ChatBehavior_default; material := MaterialInteraction_default;
       activity := {| active_days := 25; total_sessions := 75; peak_hour := 12;
                      late_night_sessions := 5; weekend_sessions := 0;
                      total_weekday_sessions := 0;
                      daily_activity_variance := 1 |};
       quiz := None |} = 1.
Proof. reflexivity. Qed.

End EngagementTrendClaim.

(** ** The material engagement score *)

Section EngagementScoreClaim.
Import FeatureExtractor.

(** C8: on a validated material record the engagement score of the
    material features is exactly the weighted sum
    0.4 time_spent_norm + 0.4 scroll_depth + 0.2 bookmark_ratio of the
    sibling features, the final clamp leaving it unchanged; so all three
    at 1 give 1, all three at 0 give 0, and all three at 0.5 give 0.5. *)
Theorem C8_material_engagement_score_is_weighted_sum (data : BehaviorData) :
  MaterialInteraction_valid (material data) = true ->
  let m := _extract_material_features data in
  mf_material_engagement_score m ==
    0.4 * mf_time_spent_norm m + 0.4 * mf_scroll_depth m +
    0.2 * mf_bookmark_ratio m /\
  (forall c, mf_time_spent_norm m == c -> mf_scroll_depth m == c ->
             mf_bookmark_ratio m == c ->
             mf_material_engagement_score m == c).
Proof.
  intros V m.
  assert (S : mf_material_engagement_score m ==
              0.4 * mf_time_spent_norm m + 0.4 * mf_scroll_depth m +
              0.2 * mf_bookmark_ratio m).
  { unfold MaterialInteraction_valid in V. split_checks V.
    subst m.
    cbn [_extract_material_features mf_material_engagement_score
         mf_time_spent_norm mf_scroll_depth mf_bookmark_ratio].
    apply clamp_id.
    pose proof (proj1 (unit_range_iff _)
      (_normalize_unit (inject_Z (total_time_spent_seconds (material data)))
                       (inject_Z MAX_TIME_SPENT))) as Ht.
    pose proof (clamp_unit (avg_scroll_depth (material data))) as Hs.
    pose proof (proj1 (unit_range_iff _)
      (capped_ratio_unit (bookmark_count (material data))
                         (total_views (material data))
                         ltac:(assumption) ltac:(assumption))) as Hb.
    lra. }
  split; [exact S|].
  intros c Ht Hs Hb. rewrite S, Ht, Hs, Hb. ring.
Qed.

Lemma C8_material_engagement_score_witness :
  mf_material_engagement_score
    (_extract_material_features saturated_material_input) == 1.
Proof.
  apply (proj2 (C8_material_engagement_score_is_weighted_sum
                  saturated_material_input eq_refl) 1);
    reflexivity.
Defined.

(** The two other sample points of the score. *)
Example material_engagement_score_all_zero :
  mf_material_engagement_score
    (_extract_material_features
       {| user_id := "u"; analysis_period_days := 30;
          chat := ChatBehavior_default;
          material := {| total_time_spent_seconds := 0; total_views := 0;
                         unique_materials_viewed := 0; bookmark_count := 0;
                         avg_scroll_depth := 0 |};
          activity := ActivityPattern_default; quiz := None |}) == 0.
Proof. reflexivity. Qed.

Example material_engagement_score_all_half :
  mf_material_engagement_score
    (_extract_material_features
       {| user_id := "u"; analysis_period_days := 30;
          chat := ChatBehavior_default;
          material := {| total_time_spent_seconds := 18000; total_views := 2;
                         unique_materials_viewed := 1; bookmark_count := 1;
                         avg_scroll_depth := 0.5 |};
          activity := ActivityPattern_default; quiz := None |}) == 0.5.
Proof. reflexivity. Qed.

End EngagementScoreClaim.

(** ** The guardrail engine *)

Section GuardrailClaims.
Import LogicGuardrails.

Variable prediction : ClassificationResult.t.
Variable features : FeatureVector.
Variable quiz_score : option Q.
Variable previous_persona : option LearningPersona.
Variable total_materials_viewed : Z.
Variable avg_time_per_material : Q.

(** The invariant of an existing [ClassificationResult]. *)
Hypothesis prediction_valid :
  unit_range (ClassificationResult.confidence prediction) = true.

Lemma apply_returns :
  apply prediction features quiz_score previous_persona
        total_materials_viewed avg_time_per_material =
  let selected :=
    selected_override prediction quiz_score total_materials_viewed
                      avg_time_per_material in
  let anxious_flags := _check_anxious_flags features in
  let burnout_flags := _check_burnout_flags features previous_persona in
  Ok {| GuardrailResult.persona :=
          match selected with
          | Some o => GuardrailOverride.final_persona o
          | None => ClassificationResult.persona prediction
          end;
        GuardrailResult.confidence :=
          ClassificationResult.confidence prediction;
        GuardrailResult.was_overridden :=
          match selected with Some _ => true | None => false end;
        GuardrailResult.override := selected;
        GuardrailResult.flags :=
          {| GuardrailFlags.potential_anxious :=
               (0 <? List.length anxious_flags)%nat;
             GuardrailFlags.potential_burnout :=
               (0 <? List.length burnout_flags)%nat;
             GuardrailFlags.needs_attention :=
               (0 <? List.length (anxious_flags ++ burnout_flags))%nat
               || match selected with Some _ => true | None => false end;
             GuardrailFlags.flag_reasons :=
               anxious_flags ++ burnout_flags |} |}.
Proof.
  cbv zeta. unfold apply, selected_override.
  destruct (_check_master_override prediction quiz_score);
    [|destruct (_check_deep_diver_override prediction total_materials_viewed);
      [|destruct (_check_skimmer_reconsideration prediction
                                                  avg_time_per_material)]];
    unfold GuardrailResult.new; cbn [GuardrailResult.confidence app];
    rewrite prediction_valid; reflexivity.
Qed.

(** C7: the confidence of the guardrail result is the confidence of the
    classification it was given, whatever the other arguments are and
    whether or not an override or a flag fired. *)
Theorem C7_confidence_unchanged :
  exists r,
    apply prediction features quiz_score previous_persona
          total_materials_viewed avg_time_per_material = Ok r /\
    GuardrailResult.confidence r = ClassificationResult.confidence prediction.
Proof. rewrite apply_returns. eexists. split; reflexivity. Qed.

(** C2: the result of [apply] carries the override of the ordered
    cascade master / deep diver / skimmer with the stated targets and
    rule ids; at most one of the three checks fires; and the thresholds
    are strict: a quiz score of exactly 50, exactly 3 materials and
    exactly 300 seconds fire nothing. *)
Theorem C2_override_rules_ordered_and_strict :
  (exists r,
     apply prediction features quiz_score previous_persona
           total_materials_viewed avg_time_per_material = Ok r /\
     option_map override_outcome (GuardrailResult.override r) =
       spec_override (ClassificationResult.persona prediction) quiz_score
                     total_materials_viewed avg_time_per_material /\
     GuardrailResult.persona r =
       match spec_override (ClassificationResult.persona prediction)
                           quiz_score total_materials_viewed
                           avg_time_per_material with
       | Some (final, _) => final
       | None => ClassificationResult.persona prediction
       end /\
     (GuardrailResult.was_overridden r = true <->
      GuardrailResult.override r <> None)) /\
  (fired (_check_master_override prediction quiz_score) +
   fired (_check_deep_diver_override prediction total_materials_viewed) +
   fired (_check_skimmer_reconsideration prediction avg_time_per_material)
   <= 1)%nat /\
  (forall q, quiz_score = Some q -> q == 50 ->
             _check_master_override prediction quiz_score = None) /\
  (total_materials_viewed = 3%Z ->
   _check_deep_diver_override prediction total_materials_viewed = None) /\
  (avg_time_per_material == 300 ->
   _check_skimmer_reconsideration prediction avg_time_per_material = None).
Proof.
  split; [|split; [|split; [|split]]].
  - rewrite apply_returns. eexists. split; [reflexivity|].
    cbn [GuardrailResult.override GuardrailResult.persona
         GuardrailResult.was_overridden].
    unfold selected_override, spec_override,
      _check_master_override, _check_deep_diver_override,
      _check_skimmer_reconsideration,
      MASTER_MIN_QUIZ_SCORE, DEEP_DIVER_MIN_MATERIALS,
      SKIMMER_MIN_TIME_PER_MATERIAL.
    change (inject_Z 300) with 300.
    destruct (ClassificationResult.persona prediction);
      cbn [LearningPersona_eqb negb andb];
      repeat match goal with
             | |- context [match quiz_score with _ => _ end] =>
                 destruct quiz_score
             | |- context [Qlt_bool ?a ?b] => destruct (Qlt_bool a b)
             | |- context [(?a <? ?b)%Z] => destruct (a <? b)%Z
             end;
      cbn; repeat split; intros; try congruence.
  - unfold _check_master_override, _check_deep_diver_override,
      _check_skimmer_reconsideration.
    destruct (ClassificationResult.persona prediction);
      cbn [LearningPersona_eqb negb fired Nat.add]; try lia;
      repeat match goal with
             | |- context [match ?x with _ => _ end] => destruct x
             end; cbn; lia.
  - intros q -> Hq. unfold _check_master_override, MASTER_MIN_QUIZ_SCORE.
    destruct (negb _); [reflexivity|].
    destruct (Qlt_bool_spec q 50); [lra | reflexivity].
  - intros ->. unfold _check_deep_diver_override.
    destruct (negb _); reflexivity.
  - intros Ha. unfold _check_skimmer_reconsideration,
      SKIMMER_MIN_TIME_PER_MATERIAL.
    destruct (negb _); [reflexivity|].
    change (inject_Z 300) with 300.
    destruct (Qlt_bool_spec 300 avg_time_per_material); [lra | reflexivity].
Qed.

(** C6: the anxious flag is set exactly when late_night_ratio > 0.5 and
    session_frequency > 0.3, the burnout flag exactly when
    engagement_trend_encoded < 0.25 and the previous persona is MASTER;
    neither condition looks at the other flag or at the override, so both
    fire together when both hold; the boundary values 0.5 and 0.25 fire
    nothing; and needs_attention is the disjunction of the two flags and
    the override. *)
Theorem C6_flag_rules :
  exists r,
    apply prediction features quiz_score previous_persona
          total_materials_viewed avg_time_per_material = Ok r /\
    let flags := GuardrailResult.flags r in
    (GuardrailFlags.potential_anxious flags = true <->
     0.5 < late_night_ratio features /\ 0.3 < session_frequency features) /\
    (GuardrailFlags.potential_burnout flags = true <->
     engagement_trend_encoded features < 0.25 /\
     previous_persona = Some MASTER) /\
    (late_night_ratio features == 0.5 ->
     GuardrailFlags.potential_anxious flags = false) /\
    (engagement_trend_encoded features == 0.25 ->
     GuardrailFlags.potential_burnout flags = false) /\
    GuardrailFlags.needs_attention flags =
      GuardrailFlags.potential_anxious flags ||
      GuardrailFlags.potential_burnout flags ||
      GuardrailResult.was_overridden r.
Proof.
  rewrite apply_returns. eexists. split; [reflexivity|].
  cbn [GuardrailResult.flags GuardrailResult.was_overridden
       GuardrailFlags.potential_anxious GuardrailFlags.potential_burnout
       GuardrailFlags.needs_attention].
  cbv zeta.
  assert (A : (0 <? List.length (_check_anxious_flags features))%nat = true <->
              0.5 < late_night_ratio features /\
              0.3 < session_frequency features).
  { unfold _check_anxious_flags, ANXIOUS_LATE_NIGHT_THRESHOLD.
    destruct (Qlt_bool_spec 0.5 (late_night_ratio features));
      [destruct (Qlt_bool_spec 0.3 (session_frequency features))|];
      cbn; split; try tauto; try discriminate; intros [? ?]; lra. }
  assert (B : (0 <? List.length
                      (_check_burnout_flags features previous_persona))%nat
              = true <->
              engagement_trend_encoded features < 0.25 /\
              previous_persona = Some MASTER).
  { unfold _check_burnout_flags.
    destruct (Qlt_bool_spec (engagement_trend_encoded features) 0.25);
      [destruct previous_persona as [[]|]|]; cbn;
      split; try tauto; try discriminate; try (intros [_ X]; discriminate);
      intros [? ?]; lra. }
  split; [exact A|]. split; [exact B|]. split; [|split].
  - intros E. apply not_true_iff_false. rewrite A. intros [? _]. lra.
  - intros E. apply not_true_iff_false. rewrite B. intros [? _]. lra.
  - rewrite length_app.
    destruct (_check_anxious_flags features),
             (_check_burnout_flags features previous_persona);
      reflexivity.
Qed.

End GuardrailClaims.

Section GuardrailWitnesses.
Import LogicGuardrails.

Lemma C2_override_rules_witness :
  exists r,
    apply (sample_prediction DEEP_DIVER 0.9) (sample_features 0.1 0.1 0.5)
          (Some 40) None 2 400 = Ok r /\
    GuardrailResult.persona r = LOST /\
    option_map override_outcome (GuardrailResult.override r) =
      Some (LOST, "deep_diver_low_material_count"%string).
Proof.
  destruct (proj1 (C2_override_rules_ordered_and_strict
                     (sample_prediction DEEP_DIVER 0.9)
                     (sample_features 0.1 0.1 0.5)
                     (Some 40) None 2%Z 400 eq_refl))
    as (r & E & O & P & _).
  exists r. split; [exact E|]. split; [exact P | exact O].
Defined.

Lemma C6_flag_rules_witness :
  exists r,
    apply (sample_prediction SKIMMER 0.7) (sample_features 0.6 0.5 0)
          None (Some MASTER) 10 60 = Ok r /\
    GuardrailFlags.potential_anxious (GuardrailResult.flags r) = true /\
    GuardrailFlags.potential_burnout (GuardrailResult.flags r) = true /\
    GuardrailFlags.needs_attention (GuardrailResult.flags r) = true.
Proof.
  destruct (C6_flag_rules (sample_prediction SKIMMER 0.7)
                          (sample_features 0.6 0.5 0)
                          None (Some MASTER) 10%Z 60 eq_refl)
    as (r & E & A & B & _ & _ & N).
  exists r. split; [exact E|].
  assert (HA : GuardrailFlags.potential_anxious (GuardrailResult.flags r)
               = true).
  { apply A. cbn. split; reflexivity. }
  assert (HB : GuardrailFlags.potential_burnout (GuardrailResult.flags r)
               = true).
  { apply B. cbn. split; reflexivity. }
  split; [exact HA|]. split; [exact HB|].
  rewrite N, HA. reflexivity.
Defined.

Lemma C7_confidence_unchanged_witness :
  exists r,
    apply (sample_prediction MASTER 0.9) (sample_features 0.6 0.5 0)
          (Some 40) (Some MASTER) 2 400 = Ok r /\
    GuardrailResult.confidence r = 0.9.
Proof.
  exact (C7_confidence_unchanged (sample_prediction MASTER 0.9)
           (sample_features 0.6 0.5 0) (Some 40) (Some MASTER) 2%Z 400
           eq_refl).
Defined.

End GuardrailWitnesses.

(** ** Resolving the predicted class *)

Section ClassifierClaims.
Import PersonaClassifier.

Lemma getitem_in_range {A : Type} (l : list A) (i : Z) :
  (0 <= i < Z.of_nat (List.length l))%Z ->
  exists a, nth_error l (Z.to_nat i) = Some a /\ getitem l i = Ok a.
Proof.
  intros [H0 H1]. unfold getitem.
  destruct (Z.ltb_spec i 0); [lia|].
  destruct (Z.leb_spec 0 i); [|lia].
  destruct (Z.ltb_spec i (Z.of_nat (List.length l))); [|lia].
  cbn [andb].
  destruct (nth_error l (Z.to_nat i)) as [a|] eqn:E.
  - exists a. auto.
  - apply nth_error_None in E. lia.
Qed.

(** C3, as the code has it: an index the loaded name list maps is
    resolved through its name, and fails when that name is no persona
    value; an index the list does not map is resolved by the declaration
    order of the enumeration when it lies in 0..9, and raises
    [ValueError] only outside 0..9. *)
Theorem C3_index_resolution (self : PersonaClassifier.t) (idx : Z) :
  (index_mapped self idx = true ->
   exists name, nth_error (_persona_names self) (Z.to_nat idx) = Some name /\
                _convert_to_persona self (ClassIndex idx)
                = LearningPersona_of_value name) /\
  (index_mapped self idx = false -> (0 <= idx < 10)%Z ->
   exists p, nth_error LearningPersona_members (Z.to_nat idx) = Some p /\
             _convert_to_persona self (ClassIndex idx) = Ok p) /\
  (index_mapped self idx = false -> ~ (0 <= idx < 10)%Z ->
   _convert_to_persona self (ClassIndex idx) = Raise ValueError).
Proof.
  unfold index_mapped. cbn [_convert_to_persona].
  split; [|split].
  - intros M. rewrite M.
    apply andb_prop in M; destruct M as [_ M].
    apply andb_prop in M; destruct M as [M0 M1].
    apply Z.leb_le in M0. apply Z.ltb_lt in M1.
    destruct (getitem_in_range (_persona_names self) idx) as (name & N & G);
      [lia|].
    exists name. split; [exact N|]. now rewrite G.
  - intros M R. rewrite M.
    destruct (Z.leb_spec 0 idx); [|lia].
    destruct (Z.ltb_spec idx (Z.of_nat (List.length LearningPersona_members)));
      [|cbn in *; lia].
    cbn [andb].
    destruct (getitem_in_range LearningPersona_members idx) as (p & N & G);
      [cbn; lia|].
    exists p. split; assumption.
  - intros M R. rewrite M.
    destruct (Z.leb_spec 0 idx); cbn [andb]; [|reflexivity].
    destruct (Z.ltb_spec idx (Z.of_nat (List.length LearningPersona_members)));
      [cbn in *; lia | reflexivity].
Qed.

(** The claim as stated fails: with no name list loaded, index 4 is not
    mapped, and it is resolved to MASTER without any error. *)
Lemma C3_unmapped_index_resolved_silently :
  index_mapped (classifier_without_names (constant_model (ClassIndex 4) []))
               4 = false /\
  _convert_to_persona
    (classifier_without_names (constant_model (ClassIndex 4) []))
    (ClassIndex 4) = Ok MASTER.
Proof. split; reflexivity. Qed.

Lemma C3_index_resolution_witness :
  _convert_to_persona
    (classifier_without_names (constant_model (ClassIndex 12) []))
    (ClassIndex 12) = Raise ValueError.
Proof.
  apply (proj2 (proj2 (C3_index_resolution
                         (classifier_without_names
                            (constant_model (ClassIndex 12) []))
                         12%Z))).
  - reflexivity.
  - lia.
Defined.

End ClassifierClaims.

(** ** The recommendation table *)

Section RecommendationClaims.
Import RecommendationEngine.

Lemma lookup_member (p : LearningPersona) :
  exists r, get_recommendations (Member p) = Ok r /\
            PersonaRecommendations.persona r = p /\
            priorities r = [1; 2; 3; 4]%Z.
Proof. destruct p; eexists; repeat split. Qed.

Ltac distinct_strings :=
  repeat (constructor; [cbn; intuition discriminate|]); constructor.

Lemma lookup_member_distinct_ids (p : LearningPersona) (r : PersonaRecommendations.t) :
  get_recommendations (Member p) = Ok r -> NoDup (ids r).
Proof.
  destruct p; intros E; injection E as <-; cbv [ids map
    PersonaRecommendations.recommendations Recommendation.id
    _get_struggler_recommendations _get_skimmer_recommendations
    _get_anxious_recommendations _get_burnout_recommendations
    _get_master_recommendations _get_procrastinator_recommendations
    _get_deep_diver_recommendations _get_social_learner_recommendations
    _get_perfectionist_recommendations _get_lost_recommendations];
    distinct_strings.
Qed.

(** C9: for each of the ten personas the lookup returns that persona's
    bundle, with at least three recommendations, pairwise distinct ids and
    priorities 1, 2, 3, ... in order; for an argument that is not a member
    of the enumeration it raises and returns no bundle. *)
Theorem C9_recommendation_lookup :
  (forall p : LearningPersona,
     exists r, get_recommendations (Member p) = Ok r /\
               PersonaRecommendations.persona r = p /\
               (3 <= List.length (PersonaRecommendations.recommendations r))%nat /\
               NoDup (ids r) /\
               hd_error (priorities r) = Some 1%Z /\
               priorities r =
                 map Z.of_nat
                   (seq 1 (List.length
                             (PersonaRecommendations.recommendations r)))) /\
  (forall arg : PersonaArg,
     (forall p, arg <> Member p) ->
     exists e, get_recommendations arg = Raise e).
Proof.
  split.
  - intros p. destruct (lookup_member p) as (r & E & P & Pr).
    exists r. split; [exact E|]. split; [exact P|].
    assert (L : List.length (PersonaRecommendations.recommendations r) = 4%nat).
    { unfold priorities in Pr.
      rewrite <- (length_map Recommendation.priority), Pr. reflexivity. }
    split; [lia|]. split; [exact (lookup_member_distinct_ids p r E)|].
    rewrite L, Pr. split; reflexivity.
  - intros arg N. unfold get_recommendations.
    destruct (find _ _) as [[k r]|]; [|eauto].
    destruct arg as [p| |]; [|eauto..].
    exfalso. now apply (N p).
Qed.

Lemma C9_recommendation_lookup_witness :
  exists e, get_recommendations (PyStr "guru") = Raise e.
Proof.
  apply (proj2 C9_recommendation_lookup (PyStr "guru")).
  intros p. discriminate.
Defined.

End RecommendationClaims.

(** ** The prediction endpoint *)

Section EndpointClaims.
Import Router.

Lemma predict_confidence_in_range
    (classifier : PersonaClassifier.t) (features : FeatureVector)
    (classification : ClassificationResult.t) :
  PersonaClassifier.predict classifier features = Ok classification ->
  PersonaClassifier.is_loaded classifier = true /\
  unit_range (ClassificationResult.confidence classification) = true.
Proof.
  unfold PersonaClassifier.predict, PersonaClassifier.is_loaded.
  destruct (PersonaClassifier.model classifier) as [m|]; [|discriminate].
  destruct (max_of _) as [c|]; [|discriminate]. cbn [bind].
  destruct (PersonaClassifier._convert_to_persona _ _) as [p|];
    [|discriminate].
  cbn [bind]. unfold ClassificationResult.new.
  cbn [ClassificationResult.confidence].
  destruct (unit_range c) eqn:U; [|discriminate].
  intros H. injection H as <-. split; [reflexivity | exact U].
Qed.

(** C10: when the components are ready and extraction and classification
    return, the endpoint answers with the outcome of the guardrail engine
    run on [unique_materials_viewed] as its material count and on
    [total_time_spent_seconds / total_views] (0 without views) as its
    average time; so a DEEP_DIVER classification is answered as LOST
    exactly when fewer than three distinct materials were viewed. *)
Theorem C10_endpoint_guardrail_arguments
    (components : Components) (classifier : PersonaClassifier.t)
    (request : PredictRequest.t)
    (features : FeatureVector) (classification : ClassificationResult.t) :
  _initialized components = true ->
  _persona_classifier components = Some classifier ->
  FeatureExtractor.extract (PredictRequest.behavior_data request)
    = Ok features ->
  PersonaClassifier.predict classifier features = Ok classification ->
  let m := material (PredictRequest.behavior_data request) in
  exists guardrail_result response,
    LogicGuardrails.apply classification features
      (PredictRequest.quiz_score request)
      (parse_previous_persona (PredictRequest.previous_persona request))
      (unique_materials_viewed m)
      (if (0 <? total_views m)%Z
       then inject_Z (total_time_spent_seconds m) / inject_Z (total_views m)
       else 0)
    = Ok guardrail_result /\
    predict_persona components request = Ok response /\
    PredictResponse.persona response
      = value (GuardrailResult.persona guardrail_result) /\
    PredictResponse.override_info response
      = GuardrailResult.override guardrail_result /\
    (ClassificationResult.persona classification = DEEP_DIVER ->
     (PredictResponse.persona response = "lost"%string <->
      (unique_materials_viewed m < 3)%Z)).
Proof.
  intros I C E P m.
  destruct (predict_confidence_in_range _ _ _ P) as [L U].
  pose proof (apply_returns classification features
                (PredictRequest.quiz_score request)
                (parse_previous_persona
                   (PredictRequest.previous_persona request))
                (unique_materials_viewed m)
                (avg_time_per_material_of m) U) as A.
  cbv zeta in A.
  match type of A with _ = Ok ?g => set (gr := g) in * end.
  destruct (lookup_member (GuardrailResult.persona gr)) as (recs & R & _).
  exists gr. eexists.
  split; [exact A|].
  unfold predict_persona, predict_pipeline.
  rewrite C, I, L, E. cbn [andb bind]. rewrite P. cbn [bind].
  fold m. rewrite A. cbn [bind]. rewrite R. cbn [bind].
  unfold PredictResponse.new.
  cbn [PredictResponse.confidence]. subst gr.
  cbn [GuardrailResult.confidence]. rewrite U.
  split; [reflexivity|].
  cbn [PredictResponse.persona PredictResponse.override_info
       GuardrailResult.override GuardrailResult.persona].
  split; [reflexivity|]. split; [reflexivity|].
  intros D. unfold selected_override, LogicGuardrails._check_master_override,
    LogicGuardrails._check_deep_diver_override,
    LogicGuardrails.DEEP_DIVER_MIN_MATERIALS.
  rewrite D. cbn [LearningPersona_eqb negb].
  destruct (Z.ltb_spec (unique_materials_viewed m) 3).
  - cbn. split; [intros _; assumption | reflexivity].
  - unfold LogicGuardrails._check_skimmer_reconsideration. rewrite D.
    cbn. split; [discriminate | lia].
Qed.

End EndpointClaims.

Section EndpointWitness.
Import Router.

Lemma C10_endpoint_witness :
  exists response,
    predict_persona ready_components ten_views_of_two_materials = Ok response /\
    PredictResponse.persona response = "lost"%string.
Proof.
  pose (bd := PredictRequest.behavior_data ten_views_of_two_materials).
  destruct (FeatureExtractor.extract bd) as [f|] eqn:E;
    [|vm_compute in E; discriminate].
  destruct (PersonaClassifier.predict deep_diver_classifier f) as [c|] eqn:P;
    [|vm_compute in P; discriminate].
  destruct (C10_endpoint_guardrail_arguments
              ready_components deep_diver_classifier
              ten_views_of_two_materials f c eq_refl eq_refl E P)
    as (g & response & _ & R & _ & _ & D).
  exists response. split; [exact R|].
  apply D; [|reflexivity].
  vm_compute in P. injection P as <-. reflexivity.
Defined.

End EndpointWitness.

(** * Further properties of the feature extractor *)

Section ExtractorExtras.
Import FeatureExtractor.

Lemma Qdiv_le_mono (a b m : Q) : 0 < m -> a <= b -> a / m <= b / m.
Proof.
  intros Hm H. unfold Qdiv. apply Qmult_le_compat_r; [assumption|].
  apply Qinv_le_0_compat. lra.
Qed.

Lemma Qdiv_ge_1 (a b : Q) : 0 < b -> b <= a -> 1 <= a / b.
Proof. intros Hb H. apply Qle_shift_div_l; [assumption | lra]. Qed.

Lemma Qdiv_nonpos (a b : Q) : 0 < b -> a <= 0 -> a / b <= 0.
Proof. intros Hb H. apply Qle_shift_div_r; [assumption | lra]. Qed.

Lemma cap_floor_id (x : Q) : 0 <= x <= 1 -> pymin 1 (pymax 0 x) == x.
Proof. unfold pymax, pymin. qcmp; lra. Qed.

Lemma X1_extract_in_range_witness :
  exists fv, extract busy_input = Ok fv /\
             Forall (fun x => 0 <= x <= 1) (FeatureVector_fields fv).
Proof.
  apply (extract_total_on_proper_chat_ratio busy_input eq_refl eq_refl).
  right. simpl. lia.
Defined.

Lemma X2_extract_raises_witness :
  exists e, extract more_user_messages_than_messages = Raise e /\
            e = ValidationError.
Proof.
  destruct (extract_raises_iff more_user_messages_than_messages
                               eq_refl eq_refl) as (I & Only & _).
  destruct (proj2 I) as [e E]; [simpl; lia|].
  exists e. split; [exact E | exact (Only e E)].
Defined.

Lemma _normalize_cases (v v' m : Q) :
  (m <= 0 -> _normalize v m == 0) /\
  (0 < m ->
   (v <= 0 -> _normalize v m == 0) /\
   (0 <= v <= m -> _normalize v m == v / m) /\
   (m <= v -> _normalize v m == 1) /\
   (v <= v' -> _normalize v m <= _normalize v' m)).
Proof.
  unfold _normalize. split.
  - intros Hm. destruct (Qle_bool_spec m 0); [reflexivity | lra].
  - intros Hm. destruct (Qle_bool_spec m 0); [lra|].
    split; [|split; [|split]].
    + intros Hv. pose proof (Qdiv_nonpos v m Hm Hv).
      unfold pymin, pymax. qcmp; lra.
    + intros [Hv0 Hv1]. apply cap_floor_id. split.
      * now apply Qdiv_nonneg.
      * now apply Qdiv_le_1.
    + intros Hv. pose proof (Qdiv_ge_1 v m Hm Hv).
      unfold pymin, pymax. qcmp; lra.
    + intros Hv. pose proof (Qdiv_le_mono v v' m Hm Hv).
      unfold pymin, pymax. qcmp; lra.
Qed.

(** X3: [_normalize] is min-max scaling that saturates: 0 for a max that is
    not positive; for a positive max, 0 up to value 0, value / max in
    between, 1 from value max on; and it never decreases when the value
    grows. *)
Theorem normalize_saturates_and_is_monotone (v v' m : Q) :
  (m <= 0 -> _normalize v m == 0) /\
  (0 < m ->
   (v <= 0 -> _normalize v m == 0) /\
   (0 <= v <= m -> _normalize v m == v / m) /\
   (m <= v -> _normalize v m == 1) /\
   (v <= v' -> _normalize v m <= _normalize v' m)).
Proof. exact (_normalize_cases v v' m). Qed.

Lemma normalize_saturates_witness :
  _normalize 250 100 == 1 /\ _normalize 30 100 <= _normalize 60 100.
Proof.
  destruct (normalize_saturates_and_is_monotone 250 60 100) as [_ H].
  destruct (normalize_saturates_and_is_monotone 30 60 100) as [_ H'].
  split.
  - apply H; reflexivity || lra.
  - apply H'; reflexivity || lra.
Defined.

Lemma capped_ratio_spec (n d : Z) :
  (0 <= n)%Z -> (0 <= d)%Z ->
  pymin 1 (_safe_divide (inject_Z n) (inject_Z d) 0) == spec_capped_ratio n d.
Proof.
  intros Hn Hd. rewrite _safe_divide_Z. unfold spec_capped_ratio.
  destruct (Z.eqb_spec d 0) as [E|E]; [reflexivity|].
  assert (P : 0 < inject_Z d) by (apply inject_Z_pos; lia).
  destruct (Z.leb_spec d n) as [L|L].
  - rewrite Zle_Qle in L. pose proof (Qdiv_ge_1 _ _ P L).
    unfold pymin. qcmp; lra.
  - apply Z.lt_le_incl in L. rewrite Zle_Qle in L.
    pose proof (Qdiv_le_1 _ _ L P).
    unfold pymin. qcmp; lra.
Qed.

Lemma capped_rate_spec (n d scale : Z) :
  (0 <= n)%Z -> (0 <= d)%Z -> (0 < scale)%Z ->
  _normalize (_safe_divide (inject_Z n) (inject_Z d) 0) (inject_Z scale)
  == spec_capped_rate n d scale.
Proof.
  intros Hn Hd Hs. rewrite _safe_divide_Z. unfold spec_capped_rate.
  assert (S : 0 < inject_Z scale) by (apply inject_Z_pos; lia).
  destruct (Z.eqb_spec d 0) as [E|E].
  - apply (_normalize_cases 0 0 (inject_Z scale)); [assumption | lra].
  - assert (P : 0 < inject_Z d) by (apply inject_Z_pos; lia).
    assert (N : 0 <= inject_Z n) by (now apply inject_Z_nonneg).
    assert (D : inject_Z n / inject_Z d / inject_Z scale
                == inject_Z n / inject_Z (scale * d)).
    { rewrite inject_Z_mult. field. lra. }
    assert (SD : 0 < inject_Z (scale * d)) by (apply inject_Z_pos; lia).
    unfold _normalize.
    destruct (Qle_bool_spec (inject_Z scale) 0); [lra|].
    destruct (Z.leb_spec (scale * d) n) as [L|L].
    + rewrite Zle_Qle in L. pose proof (Qdiv_ge_1 _ _ SD L).
      unfold pymin, pymax. qcmp; lra.
    + apply Z.lt_le_incl in L. rewrite Zle_Qle in L.
      pose proof (Qdiv_le_1 _ _ L SD).
      pose proof (Qdiv_nonneg _ _ N SD).
      unfold pymin, pymax. qcmp; lra.
Qed.

(** X4: The seven capped ratio features, on validated data: each is 0 when
    its total is 0, exactly 1 as soon as the sub-count reaches the total,
    and the plain quotient below that. *)
Theorem capped_ratio_features (data : BehaviorData) :
  BehaviorData_valid data = true ->
  let c := chat data in
  let m := material data in
  let a := activity data in
  cf_question_frequency (_extract_chat_features data)
    == spec_capped_ratio (question_count c) (user_messages c) /\
  cf_feedback_engagement (_extract_chat_features data)
    == spec_capped_ratio (thumbs_up_count c + thumbs_down_count c)
                         (total_messages c) /\
  mf_material_diversity (_extract_material_features data)
    == spec_capped_ratio (unique_materials_viewed m) (total_views m) /\
  mf_bookmark_ratio (_extract_material_features data)
    == spec_capped_ratio (bookmark_count m) (total_views m) /\
  af_active_days_ratio (_extract_activity_features data)
    == spec_capped_ratio (active_days a) (analysis_period_days data) /\
  af_late_night_ratio (_extract_activity_features data)
    == spec_capped_ratio (late_night_sessions a) (total_sessions a) /\
  af_weekend_ratio (_extract_activity_features data)
    == spec_capped_ratio (weekend_sessions a) (total_sessions a).
Proof.
  intros V. unfold BehaviorData_valid, ChatBehavior_valid,
    MaterialInteraction_valid, ActivityPattern_valid in V.
  apply andb_prop in V; destruct V as [V _]. split_checks V.
  cbv zeta.
  cbn [_extract_chat_features _extract_material_features
       _extract_activity_features cf_question_frequency
       cf_feedback_engagement mf_material_diversity mf_bookmark_ratio
       af_active_days_ratio af_late_night_ratio af_weekend_ratio].
  repeat split; apply capped_ratio_spec; lia.
Qed.

Lemma capped_ratio_features_witness :
  mf_material_diversity (_extract_material_features busy_input) == 1 /\
  af_late_night_ratio (_extract_activity_features busy_input) == 5 # 35.
Proof.
  destruct (capped_ratio_features busy_input eq_refl)
    as (_ & _ & D & _ & _ & L & _).
  split; [exact D | exact L].
Defined.

(** X5: The three normalised averages, on validated data: messages per
    session over 20, seconds per view over 600 and sessions per active day
    over 10 are 0 without sessions, views or active days, exactly 1 from
    the scale on, and the scaled quotient below that. *)
Theorem normalised_average_features (data : BehaviorData) :
  BehaviorData_valid data = true ->
  let c := chat data in
  let m := material data in
  let a := activity data in
  cf_messages_per_session (_extract_chat_features data)
    == spec_capped_rate (total_messages c) (unique_sessions c) 20 /\
  mf_avg_time_per_view_norm (_extract_material_features data)
    == spec_capped_rate (total_time_spent_seconds m) (total_views m) 600 /\
  af_session_frequency (_extract_activity_features data)
    == spec_capped_rate (total_sessions a) (active_days a) 10.
Proof.
  intros V. unfold BehaviorData_valid, ChatBehavior_valid,
    MaterialInteraction_valid, ActivityPattern_valid in V.
  apply andb_prop in V; destruct V as [V _]. split_checks V.
  cbv zeta.
  cbn [_extract_chat_features _extract_material_features
       _extract_activity_features cf_messages_per_session
       mf_avg_time_per_view_norm af_session_frequency].
  repeat split.
  - apply (capped_rate_spec _ _ 20); lia.
  - apply (capped_rate_spec _ _ 600); lia.
  - apply (capped_rate_spec _ _ 10); lia.
Qed.

Lemma normalised_average_features_witness :
  cf_messages_per_session (_extract_chat_features busy_input) == 150 # 500 /\
  af_session_frequency (_extract_activity_features busy_input) == 35 # 180.
Proof.
  destruct (normalised_average_features busy_input eq_refl) as (M & _ & S).
  split; [exact M | exact S].
Defined.

(** X6: Consistency and peak hour, on validated data: the consistency score
    is 1 - variance / 10 up to a variance of 10 and 0 beyond, and the
    peak hour is scaled by 23. *)
Theorem consistency_and_peak_hour (data : BehaviorData) :
  ActivityPattern_valid (activity data) = true ->
  let a := activity data in
  (daily_activity_variance a <= 10 ->
   af_consistency_score (_extract_activity_features data)
     == 1 - daily_activity_variance a / 10) /\
  (10 <= daily_activity_variance a ->
   af_consistency_score (_extract_activity_features data) == 0) /\
  af_peak_hour_norm (_extract_activity_features data)
    == inject_Z (peak_hour a) / 23.
Proof.
  intros V. unfold ActivityPattern_valid in V. split_checks V.
  cbv zeta.
  cbn [_extract_activity_features af_consistency_score af_peak_hour_norm].
  set (var := daily_activity_variance (activity data)) in *.
  assert (P : 0 < 10) by lra.
  destruct (_normalize_cases var var 10) as [_ N]. specialize (N P).
  destruct N as (_ & Nin & Nabove & _).
  split; [|split].
  - intros H. assert (Hv : 0 <= var) by assumption.
    specialize (Nin (conj Hv H)).
    assert (0 <= var / 10 <= 1)
      by (split; [apply Qdiv_nonneg | apply Qdiv_le_1]; lra).
    unfold pymax, pymin. qcmp; lra.
  - intros H. specialize (Nabove H).
    unfold pymax, pymin. qcmp; lra.
  - destruct (Z.leb_spec (peak_hour (activity data)) 23); [|lia].
    apply clamp_id.
    assert (0 <= inject_Z (peak_hour (activity data)))
      by (now apply inject_Z_nonneg).
    assert (inject_Z (peak_hour (activity data)) <= 23)
      by (change 23 with (inject_Z 23); now rewrite <- Zle_Qle).
    split; [apply Qdiv_nonneg | apply Qdiv_le_1]; lra.
Qed.

Lemma consistency_and_peak_hour_witness :
  af_consistency_score (_extract_activity_features busy_input) == 0.75 /\
  af_peak_hour_norm (_extract_activity_features busy_input) == 14 # 23.
Proof.
  destruct (consistency_and_peak_hour busy_input eq_refl) as (C & _ & P).
  split; [|exact P].
  rewrite C; [reflexivity|]. simpl. lra.
Defined.

(** X7: Quiz features of a validated quiz record with at least one attempt:
    the score is scaled by 100, the completion rate passes through, and
    the attempt count is scaled by 50 and saturates at 50 attempts. *)
Theorem quiz_features_with_attempts (data : BehaviorData) (q : QuizPerformance) :
  quiz data = Some q ->
  QuizPerformance_valid q = true ->
  (0 < quiz_attempts q)%Z ->
  let f := _extract_quiz_features data in
  qf_quiz_score_norm f == avg_score q / 100 /\
  qf_quiz_completion_norm f == completion_rate q /\
  ((quiz_attempts q <= 50)%Z ->
   qf_quiz_attempt_frequency f == inject_Z (quiz_attempts q) / 50) /\
  ((50 <= quiz_attempts q)%Z -> qf_quiz_attempt_frequency f == 1).
Proof.
  intros Hq V A. unfold QuizPerformance_valid in V. split_checks V.
  cbv zeta. unfold _extract_quiz_features. rewrite Hq.
  cbn [qf_quiz_score_norm qf_quiz_completion_norm qf_quiz_attempt_frequency].
  destruct (Z.eqb_spec (quiz_attempts q) 0); [lia|].
  assert (P : 0 < inject_Z MAX_QUIZ_ATTEMPTS) by reflexivity.
  destruct (_normalize_cases (inject_Z (quiz_attempts q))
                             (inject_Z (quiz_attempts q))
                             (inject_Z MAX_QUIZ_ATTEMPTS)) as [_ N].
  specialize (N P). destruct N as (_ & Nin & Nabove & _).
  split; [|split; [|split]].
  - apply clamp_id. split; [apply Qdiv_nonneg | apply Qdiv_le_1]; lra.
  - apply clamp_id. lra.
  - intros H. apply Nin. split.
    + apply inject_Z_nonneg. lia.
    + now rewrite <- Zle_Qle.
  - intros H. apply Nabove. now rewrite <- Zle_Qle.
Qed.

Lemma quiz_features_with_attempts_witness :
  qf_quiz_score_norm (_extract_quiz_features busy_input) == 0.72 /\
  qf_quiz_completion_norm (_extract_quiz_features busy_input) == 0.8.
Proof.
  destruct (quiz_features_with_attempts busy_input _ eq_refl eq_refl
              ltac:(reflexivity)) as (S & C & _).
  split; [exact S | exact C].
Defined.

(** X8: No feature is computed from [user_id], [assistant_messages] or
    [total_weekday_sessions]: replacing them changes neither the outcome
    of [extract] nor any value of the vector. *)
Theorem extract_ignores_unread_fields
    (data : BehaviorData) (uid : string) (assistant weekday : Z) :
  extract (with_unread_fields data uid assistant weekday) = extract data.
Proof. reflexivity. Qed.

End ExtractorExtras.

(** * Further properties of the classifier wrapper *)

Section ClassifierExtras.
Import PersonaClassifier.

Lemma LearningPersona_of_value_value (p : LearningPersona) :
  LearningPersona_of_value (value p) = Ok p.
Proof. now destruct p. Qed.

Lemma LearningPersona_of_value_inv (s : string) (p : LearningPersona) :
  LearningPersona_of_value s = Ok p -> s = value p.
Proof.
  unfold LearningPersona_of_value.
  destruct (find _ _) as [q|] eqn:F; [|discriminate].
  intros H. injection H as <-.
  apply find_some in F. destruct F as [_ F].
  apply String.eqb_eq in F. now symmetry.
Qed.

(** X9: Persona identifiers round-trip: the value of a member names that
    member and no other, a string that is no member's value raises
    [ValueError], and a class label is resolved by exactly this lookup
    whatever name list is loaded. *)
Theorem persona_value_round_trip :
  (forall p, LearningPersona_of_value (value p) = Ok p) /\
  (forall s p, LearningPersona_of_value s = Ok p -> s = value p) /\
  (forall s, (forall p, s <> value p) ->
             LearningPersona_of_value s = Raise ValueError) /\
  (forall self s,
     _convert_to_persona self (ClassLabel s) = LearningPersona_of_value s).
Proof.
  split; [exact LearningPersona_of_value_value|].
  split; [exact LearningPersona_of_value_inv|].
  split; [|reflexivity].
  intros s N. destruct (LearningPersona_of_value s) as [p|e] eqn:E.
  - apply LearningPersona_of_value_inv in E. now destruct (N p).
  - unfold LearningPersona_of_value in E.
    destruct (find _ _); [discriminate|]. now symmetry.
Qed.

Lemma persona_value_round_trip_witness :
  LearningPersona_of_value "guru" = Raise ValueError.
Proof.
  apply (proj1 (proj2 (proj2 persona_value_round_trip))).
  intros p. destruct p; discriminate.
Defined.

Lemma pymax_cases (a b : Q) :
  (pymax a b = a \/ pymax a b = b) /\ a <= pymax a b /\ b <= pymax a b.
Proof. unfold pymax. destruct (Qlt_bool_spec a b); repeat split; auto; lra. Qed.

Lemma fold_pymax_max (l : list Q) (a : Q) :
  (fold_left pymax l a = a \/ In (fold_left pymax l a) l) /\
  a <= fold_left pymax l a /\
  (forall x, In x l -> x <= fold_left pymax l a).
Proof.
  revert a. induction l as [|b l IH]; intros a; cbn [fold_left].
  - repeat split; [now left | lra | intros x []].
  - destruct (IH (pymax a b)) as (I1 & I2 & I3).
    destruct (pymax_cases a b) as (P1 & P2 & P3).
    repeat split.
    + destruct I1 as [E|I]; [|right; now right].
      rewrite E. destruct P1 as [->| ->]; [now left | right; now left].
    + lra.
    + intros x [<-|Hx]; [lra | now apply I3].
Qed.

Lemma max_of_is_max (xs : list Q) (c : Q) :
  max_of xs = Ok c -> In c xs /\ (forall x, In x xs -> x <= c).
Proof.
  destruct xs as [|x xs]; [discriminate|]. cbn [max_of].
  intros H. injection H as <-.
  destruct (fold_pymax_max xs x) as (I1 & I2 & I3). split.
  - destruct I1 as [->|I]; [now left | now right].
  - intros y [<-|Hy]; [exact I2 | now apply I3].
Qed.

Lemma predict_inv (self : t) (features : FeatureVector)
    (c : ClassificationResult.t) :
  predict self features = Ok c ->
  exists m,
    model self = Some m /\
    max_of (model_predict_proba m (model_input self features))
      = Ok (ClassificationResult.confidence c) /\
    _convert_to_persona self (model_predict m (model_input self features))
      = Ok (ClassificationResult.persona c) /\
    ClassificationResult.probabilities c
      = _build_probability_dict self
          (model_predict_proba m (model_input self features)) /\
    ClassificationResult.is_low_confidence c
      = Qlt_bool (ClassificationResult.confidence c) LOW_CONFIDENCE_THRESHOLD /\
    unit_range (ClassificationResult.confidence c) = true.
Proof.
  unfold predict, model_input.
  destruct (model self) as [m|]; [|discriminate].
  destruct (max_of _) as [mx|] eqn:M; [|discriminate]. cbn [bind].
  destruct (_convert_to_persona _ _) as [p|] eqn:P; [|discriminate].
  cbn [bind]. unfold ClassificationResult.new.
  cbn [ClassificationResult.confidence].
  destruct (unit_range mx) eqn:U; [|discriminate].
  intros H. injection H as <-. exists m. repeat split; assumption.
Qed.

(** X10: What a returned classification holds: its confidence is the largest
    probability the model gave (one of them, and no other exceeds it),
    lies in the unit range, and the low-confidence flag is set exactly
    when it is below 0.5. *)
Theorem predict_confidence_is_max_probability
    (self : t) (features : FeatureVector) (c : ClassificationResult.t) :
  predict self features = Ok c ->
  exists m,
    model self = Some m /\
    let probabilities := model_predict_proba m (model_input self features) in
    In (ClassificationResult.confidence c) probabilities /\
    (forall x, In x probabilities -> x <= ClassificationResult.confidence c) /\
    0 <= ClassificationResult.confidence c <= 1 /\
    (ClassificationResult.is_low_confidence c = true <->
     ClassificationResult.confidence c < 0.5).
Proof.
  intros H. destruct (predict_inv _ _ _ H) as (m & M & X & _ & _ & L & U).
  exists m. split; [exact M|]. cbv zeta.
  destruct (max_of_is_max _ _ X) as [I B].
  split; [exact I|]. split; [exact B|].
  split; [now apply unit_range_iff|].
  rewrite L. apply Qlt_bool_iff.
Qed.

(** X11: [predict_proba] and [predict] agree: when [predict] returns, its
    probability map is the one [predict_proba] returns; [predict_proba]
    fails only with [RuntimeError], exactly when no model is loaded, and
    then [predict] fails the same way. *)
Theorem predict_proba_agrees_with_predict
    (self : t) (features : FeatureVector) :
  (forall c, predict self features = Ok c ->
             predict_proba self features
             = Ok (ClassificationResult.probabilities c)) /\
  (is_loaded self = true -> exists d, predict_proba self features = Ok d) /\
  (is_loaded self = false ->
   predict_proba self features = Raise RuntimeError /\
   predict self features = Raise RuntimeError).
Proof.
  split; [|split].
  - intros c H. destruct (predict_inv _ _ _ H) as (m & M & _ & _ & D & _).
    unfold predict_proba. rewrite M, D. reflexivity.
  - unfold is_loaded, predict_proba.
    destruct (model self); [eauto | discriminate].
  - unfold is_loaded, predict_proba, predict.
    destruct (model self); [discriminate | split; reflexivity].
Qed.

Lemma predict_confidence_witness :
  exists c,
    predict (classifier_without_names hesitant_model)
            (sample_features 0.1 0.1 0.5) = Ok c /\
    ClassificationResult.confidence c = 0.45 /\
    ClassificationResult.is_low_confidence c = true.
Proof.
  destruct (predict (classifier_without_names hesitant_model)
                    (sample_features 0.1 0.1 0.5)) as [c|] eqn:P;
    [|vm_compute in P; discriminate].
  destruct (predict_confidence_is_max_probability _ _ _ P)
    as (m & _ & _ & _ & _ & L).
  exists c. split; [reflexivity|].
  vm_compute in P. injection P as <-.
  split; [reflexivity|]. apply L. reflexivity.
Defined.

Lemma predict_proba_witness :
  predict_proba initial (sample_features 0.1 0.1 0.5) = Raise RuntimeError /\
  predict initial (sample_features 0.1 0.1 0.5) = Raise RuntimeError.
Proof.
  apply (proj2 (proj2 (predict_proba_agrees_with_predict
                         initial (sample_features 0.1 0.1 0.5)))).
  reflexivity.
Defined.

(** *** The probability map *)

Lemma dict_set_fresh {V : Type} (d : dict V) (k : string) (v : V) :
  ~ In k (keys d) -> dict_set d k v = d ++ [(k, v)].
Proof.
  induction d as [|[k' v'] d IH]; intros N; cbn; [reflexivity|].
  destruct (String.eqb_spec k' k) as [->|_].
  - exfalso. apply N. now left.
  - rewrite IH; [reflexivity|]. intros I. apply N. now right.
Qed.

Lemma fold_dict_set_fresh {V : Type}
    (ks : list string) (vs : list V) (acc : dict V) :
  NoDup ks -> (forall k, In k ks -> ~ In k (keys acc)) ->
  fold_left (fun d kv => dict_set d (fst kv) (snd kv)) (combine ks vs) acc
  = acc ++ combine ks vs.
Proof.
  revert vs acc. induction ks as [|k ks IH]; intros vs acc ND F.
  - cbn. now rewrite app_nil_r.
  - destruct vs as [|v vs]; cbn; [now rewrite app_nil_r|].
    inversion ND as [|? ? NI ND']; subst.
    rewrite dict_set_fresh by (apply F; now left).
    rewrite IH; [now rewrite <- app_assoc | assumption |].
    intros k' I. unfold keys. rewrite map_app, in_app_iff.
    intros [X|[X|[]]].
    + apply (F k'); [now right | exact X].
    + cbn in X. subst. contradiction.
Qed.

Lemma dict_of_zip_distinct {V : Type} (ks : list string) (vs : list V) :
  NoDup ks -> dict_of_zip ks vs = combine ks vs.
Proof.
  intros ND. unfold dict_of_zip.
  rewrite fold_dict_set_fresh; [reflexivity | assumption | intros k _ []].
Qed.

Lemma dict_get_combine {V : Type}
    (ks : list string) (vs : list V) (i : nat) (k : string) (v : V) :
  NoDup ks -> nth_error ks i = Some k -> nth_error vs i = Some v ->
  dict_get (combine ks vs) k = Some v.
Proof.
  revert vs i. induction ks as [|k0 ks IH]; intros vs i ND K X.
  - destruct i; discriminate.
  - destruct vs as [|v0 vs]; [destruct i; discriminate|].
    inversion ND as [|? ? NI ND']; subst. cbn.
    destruct i as [|i]; cbn in K, X.
    + injection K as ->. injection X as ->. now rewrite String.eqb_refl.
    + destruct (String.eqb_spec k0 k) as [->|_].
      * exfalso. apply NI. eapply nth_error_In. exact K.
      * eapply IH; eassumption.
Qed.

Lemma dict_get_combine_missing {V : Type}
    (ks : list string) (vs : list V) (k : string) :
  ~ In k (firstn (List.length vs) ks) -> dict_get (combine ks vs) k = None.
Proof.
  revert vs. induction ks as [|k0 ks IH]; intros vs N; [reflexivity|].
  destruct vs as [|v0 vs]; [reflexivity|]. cbn in *.
  destruct (String.eqb_spec k0 k) as [->|_].
  - exfalso. apply N. now left.
  - apply IH. intros I. apply N. now right.
Qed.

Lemma nth_error_lt {A : Type} (l : list A) (i : nat) (x : A) :
  nth_error l i = Some x -> (i < List.length l)%nat.
Proof. intros H. apply nth_error_Some. congruence. Qed.

Lemma persona_values_distinct : NoDup (map value LearningPersona_members).
Proof.
  cbn. repeat (constructor; [cbn; intuition discriminate|]). constructor.
Qed.

(** X12: The probability map stores each probability under the name at the
    same position: without a loaded name list the names are the persona
    values in declaration order, so persona number i gets probability
    number i; with a loaded list of distinct names, name number i does;
    and a name beyond the end of the probability vector has no entry. *)
Theorem probability_dict_lookup (self : t) (probabilities : list Q) :
  (_persona_names self = [] ->
   forall i p v,
     nth_error LearningPersona_members i = Some p ->
     nth_error probabilities i = Some v ->
     dict_get (_build_probability_dict self probabilities) (value p)
     = Some v) /\
  (_persona_names self <> [] -> NoDup (_persona_names self) ->
   forall i name v,
     nth_error (_persona_names self) i = Some name ->
     nth_error probabilities i = Some v ->
     dict_get (_build_probability_dict self probabilities) name = Some v) /\
  (_persona_names self = [] ->
   forall i p,
     nth_error LearningPersona_members i = Some p ->
     (List.length probabilities <= i)%nat ->
     dict_get (_build_probability_dict self probabilities) (value p) = None).
Proof.
  unfold _build_probability_dict. split; [|split].
  - intros E i p v P X. rewrite E.
    rewrite dict_of_zip_distinct by exact persona_values_distinct.
    apply (dict_get_combine _ _ i); [exact persona_values_distinct | | exact X].
    rewrite nth_error_map, P. reflexivity.
  - intros NE ND i name v N X.
    destruct (_persona_names self) as [|n0 ns] eqn:E; [congruence|].
    rewrite dict_of_zip_distinct by exact ND.
    now apply (dict_get_combine _ _ i).
  - intros E i p P L. rewrite E.
    rewrite dict_of_zip_distinct by exact persona_values_distinct.
    apply dict_get_combine_missing. intros I.
    apply In_nth_error in I. destruct I as [j J].
    assert (Jlt : (j < List.length probabilities)%nat).
    { apply nth_error_lt in J. rewrite length_firstn in J. lia. }
    rewrite nth_error_firstn in J.
    destruct (Nat.ltb_spec j (List.length probabilities)); [|lia].
    rewrite nth_error_map in J.
    destruct (nth_error LearningPersona_members j) as [q|] eqn:Q;
      [|discriminate].
    cbn in J. injection J as J.
    assert (q = p).
    { pose proof (LearningPersona_of_value_value q) as A.
      rewrite J, LearningPersona_of_value_value in A. congruence. }
    subst q.
    assert (i = j).
    { apply (proj1 (NoDup_nth_error LearningPersona_members));
        [| apply nth_error_lt in P; exact P | congruence].
      repeat (constructor; [cbn; intuition discriminate|]). constructor. }
    lia.
Qed.

Lemma probability_dict_lookup_witness :
  dict_get
    (_build_probability_dict (classifier_without_names hesitant_model)
       [0.05; 0.05; 0.05; 0.05; 0.45; 0.05; 0.05; 0.05; 0.1; 0.1])
    "master" = Some 0.45.
Proof.
  apply (proj1 (probability_dict_lookup
                  (classifier_without_names hesitant_model) _)
               eq_refl 4%nat MASTER 0.45);
    reflexivity.
Defined.

(** *** Training labels and the loaded metadata *)

Lemma repeat_in {A : Type} (x y : A) (n : nat) : In x (repeat y n) -> x = y.
Proof. intros H. now apply repeat_spec in H. Qed.

Lemma index_in_range_cases (idx : Z) :
  (0 <= idx < 10)%Z ->
  (idx = 0 \/ idx = 1 \/ idx = 2 \/ idx = 3 \/ idx = 4 \/
   idx = 5 \/ idx = 6 \/ idx = 7 \/ idx = 8 \/ idx = 9)%Z.
Proof. lia. Qed.

(** X13: The training run and the wrapper agree on labels.  The generated
    labels are [samples_per_persona] copies of each position 0..9 of the
    enumeration; a classifier that loaded the metadata the run writes
    resolves every generated label to the persona at that position, and
    resolves every index exactly as a classifier without a name list
    does. *)
Theorem training_labels_resolve
    (m : Model) (training_date : string) (samples_per_persona : nat) :
  let self :=
    classifier_with_training_metadata m training_date samples_per_persona in
  let labels := fst (Train.generate_dataset_labels samples_per_persona) in
  List.length labels = (10 * samples_per_persona)%nat /\
  (forall idx, In idx labels ->
     count_occ Z.eq_dec labels idx = samples_per_persona /\
     exists p, nth_error Train.personas (Z.to_nat idx) = Some p /\
               _convert_to_persona self (ClassIndex idx) = Ok p) /\
  (forall idx,
     _convert_to_persona self (ClassIndex idx)
     = _convert_to_persona (classifier_without_names m) (ClassIndex idx)) /\
  _model_version self = "1.0.0"%string /\
  _last_training_date self = training_date.
Proof.
  cbv zeta. split; [|split; [|split; [|split; reflexivity]]].
  - cbn [Train.generate_dataset_labels fst Train.personas
         LearningPersona_members enumerate_from map List.concat].
    rewrite !length_app, !repeat_length. cbn [List.length]. lia.
  - intros idx I.
    cbn [Train.generate_dataset_labels fst Train.personas
         LearningPersona_members enumerate_from map List.concat Z.add
         Pos.add Pos.succ] in I |- *.
    rewrite !in_app_iff in I.
    assert (C : (0 <= idx < 10)%Z).
    { repeat (destruct I as [I|I]; [apply repeat_in in I; subst; lia|]).
      destruct I. }
    split.
    + rewrite !count_occ_app. cbn [count_occ].
      destruct (index_in_range_cases idx C)
        as [E|[E|[E|[E|[E|[E|[E|[E|[E|E]]]]]]]]]; subst idx;
        repeat first
          [ rewrite count_occ_repeat_eq by reflexivity
          | rewrite count_occ_repeat_neq by discriminate ];
        lia.
    + destruct (index_in_range_cases idx C)
        as [E|[E|[E|[E|[E|[E|[E|[E|[E|E]]]]]]]]]; subst idx;
        eexists; split; reflexivity.
  - intros idx.
    destruct (Z.leb_spec 0 idx) as [L|L];
      [destruct (Z.ltb_spec idx 10) as [U|U]|].
    + destruct (index_in_range_cases idx (conj L U))
        as [E|[E|[E|[E|[E|[E|[E|[E|[E|E]]]]]]]]]; subst idx; reflexivity.
    + cbn. destruct (Z.leb_spec 0 idx); [|lia].
      destruct (Z.ltb_spec idx 10); [lia|]. reflexivity.
    + cbn. destruct (Z.leb_spec 0 idx); [lia|]. reflexivity.
Qed.

Lemma training_labels_resolve_witness :
  exists p,
    nth_error Train.personas 3 = Some p /\
    _convert_to_persona
      (classifier_with_training_metadata hesitant_model "2026-01-01" 2)
      (ClassIndex 3) = Ok p.
Proof.
  destruct (proj1 (proj2 (training_labels_resolve
                            hesitant_model "2026-01-01" 2)) 3%Z)
    as (_ & p & N & C).
  - cbn. tauto.
  - exists p. split; [exact N | exact C].
Defined.

(** *** The feature order *)

Lemma kwargs_of_fields (fv : FeatureVector) :
  FeatureVector_of_kwargs
    (dict_of_zip Train.FEATURE_NAMES (FeatureVector_fields fv))
  = FeatureVector_new fv.
Proof. destruct fv. reflexivity. Qed.

(** X14: The training code and the wrapper use one feature order: reading the
    fields by [FEATURE_NAMES] gives the row the wrapper feeds the model;
    turning that row back gives the vector again (under the constructor's
    range checks); a row that is not 25 long raises [ValueError]; and a
    row that is accepted is recovered from its vector. *)
Theorem feature_order_round_trip :
  (forall fv, Train.feature_vector_to_array fv
              = Ok (PersonaClassifier._feature_vector_to_array fv)) /\
  (forall fv, Train.array_to_feature_vector
                (PersonaClassifier._feature_vector_to_array fv)
              = FeatureVector_new fv) /\
  (forall arr, List.length arr <> 25%nat ->
               Train.array_to_feature_vector arr = Raise ValueError) /\
  (forall arr fv, Train.array_to_feature_vector arr = Ok fv ->
                  Train.feature_vector_to_array fv = Ok arr).
Proof.
  split; [|split; [|split]].
  - intros fv. reflexivity.
  - intros fv. unfold Train.array_to_feature_vector.
    change (List.length (_feature_vector_to_array fv)) with 25%nat.
    change Train.NUM_FEATURES with 25%nat. cbn [Nat.eqb negb].
    apply kwargs_of_fields.
  - intros arr N. unfold Train.array_to_feature_vector.
    change Train.NUM_FEATURES with 25%nat.
    destruct (Nat.eqb_spec (List.length arr) 25); [contradiction|].
    reflexivity.
  - intros arr fv. unfold Train.array_to_feature_vector.
    change Train.NUM_FEATURES with 25%nat.
    destruct (Nat.eqb_spec (List.length arr) 25) as [L|]; [|discriminate].
    cbn [negb].
    do 25 (destruct arr as [|? arr]; [discriminate|]).
    destruct arr; [|discriminate].
    change (dict_of_zip Train.FEATURE_NAMES ?l)
      with (dict_of_zip Train.FEATURE_NAMES l).
    match goal with
    | |- FeatureVector_of_kwargs (dict_of_zip _ ?l) = _ -> _ =>
        change l with
          (FeatureVector_fields
             (Build_FeatureVector q q0 q1 q2 q3 q4 q5 q6 q7 q8 q9 q10 q11 q12
                q13 q14 q15 q16 q17 q18 q19 q20 q21 q22 q23))
    end.
    rewrite kwargs_of_fields. unfold FeatureVector_new.
    destruct (forallb _ _); [|discriminate].
    intros H. injection H as <-. reflexivity.
Qed.

Lemma feature_order_round_trip_witness :
  Train.array_to_feature_vector [0.5; 0.5; 0.5] = Raise ValueError.
Proof.
  apply (proj1 (proj2 (proj2 feature_order_round_trip))).
  discriminate.
Defined.

End ClassifierExtras.

(** * Further properties of the guardrail engine *)

Section GuardrailExtras.
Import LogicGuardrails.

Variable prediction : ClassificationResult.t.
Variable features : FeatureVector.
Variable quiz_score : option Q.
Variable previous_persona : option LearningPersona.
Variable total_materials_viewed : Z.
Variable avg_time_per_material : Q.

Hypothesis prediction_valid :
  unit_range (ClassificationResult.confidence prediction) = true.

Lemma selected_override_cases :
  match selected_override prediction quiz_score total_materials_viewed
                          avg_time_per_material with
  | Some o =>
      GuardrailOverride.original_persona o
        = ClassificationResult.persona prediction /\
      GuardrailOverride.final_persona o
        <> ClassificationResult.persona prediction /\
      overridable (ClassificationResult.persona prediction) = true /\
      (GuardrailOverride.final_persona o = STRUGGLER \/
       GuardrailOverride.final_persona o = LOST \/
       GuardrailOverride.final_persona o = DEEP_DIVER)
  | None => True
  end.
Proof.
  unfold selected_override, _check_master_override,
    _check_deep_diver_override, _check_skimmer_reconsideration.
  destruct (ClassificationResult.persona prediction);
    cbn [LearningPersona_eqb negb];
    repeat match goal with
           | |- context [match quiz_score with _ => _ end] =>
               destruct quiz_score
           | |- context [Qlt_bool ?a ?b] => destruct (Qlt_bool a b)
           | |- context [(?a <? ?b)%Z] => destruct (a <? b)%Z
           end;
    cbn; repeat split; auto; discriminate.
Qed.

(** X15: The override record is consistent with the result: it names the
    predicted persona as original and the returned persona as final, the
    two differ, and the final persona is STRUGGLER, LOST or DEEP_DIVER;
    without an override the predicted persona is returned; so
    [was_overridden] holds exactly when the persona changed. *)
Theorem override_record_matches_result :
  exists r,
    apply prediction features quiz_score previous_persona
          total_materials_viewed avg_time_per_material = Ok r /\
    (forall o, GuardrailResult.override r = Some o ->
       GuardrailOverride.original_persona o
         = ClassificationResult.persona prediction /\
       GuardrailOverride.final_persona o = GuardrailResult.persona r /\
       (GuardrailResult.persona r = STRUGGLER \/
        GuardrailResult.persona r = LOST \/
        GuardrailResult.persona r = DEEP_DIVER)) /\
    (GuardrailResult.override r = None ->
     GuardrailResult.persona r = ClassificationResult.persona prediction) /\
    (GuardrailResult.was_overridden r = true <->
     GuardrailResult.persona r <> ClassificationResult.persona prediction).
Proof.
  rewrite (apply_returns _ _ _ _ _ _ prediction_valid). cbv zeta.
  eexists. split; [reflexivity|].
  cbn [GuardrailResult.override GuardrailResult.persona
       GuardrailResult.was_overridden].
  pose proof selected_override_cases as S.
  destruct (selected_override _ _ _ _) as [o|].
  - destruct S as (S1 & S2 & _ & S4). split; [|split].
    + intros o' E. injection E as <-. auto.
    + discriminate.
    + split; [intros _; exact S2 | reflexivity].
  - split; [discriminate|]. split; [reflexivity|].
    split; [discriminate | congruence].
Qed.

(** X16: Seven of the ten personas are never overridden: for a prediction
    other than MASTER, DEEP_DIVER and SKIMMER the result keeps the
    persona and records no override, whatever the quiz score, material
    count and time are. *)
Theorem other_personas_never_overridden :
  overridable (ClassificationResult.persona prediction) = false ->
  exists r,
    apply prediction features quiz_score previous_persona
          total_materials_viewed avg_time_per_material = Ok r /\
    GuardrailResult.persona r = ClassificationResult.persona prediction /\
    GuardrailResult.override r = None /\
    GuardrailResult.was_overridden r = false.
Proof.
  intros N. rewrite (apply_returns _ _ _ _ _ _ prediction_valid). cbv zeta.
  eexists. split; [reflexivity|].
  cbn [GuardrailResult.override GuardrailResult.persona
       GuardrailResult.was_overridden].
  pose proof selected_override_cases as S.
  destruct (selected_override _ _ _ _) as [o|].
  - destruct S as (_ & _ & S3 & _). congruence.
  - repeat split.
Qed.

(** X17: The two flags and their reasons are read off the feature vector and
    the previous persona alone: the reason list holds the late-night
    reason (when anxious) followed by the burnout reason (when burnout),
    and a call with any other classification, quiz score, material count
    and time raises the same flags. *)
Theorem flags_depend_on_features_only
    (prediction' : ClassificationResult.t) (quiz_score' : option Q)
    (total_materials_viewed' : Z) (avg_time_per_material' : Q) :
  unit_range (ClassificationResult.confidence prediction') = true ->
  exists r r',
    apply prediction features quiz_score previous_persona
          total_materials_viewed avg_time_per_material = Ok r /\
    apply prediction' features quiz_score' previous_persona
          total_materials_viewed' avg_time_per_material' = Ok r' /\
    GuardrailFlags.flag_reasons (GuardrailResult.flags r)
      = (if GuardrailFlags.potential_anxious (GuardrailResult.flags r)
         then [HighLateNightActivity (late_night_ratio features)] else [])
        ++ (if GuardrailFlags.potential_burnout (GuardrailResult.flags r)
            then [DecliningFromMaster] else []) /\
    GuardrailFlags.flag_reasons (GuardrailResult.flags r')
      = GuardrailFlags.flag_reasons (GuardrailResult.flags r) /\
    GuardrailFlags.potential_anxious (GuardrailResult.flags r')
      = GuardrailFlags.potential_anxious (GuardrailResult.flags r) /\
    GuardrailFlags.potential_burnout (GuardrailResult.flags r')
      = GuardrailFlags.potential_burnout (GuardrailResult.flags r).
Proof.
  intros V'.
  rewrite (apply_returns _ _ _ _ _ _ prediction_valid).
  rewrite (apply_returns _ features _ previous_persona _ _ V').
  cbv zeta. eexists. eexists.
  split; [reflexivity|]. split; [reflexivity|].
  cbn [GuardrailResult.flags GuardrailFlags.flag_reasons
       GuardrailFlags.potential_anxious GuardrailFlags.potential_burnout].
  split; [|repeat split].
  unfold _check_anxious_flags, _check_burnout_flags.
  destruct (Qlt_bool _ (late_night_ratio features));
    [destruct (Qlt_bool 0.3 _)|];
    destruct (Qlt_bool (engagement_trend_encoded features) 0.25 && _);
    reflexivity.
Qed.

(** X18: Overrides are not chained.  A SKIMMER with more than 300 seconds per
    material comes out as DEEP_DIVER even with fewer than three materials,
    although the engine, given that DEEP_DIVER as its prediction with the
    same signals, turns it into LOST. *)
Theorem overrides_are_not_chained :
  ClassificationResult.persona prediction = SKIMMER ->
  300 < avg_time_per_material ->
  (total_materials_viewed < 3)%Z ->
  exists r r2,
    apply prediction features quiz_score previous_persona
          total_materials_viewed avg_time_per_material = Ok r /\
    GuardrailResult.persona r = DEEP_DIVER /\
    apply (with_persona prediction (GuardrailResult.persona r)) features
          quiz_score previous_persona
          total_materials_viewed avg_time_per_material = Ok r2 /\
    GuardrailResult.persona r2 = LOST.
Proof.
  intros S A M.
  rewrite (apply_returns _ _ _ _ _ _ prediction_valid). cbv zeta.
  assert (E : selected_override prediction quiz_score total_materials_viewed
                                avg_time_per_material
              = _check_skimmer_reconsideration prediction
                                               avg_time_per_material).
  { unfold selected_override, _check_master_override,
      _check_deep_diver_override. now rewrite S. }
  assert (F : option_map GuardrailOverride.final_persona
                (_check_skimmer_reconsideration prediction
                   avg_time_per_material) = Some DEEP_DIVER).
  { unfold _check_skimmer_reconsideration, SKIMMER_MIN_TIME_PER_MATERIAL.
    rewrite S. cbn [LearningPersona_eqb negb].
    change (inject_Z 300) with 300.
    destruct (Qlt_bool_spec 300 avg_time_per_material); [reflexivity | lra]. }
  eexists. eexists. split; [reflexivity|].
  cbn [GuardrailResult.persona]. rewrite E.
  destruct (_check_skimmer_reconsideration prediction avg_time_per_material)
    as [o|]; [|discriminate].
  cbn in F. injection F as F. rewrite F.
  split; [reflexivity|].
  rewrite (apply_returns (with_persona prediction DEEP_DIVER) _ _ _ _ _
             prediction_valid).
  cbv zeta. split; [reflexivity|].
  cbn [GuardrailResult.persona].
  unfold selected_override, _check_master_override,
    _check_deep_diver_override, DEEP_DIVER_MIN_MATERIALS.
  cbn [with_persona ClassificationResult.persona LearningPersona_eqb negb].
  destruct (Z.ltb_spec total_materials_viewed 3); [reflexivity | lia].
Qed.

End GuardrailExtras.

Section GuardrailExtrasWitnesses.
Import LogicGuardrails.

Lemma override_record_witness :
  exists r,
    apply (sample_prediction MASTER 0.9) (sample_features 0.1 0.1 0.5)
          (Some 40) None 10 60 = Ok r /\
    GuardrailResult.was_overridden r = true.
Proof.
  destruct (override_record_matches_result
              (sample_prediction MASTER 0.9) (sample_features 0.1 0.1 0.5)
              (Some 40) None 10%Z 60 eq_refl)
    as (r & E & _ & _ & W).
  exists r. split; [exact E|].
  apply W. vm_compute in E. injection E as <-. discriminate.
Defined.

Lemma other_personas_witness :
  exists r,
    apply (sample_prediction ANXIOUS 0.6) (sample_features 0.1 0.1 0.5)
          (Some 10) None 0 999 = Ok r /\
    GuardrailResult.persona r = ANXIOUS /\
    GuardrailResult.override r = None /\
    GuardrailResult.was_overridden r = false.
Proof.
  exact (other_personas_never_overridden
           (sample_prediction ANXIOUS 0.6) (sample_features 0.1 0.1 0.5)
           (Some 10) None 0%Z 999 eq_refl eq_refl).
Defined.

Lemma flags_depend_on_features_witness :
  exists r r',
    apply (sample_prediction MASTER 0.9) (sample_features 0.6 0.5 0)
          (Some 40) (Some MASTER) 10 60 = Ok r /\
    apply (sample_prediction LOST 0.3) (sample_features 0.6 0.5 0)
          None (Some MASTER) 0 0 = Ok r' /\
    GuardrailFlags.flag_reasons (GuardrailResult.flags r')
      = GuardrailFlags.flag_reasons (GuardrailResult.flags r).
Proof.
  destruct (flags_depend_on_features_only
              (sample_prediction MASTER 0.9) (sample_features 0.6 0.5 0)
              (Some 40) (Some MASTER) 10%Z 60 eq_refl
              (sample_prediction LOST 0.3) None 0%Z 0 eq_refl)
    as (r & r' & E & E' & _ & R & _).
  exists r, r'. auto.
Defined.

Lemma overrides_are_not_chained_witness :
  exists r r2,
    apply (sample_prediction SKIMMER 0.8) (sample_features 0.1 0.1 0.5)
          None None 2 400 = Ok r /\
    GuardrailResult.persona r = DEEP_DIVER /\
    apply (with_persona (sample_prediction SKIMMER 0.8)
                        (GuardrailResult.persona r))
          (sample_features 0.1 0.1 0.5) None None 2 400 = Ok r2 /\
    GuardrailResult.persona r2 = LOST.
Proof.
  apply (overrides_are_not_chained
           (sample_prediction SKIMMER 0.8) (sample_features 0.1 0.1 0.5)
           None None 2%Z 400 eq_refl eq_refl);
    reflexivity.
Defined.

End GuardrailExtrasWitnesses.

(** * Further properties of the recommendation table *)

Section RecommendationExtras.
Import RecommendationEngine.

Lemma distinctb_NoDup (l : list string) : distinctb l = true -> NoDup l.
Proof.
  induction l as [|x l IH]; cbn; intros H; constructor.
  - apply andb_prop in H. destruct H as [H _].
    apply negb_true_iff in H. intros I.
    assert (existsb (String.eqb x) l = true); [|congruence].
    apply existsb_exists. exists x. split; [exact I|].
    apply String.eqb_refl.
  - apply IH. apply andb_prop in H. tauto.
Qed.

Lemma lookup_member_table (p : LearningPersona) (r : PersonaRecommendations.t) :
  get_recommendations (Member p) = Ok r -> In (p, r) _persona_recommendations.
Proof.
  destruct p; intros E; injection E as <-; cbn; tauto.
Qed.

(** X19: The table is coherent as a whole: the forty recommendation ids are
    pairwise distinct across all bundles, each id starts with the value of
    the persona it is filed under followed by an underscore, and each
    action type is one of the four tags. *)
Theorem recommendation_table_coherent :
  NoDup (map (fun pr => Recommendation.id (snd pr)) all_recommendations) /\
  (forall p r rec,
     get_recommendations (Member p) = Ok r ->
     In rec (PersonaRecommendations.recommendations r) ->
     String.prefix (value p ++ "_") (Recommendation.id rec) = true /\
     In (Recommendation.action_type rec) action_types /\
     (1 <= Recommendation.priority rec)%Z).
Proof.
  split.
  - apply distinctb_NoDup. vm_compute. reflexivity.
  - intros p r rec E I.
    assert (A : forallb
                  (fun pr =>
                     String.prefix (value (fst pr) ++ "_")
                                   (Recommendation.id (snd pr)) &&
                     existsb (String.eqb (Recommendation.action_type (snd pr)))
                             action_types &&
                     (1 <=? Recommendation.priority (snd pr))%Z)
                  all_recommendations = true)
      by (vm_compute; reflexivity).
    rewrite forallb_forall in A.
    specialize (A (p, rec)).
    assert (M : In (p, rec) all_recommendations).
    { unfold all_recommendations. apply in_flat_map.
      exists (p, r). split; [now apply lookup_member_table|].
      cbn [fst snd]. now apply in_map. }
    specialize (A M). cbn [fst snd] in A.
    apply andb_prop in A. destruct A as [A A3].
    apply andb_prop in A. destruct A as [A1 A2].
    split; [exact A1|]. split; [|now apply Z.leb_le].
    apply existsb_exists in A2. destruct A2 as (t & T & Et).
    apply String.eqb_eq in Et. now rewrite Et.
Qed.

Lemma recommendation_table_witness :
  String.prefix "lost_" "lost_mentor_matching" = true /\
  In "feature"%string action_types.
Proof.
  destruct (proj2 recommendation_table_coherent LOST
              _get_lost_recommendations
              {| Recommendation.id := "lost_mentor_matching";
                 Recommendation.title := "Get Matched with a Mentor";
                 Recommendation.description :=
                   "Connect with an experienced mentor who can guide you, answer questions, and help you stay on track.";
                 Recommendation.action_type := "feature";
                 Recommendation.priority := 2 |} eq_refl)
    as (P & A & _).
  - cbn. tauto.
  - split; [exact P | exact A].
Defined.

(** X20: The two ways a lookup fails: an argument that matches no key of the
    table ([None], or a string that is no persona value) raises
    [ValueError]; a plain string that equals a persona value finds the
    entry but fails with [AttributeError] where the member's [value] is
    read for the log line.  No string and no [None] gets a bundle. *)
Theorem lookup_failure_kinds :
  get_recommendations PyNone = Raise ValueError /\
  (forall p, get_recommendations (PyStr (value p)) = Raise AttributeError) /\
  (forall s, (forall p, s <> value p) ->
             get_recommendations (PyStr s) = Raise ValueError).
Proof.
  split; [reflexivity|]. split.
  - intros p. now destruct p.
  - intros s N. unfold get_recommendations.
    cbn [_persona_recommendations find key_matches fst value].
    repeat match goal with
           | |- context [String.eqb ?v s] =>
               destruct (String.eqb_spec v s) as [E|_];
               [exfalso; symmetry in E; revert E;
                first [ apply (N SKIMMER) | apply (N STRUGGLER)
                      | apply (N ANXIOUS) | apply (N BURNOUT)
                      | apply (N MASTER) | apply (N PROCRASTINATOR)
                      | apply (N DEEP_DIVER) | apply (N SOCIAL_LEARNER)
                      | apply (N PERFECTIONIST) | apply (N LOST) ]
               |]
           end.
    reflexivity.
Qed.

Lemma lookup_failure_kinds_witness :
  get_recommendations (PyStr "guru") = Raise ValueError.
Proof.
  apply (proj2 (proj2 lookup_failure_kinds)).
  intros p. destruct p; discriminate.
Defined.

End RecommendationExtras.

(** * Further properties of the prediction endpoint *)

Section EndpointExtras.
Import Router.

Lemma append_when_app (c : bool) (s : string) (l : list string) :
  append_when c s l = l ++ map snd (filter fst [(c, s)]).
Proof. destruct c; cbn; [reflexivity | now rewrite app_nil_r]. Qed.

Lemma append_elif_app (a : bool) (s : string) (b : bool) (t : string)
    (l : list string) :
  append_elif a s b t l
  = l ++ map snd (filter fst [(a, s); (negb a && b, t)]).
Proof. destruct a, b; cbn; try reflexivity; now rewrite app_nil_r. Qed.

Lemma selected_app (l1 l2 : list (bool * string)) :
  map snd (filter fst l1) ++ map snd (filter fst l2)
  = map snd (filter fst (l1 ++ l2)).
Proof. now rewrite filter_app, map_app. Qed.

Lemma key_indicators_spec (f : FeatureVector) :
  FeatureSummary.key_indicators (_generate_feature_summary f)
  = spec_key_indicators f.
Proof.
  change (FeatureSummary.key_indicators (_generate_feature_summary f))
    with
    (append_elif (Qlt_bool 0.7 (active_days_ratio f))
                 "Consistent daily activity"
                 (Qlt_bool (active_days_ratio f) 0.2)
                 "Sporadic activity pattern"
    (append_elif (Qlt_bool 0.8 (quiz_score_norm f))
                 "Strong quiz performance"
                 (Qlt_bool (quiz_score_norm f) 0.4 &&
                  Qlt_bool 0.1 (quiz_attempt_frequency f))
                 "Struggling with quizzes"
    (append_when (Qlt_bool 0.5 (bookmark_ratio f))
                 "Active bookmarking behavior"
    (append_elif (Qlt_bool (engagement_trend_encoded f) 0.25)
                 "Declining engagement trend"
                 (Qlt_bool 0.75 (engagement_trend_encoded f))
                 "Increasing engagement trend"
    (append_when (Qlt_bool (scroll_depth f) 0.3)
                 "Quick material scanning"
    (append_when (Qlt_bool 0.8 (scroll_depth f))
                 "Thorough material reading"
    (append_when (Qlt_bool 0.5 (late_night_ratio f))
                 "Significant late-night activity"
    (append_when (Qlt_bool 0.7 (question_frequency f))
                 "High question frequency in chat" [])))))))).
  rewrite !append_elif_app, !append_when_app.
  rewrite app_nil_l, <- !app_assoc, !selected_app.
  reflexivity.
Qed.

Lemma in_selected (f : FeatureVector) (s : string) :
  In s (spec_key_indicators f) <-> In (true, s) (indicator_table f).
Proof.
  unfold spec_key_indicators. rewrite in_map_iff. split.
  - intros ([c t] & E & I). cbn in E. subst t.
    apply filter_In in I. destruct I as [I C]. cbn in C. now subst c.
  - intros I. exists (true, s). split; [reflexivity|].
    apply filter_In. split; [exact I | reflexivity].
Qed.

Lemma selected_NoDup (l : list (bool * string)) :
  NoDup (map snd l) -> NoDup (map snd (filter fst l)).
Proof.
  induction l as [|[c s] l IH]; cbn; intros N; [constructor|].
  inversion N as [|? ? NI N']; subst.
  destruct c; cbn; [|now apply IH].
  constructor; [|now apply IH].
  intros I. apply NI. apply in_map_iff in I.
  destruct I as (x & E & I). apply filter_In in I.
  apply in_map_iff. exists x. tauto.
Qed.

(** From the membership of a message in the table, the condition of its
    entry. *)
Ltac entry_condition H :=
  unfold indicator_table in H; cbn [In] in H;
  repeat destruct H as [H|H]; try discriminate H; try contradiction;
  injection H as H.

Lemma key_indicators_characterised_aux (f : FeatureVector) :
  let listed s :=
    In s (FeatureSummary.key_indicators (_generate_feature_summary f)) in
  (listed "Declining engagement trend"%string
   <-> engagement_trend_encoded f < 0.25) /\
  (listed "Increasing engagement trend"%string
   <-> 0.75 < engagement_trend_encoded f) /\
  (listed "Significant late-night activity"%string
   <-> 0.5 < late_night_ratio f) /\
  ~ (listed "Thorough material reading"%string /\
     listed "Quick material scanning"%string) /\
  ~ (listed "Strong quiz performance"%string /\
     listed "Struggling with quizzes"%string) /\
  ~ (listed "Consistent daily activity"%string /\
     listed "Sporadic activity pattern"%string) /\
  NoDup (FeatureSummary.key_indicators (_generate_feature_summary f)).
Proof.
  cbv zeta. rewrite key_indicators_spec, !in_selected.
  split; [|split; [|split; [|split; [|split; [|split]]]]].
  - split.
    + intros H. entry_condition H. now apply Qlt_bool_iff.
    + intros H. apply Qlt_bool_iff in H. unfold indicator_table.
      do 4 right. left. now rewrite H.
  - split.
    + intros H. entry_condition H.
      apply andb_prop in H. apply Qlt_bool_iff. tauto.
    + intros H. unfold indicator_table. do 5 right. left.
      destruct (Qlt_bool_spec (engagement_trend_encoded f) 0.25); [lra|].
      apply Qlt_bool_iff in H. now rewrite H.
  - split.
    + intros H. entry_condition H. now apply Qlt_bool_iff.
    + intros H. apply Qlt_bool_iff in H. unfold indicator_table.
      right. left. now rewrite H.
  - intros [A B]. entry_condition A. entry_condition B.
    apply Qlt_bool_iff in A, B. lra.
  - intros [A B]. entry_condition A. entry_condition B.
    rewrite A in B. discriminate.
  - intros [A B]. entry_condition A. entry_condition B.
    rewrite A in B. discriminate.
  - apply selected_NoDup. apply distinctb_NoDup. reflexivity.
Qed.



(** What a returned response was built from. *)
Lemma predict_persona_ok_inv
    (components : Components) (request : PredictRequest.t)
    (response : PredictResponse.t) :
  predict_persona components request = Ok response ->
  exists classifier features classification guardrail_result bundle,
    _initialized components = true /\
    _persona_classifier components = Some classifier /\
    PersonaClassifier.is_loaded classifier = true /\
    FeatureExtractor.extract (PredictRequest.behavior_data request)
      = Ok features /\
    PersonaClassifier.predict classifier features = Ok classification /\
    LogicGuardrails.apply classification features
      (PredictRequest.quiz_score request)
      (parse_previous_persona (PredictRequest.previous_persona request))
      (unique_materials_viewed
         (material (PredictRequest.behavior_data request)))
      (avg_time_per_material_of
         (material (PredictRequest.behavior_data request)))
      = Ok guardrail_result /\
    RecommendationEngine.get_recommendations
      (Member (GuardrailResult.persona guardrail_result)) = Ok bundle /\
    response =
      {| PredictResponse.user_id := PredictRequest.user_id request;
         PredictResponse.persona :=
           value (GuardrailResult.persona guardrail_result);
         PredictResponse.confidence :=
           GuardrailResult.confidence guardrail_result;
         PredictResponse.is_low_confidence :=
           ClassificationResult.is_low_confidence classification;
         PredictResponse.recommendations :=
           PersonaRecommendations.recommendations bundle;
         PredictResponse.feature_summary := _generate_feature_summary features;
         PredictResponse.override_info :=
           GuardrailResult.override guardrail_result;
         PredictResponse.flags :=
           GuardrailFlags.flag_reasons
             (GuardrailResult.flags guardrail_result) |}.
Proof.
  unfold predict_persona.
  destruct (_persona_classifier components) as [classifier|]; [|discriminate].
  destruct (_initialized components); [|discriminate].
  destruct (PersonaClassifier.is_loaded classifier) eqn:L; [|discriminate].
  cbn [andb]. unfold predict_pipeline.
  destruct (FeatureExtractor.extract _) as [features|] eqn:E; [|discriminate].
  cbn [bind].
  destruct (PersonaClassifier.predict classifier features)
    as [classification|] eqn:P; [|discriminate].
  cbn [bind].
  destruct (LogicGuardrails.apply _ _ _ _ _ _) as [gr|] eqn:A;
    [|discriminate].
  cbn [bind].
  destruct (RecommendationEngine.get_recommendations _) as [bundle|] eqn:R;
    [|discriminate].
  cbn [bind]. unfold PredictResponse.new.
  destruct (unit_range _); [|discriminate].
  intros H. injection H as <-.
  exists classifier, features, classification, gr, bundle.
  repeat split; assumption.
Qed.

(** X22: The endpoint fails in two ways only, and the health check predicts
    them: it answers 503 exactly when the health check reports the model
    as not loaded, any failure inside the pipeline becomes 500, and the
    health status is healthy exactly when the model is reported loaded,
    in which case version and training date are the classifier's. *)
Theorem endpoint_failures_and_health
    (components : Components) (request : PredictRequest.t) :
  (forall e, predict_persona components request = Raise e ->
             e = HTTPException 503 \/ e = HTTPException 500) /\
  (predict_persona components request = Raise (HTTPException 503) <->
   HealthResponse.model_loaded (health_check components) = false) /\
  (HealthResponse.status (health_check components) = "healthy"%string <->
   HealthResponse.model_loaded (health_check components) = true) /\
  (HealthResponse.model_loaded (health_check components) = true ->
   exists classifier,
     _persona_classifier components = Some classifier /\
     HealthResponse.model_version (health_check components)
       = PersonaClassifier._model_version classifier /\
     HealthResponse.last_training_date (health_check components)
       = PersonaClassifier._last_training_date classifier /\
     HealthResponse.error_details (health_check components) = None).
Proof.
  unfold predict_persona, health_check.
  destruct (_persona_classifier components) as [classifier|].
  - destruct (_initialized components && PersonaClassifier.is_loaded classifier).
    + cbn. destruct (predict_pipeline classifier request).
      * repeat split; try discriminate; eauto.
      * repeat split; try discriminate; eauto.
        intros e' H. injection H as <-. now right.
    + cbn. repeat split; try discriminate; eauto.
      intros e H. injection H as <-. now left.
  - cbn. repeat split; try discriminate; eauto.
    intros e H. injection H as <-. now left.
Qed.

Lemma endpoint_failures_and_health_witness :
  predict_persona
    {| _initialized := false; _persona_classifier := None |}
    ten_views_of_two_materials = Raise (HTTPException 503).
Proof.
  apply (proj1 (proj2 (endpoint_failures_and_health
                         {| _initialized := false;
                            _persona_classifier := None |}
                         ten_views_of_two_materials))).
  reflexivity.
Defined.

(** X23: A well-typed request that reports more user messages than
    messages, the latter below [2^53], is answered with 500 by a ready
    service: the uncapped chat ratio is above 1 and fails the feature
    vector's range check before the model is asked.  (From [2^53]
    messages on the double ratio of the source can round to 1.) *)
Theorem endpoint_500_on_more_user_messages
    (components : Components) (request : PredictRequest.t) :
  HealthResponse.model_loaded (health_check components) = true ->
  BehaviorData_valid (PredictRequest.behavior_data request) = true ->
  exact_int (total_messages (chat (PredictRequest.behavior_data request)))
  = true ->
  (0 < total_messages (chat (PredictRequest.behavior_data request))
     < user_messages (chat (PredictRequest.behavior_data request)))%Z ->
  predict_persona components request = Raise (HTTPException 500).
Proof.
  intros R V _ C.
  assert (E : FeatureExtractor.extract (PredictRequest.behavior_data request)
              = Raise ValidationError).
  { apply extract_raises. apply not_true_iff_false. intros U.
    apply chat_message_ratio_unit in U; [lia|].
    unfold BehaviorData_valid in V. rewrite !andb_true_iff in V. tauto. }
  revert R. unfold predict_persona, health_check.
  destruct (_persona_classifier components) as [classifier|];
    [|discriminate].
  destruct (_initialized components && PersonaClassifier.is_loaded classifier);
    [|discriminate].
  intros _. unfold predict_pipeline. rewrite E. reflexivity.
Qed.

Lemma endpoint_500_witness :
  predict_persona ready_components
                  (request_of more_user_messages_than_messages)
  = Raise (HTTPException 500).
Proof.
  apply endpoint_500_on_more_user_messages;
    [reflexivity | reflexivity | reflexivity | simpl; lia].
Defined.

(** X24: A previous persona the caller sends that is no persona value, or is
    empty, is treated as absent: the answer is the one to the same request
    without a previous persona. *)
Theorem unrecognised_previous_persona_is_ignored
    (components : Components) (request : PredictRequest.t) (s : string) :
  (forall p, s <> value p) ->
  predict_persona components (with_previous_persona request (Some s))
  = predict_persona components (with_previous_persona request None).
Proof.
  intros N.
  assert (P : parse_previous_persona (Some s) = None).
  { unfold parse_previous_persona. destruct (String.eqb s ""); [reflexivity|].
    destruct (LearningPersona_of_value s) as [p|] eqn:E; [|reflexivity].
    apply LearningPersona_of_value_inv in E. now destruct (N p). }
  unfold predict_persona, predict_pipeline.
  cbn [with_previous_persona PredictRequest.behavior_data
       PredictRequest.quiz_score PredictRequest.previous_persona
       PredictRequest.user_id].
  now rewrite P.
Qed.

Lemma unrecognised_previous_persona_witness :
  predict_persona ready_components
    (with_previous_persona ten_views_of_two_materials (Some "guru"%string))
  = predict_persona ready_components
      (with_previous_persona ten_views_of_two_materials None).
Proof.
  apply unrecognised_previous_persona_is_ignored.
  intros p. destruct p; discriminate.
Defined.

(** X25: A returned response is coherent: its persona is the value of a
    persona, its recommendations are the four of that persona's bundle,
    its confidence lies in the unit range with the low-confidence flag set
    exactly below 0.5, an override it reports ends at the persona it
    names, and it answers the user of the request. *)
Theorem response_is_coherent
    (components : Components) (request : PredictRequest.t)
    (response : PredictResponse.t) :
  predict_persona components request = Ok response ->
  exists p bundle,
    PredictResponse.persona response = value p /\
    RecommendationEngine.get_recommendations (Member p) = Ok bundle /\
    PredictResponse.recommendations response
      = PersonaRecommendations.recommendations bundle /\
    List.length (PredictResponse.recommendations response) = 4%nat /\
    0 <= PredictResponse.confidence response <= 1 /\
    (PredictResponse.is_low_confidence response = true <->
     PredictResponse.confidence response < 0.5) /\
    (forall o, PredictResponse.override_info response = Some o ->
               value (GuardrailOverride.final_persona o)
               = PredictResponse.persona response) /\
    PredictResponse.user_id response = PredictRequest.user_id request.
Proof.
  intros H.
  destruct (predict_persona_ok_inv _ _ _ H)
    as (clf & f & c & gr & bundle & _ & _ & _ & _ & P & A & R & ->).
  destruct (predict_inv _ _ _ P) as (m & _ & _ & _ & _ & L & U).
  rewrite (apply_returns _ _ _ _ _ _ U) in A. cbv zeta in A.
  injection A as <-.
  cbn [GuardrailResult.persona] in R.
  cbn [PredictResponse.persona PredictResponse.recommendations
       PredictResponse.confidence PredictResponse.is_low_confidence
       PredictResponse.override_info PredictResponse.user_id
       GuardrailResult.persona GuardrailResult.confidence
       GuardrailResult.override].
  eexists. exists bundle.
  split; [reflexivity|]. split; [exact R|]. split; [reflexivity|].
  split.
  { destruct (lookup_member
                (match selected_override c (PredictRequest.quiz_score request)
                         (unique_materials_viewed
                            (material (PredictRequest.behavior_data request)))
                         (avg_time_per_material_of
                            (material (PredictRequest.behavior_data request)))
                 with
                 | Some o => GuardrailOverride.final_persona o
                 | None => ClassificationResult.persona c
                 end)) as (b' & R' & _ & Pr).
    rewrite R in R'. injection R' as <-.
    unfold priorities in Pr.
    rewrite <- (length_map Recommendation.priority), Pr. reflexivity. }
  split; [now apply unit_range_iff|].
  split; [rewrite L; apply Qlt_bool_iff|].
  split; [|reflexivity].
  intros o E. now rewrite E.
Qed.

Lemma parse_previous_master (previous : option string) :
  parse_previous_persona previous = Some MASTER <->
  previous = Some "master"%string.
Proof.
  split.
  - destruct previous as [s|]; [|discriminate]. cbn.
    destruct (String.eqb s ""); [discriminate|].
    destruct (LearningPersona_of_value s) as [p|] eqn:E; [|discriminate].
    intros H. injection H as ->.
    apply LearningPersona_of_value_inv in E. now subst s.
  - intros ->. reflexivity.
Qed.

(** X26: Flags, trend and summary tell one story in a returned response: the
    burnout reason is among the flags exactly when the engagement trend
    of the data is DECLINING and the previous persona sent is
    [master]; whenever it is, the summary lists the declining-trend
    indicator; and whenever the late-night reason is among the flags, the
    summary lists the late-night indicator. *)
Theorem flags_trend_and_summary_agree
    (components : Components) (request : PredictRequest.t)
    (response : PredictResponse.t) :
  predict_persona components request = Ok response ->
  let listed s :=
    In s (FeatureSummary.key_indicators
            (PredictResponse.feature_summary response)) in
  (In DecliningFromMaster (PredictResponse.flags response) <->
   FeatureExtractor._calculate_engagement_trend
     (PredictRequest.behavior_data request) = DECLINING /\
   PredictRequest.previous_persona request = Some "master"%string) /\
  (In DecliningFromMaster (PredictResponse.flags response) ->
   listed "Declining engagement trend"%string) /\
  (forall x, In (HighLateNightActivity x) (PredictResponse.flags response) ->
             listed "Significant late-night activity"%string).
Proof.
  intros H.
  destruct (predict_persona_ok_inv _ _ _ H)
    as (clf & f & c & gr & bundle & _ & _ & _ & E & P & A & _ & ->).
  destruct (predict_inv _ _ _ P) as (m & _ & _ & _ & _ & _ & U).
  rewrite (apply_returns _ _ _ _ _ _ U) in A. cbv zeta in A.
  injection A as <-.
  cbn [PredictResponse.flags PredictResponse.feature_summary
       GuardrailResult.flags GuardrailFlags.flag_reasons].
  set (prev := parse_previous_persona
                 (PredictRequest.previous_persona request)).
  assert (T : engagement_trend_encoded f < 0.25 <->
              FeatureExtractor._calculate_engagement_trend
                (PredictRequest.behavior_data request) = DECLINING).
  { invert_extract E.
    cbn [engagement_trend_encoded FeatureExtractor._extract_activity_features
         FeatureExtractor.af_engagement_trend_encoded].
    destruct (FeatureExtractor._calculate_engagement_trend _);
      split; intros X; try discriminate; try reflexivity;
      exfalso; revert X; clear; intros X; vm_compute in X; discriminate. }
  assert (B : In DecliningFromMaster
                (LogicGuardrails._check_anxious_flags f ++
                 LogicGuardrails._check_burnout_flags f prev) <->
              engagement_trend_encoded f < 0.25 /\ prev = Some MASTER).
  { rewrite in_app_iff.
    unfold LogicGuardrails._check_anxious_flags,
      LogicGuardrails._check_burnout_flags.
    destruct (Qlt_bool_spec (engagement_trend_encoded f) 0.25) as [D|D].
    - destruct prev as [[]|]; cbn [LearningPersona_eqb andb app];
        repeat match goal with
               | |- context [if ?c then _ else _] => destruct c
               end;
        cbn; split; intros X; try tauto;
        try (destruct X as [[X|[]]|X]; try discriminate; try tauto);
        try (destruct X as [_ X]; discriminate);
        try (destruct X as [X|X]; tauto).
    - cbn [andb].
      repeat match goal with
             | |- context [if ?c then _ else _] => destruct c
             end;
        cbn; split; intros X;
        try (destruct X as [[X|[]]|[]]; discriminate);
        try (destruct X as [[]|[]]);
        destruct X as [X _]; lra. }
  cbv zeta. split; [|split].
  - rewrite B, T. unfold prev. now rewrite parse_previous_master.
  - intros X. apply B in X.
    apply (proj2 (proj1 (key_indicators_characterised_aux f))). tauto.
  - intros x X. apply in_app_iff in X.
    apply (proj2 (proj1 (proj2 (proj2 (key_indicators_characterised_aux f))))).
    destruct X as [X|X].
    + unfold LogicGuardrails._check_anxious_flags,
        LogicGuardrails.ANXIOUS_LATE_NIGHT_THRESHOLD in X.
      destruct (Qlt_bool_spec 0.5 (late_night_ratio f)); [assumption|].
      destruct X.
    + unfold LogicGuardrails._check_burnout_flags in X.
      destruct (_ && _); cbn in X; [destruct X as [X|[]]; discriminate|].
      destruct X.
Qed.

Lemma response_is_coherent_witness :
  exists response,
    predict_persona ready_components ten_views_of_two_materials
      = Ok response /\
    List.length (PredictResponse.recommendations response) = 4%nat /\
    PredictResponse.confidence response < 1.
Proof.
  destruct (predict_persona ready_components ten_views_of_two_materials)
    as [response|] eqn:E; [|vm_compute in E; discriminate].
  destruct (response_is_coherent _ _ _ E) as (p & b & _ & _ & _ & L & _).
  exists response. split; [reflexivity|]. split; [exact L|].
  vm_compute in E. injection E as <-. reflexivity.
Defined.

Lemma flags_trend_and_summary_witness :
  exists response,
    predict_persona ready_components declining_master_request
      = Ok response /\
    In DecliningFromMaster (PredictResponse.flags response) /\
    In "Declining engagement trend"%string
       (FeatureSummary.key_indicators
          (PredictResponse.feature_summary response)).
Proof.
  destruct (predict_persona ready_components declining_master_request)
    as [response|] eqn:E; [|vm_compute in E; discriminate].
  destruct (flags_trend_and_summary_agree _ _ _ E) as (B & S & _).
  exists response. split; [reflexivity|].
  assert (F : In DecliningFromMaster (PredictResponse.flags response)).
  { apply B. split; reflexivity. }
  split; [exact F | exact (S F)].
Defined.

End EndpointExtras.
